(** * Second-hand Marketplace: the controller, its entities and its CSV store

    A shallow embedding of [market_place.py]: the tools, the entity
    classes with their [to_row] / [*_from_row] codecs, the four tables of
    the [Marketplace] class, its load/save pair and its eight operations,
    followed by the properties of the specification.

    Modelling conventions.
    - A Python [str] is a [string]; the case and whitespace methods
      ([str.lower], [str.upper], [str.capitalize], [str.strip],
      [str.split]) act on ASCII; characters above 127 are left as they
      are.
    - A Python [int] is a [Z]; [str(n)] is its decimal text.
    - A Python [float] is an IEEE 754 binary64 value, a [spec_float] with
      precision 53 and maximal exponent 1024. A product is [SFmul];
      [float(n)] of an [int] raises [OverflowError] when [n] is too large;
      [round(x, 2)] is the correctly rounded two-decimal form of [x]
      converted back to binary64, [format(x, ".2f")] is that two-decimal
      form as text, and [float(s)] is the correctly rounded value of a
      decimal literal.
    - A Python [dict] is an insertion-ordered association list.
    - An operation returns its result together with the world it leaves,
      the result being a value, an exception, or the mark that the call
      has not returned.
    - [random.randint] reads from an explicit list of draws; the retry
      loop of [generate_id] that exhausts the list has not returned.
    - A CSV file is the list of its rows under the header, a row being the
      association of column names to cell texts that [csv.DictWriter]
      receives and [csv.DictReader] returns, with a cell for every
      column. *)

From Stdlib Require Import ZArith List String Ascii Bool Lia.
From Stdlib Require Import Decimal DecimalString DecimalPos DecimalN DecimalZ.
From Stdlib Require Import SpecFloat PrimFloat FloatOps.
Import ListNotations.

Local Open Scope string_scope.
Local Open Scope Z_scope.

(* ------------------------------------------------------------------ *)
(** ** Python strings *)

Module PyStr.

(** [str.isspace] on one ASCII character: TAB, LF, VT, FF, CR, the four
    separators FS, GS, RS, US, and the space. *)
Definition is_space (c : ascii) : bool :=
  let n := N_of_ascii c in
  ((9 <=? n) && (n <=? 13) || (28 <=? n) && (n <=? 32))%N.

Definition is_upper (c : ascii) : bool :=
  let n := N_of_ascii c in ((65 <=? n) && (n <=? 90))%N.

Definition is_lower (c : ascii) : bool :=
  let n := N_of_ascii c in ((97 <=? n) && (n <=? 122))%N.

Definition lower_char (c : ascii) : ascii :=
  if is_upper c then ascii_of_N (N_of_ascii c + 32) else c.

Definition upper_char (c : ascii) : ascii :=
  if is_lower c then ascii_of_N (N_of_ascii c - 32) else c.

Fixpoint map_chars (f : ascii -> ascii) (s : string) : string :=
  match s with
  | EmptyString => EmptyString
  | String c r => String (f c) (map_chars f r)
  end.

(** [s.lower()] and [s.upper()] *)
Definition lower (s : string) : string := map_chars lower_char s.
Definition upper (s : string) : string := map_chars upper_char s.

(** [s.capitalize()]: first character upper case, the rest lower case. *)
Definition capitalize (s : string) : string :=
  match s with
  | EmptyString => EmptyString
  | String c r => String (upper_char c) (lower r)
  end.

Fixpoint rev_onto (s acc : string) : string :=
  match s with
  | EmptyString => acc
  | String c r => rev_onto r (String c acc)
  end.

Definition reverse (s : string) : string := rev_onto s EmptyString.

Fixpoint lstrip (s : string) : string :=
  match s with
  | EmptyString => EmptyString
  | String c r => if is_space c then lstrip r else s
  end.

Definition rstrip (s : string) : string := reverse (lstrip (reverse s)).

(** [s.strip()] *)
Definition strip (s : string) : string := rstrip (lstrip s).

(** [s.split()]: the maximal runs of non-space characters, in order.
    [cur] is the run being read, [None] between two runs. *)
Fixpoint split_from (s : string) (cur : option string) : list string :=
  match s with
  | EmptyString =>
      match cur with Some w => [w] | None => [] end
  | String c r =>
      if is_space c then
        match cur with
        | Some w => w :: split_from r None
        | None => split_from r None
        end
      else
        split_from r (Some (match cur with
                            | Some w => w ++ String c EmptyString
                            | None => String c EmptyString
                            end))
  end.

Definition split (s : string) : list string := split_from s None.

(** [sep.join(ws)] *)
Fixpoint join (sep : string) (ws : list string) : string :=
  match ws with
  | [] => EmptyString
  | [w] => w
  | w :: rest => w ++ sep ++ join sep rest
  end.

(** [not s] for a string: true on the empty string. *)
Definition is_empty (s : string) : bool :=
  match s with EmptyString => true | _ => false end.

(** [x in xs] for a list of strings. *)
Definition mem (x : string) (xs : list string) : bool :=
  existsb (String.eqb x) xs.

End PyStr.

(* ------------------------------------------------------------------ *)
(** ** Tools *)

(** [title_case]: [" ".join(word.capitalize() for word in string.strip().split())] *)
Definition title_case (s : string) : string :=
  PyStr.join " " (map PyStr.capitalize (PyStr.split (PyStr.strip s))).

(** [parse_bool]: [str(string).strip().lower() in ("true", "1", "yes", "y")] *)
Definition parse_bool (s : string) : bool :=
  PyStr.mem (PyStr.lower (PyStr.strip s)) ["true"; "1"; "yes"; "y"].

(** [bool_str] *)
Definition bool_str (b : bool) : string := if b then "True" else "False".




(* ------------------------------------------------------------------ *)
(** ** Exceptions and results *)

(** The exceptions the modelled code can raise. The controller raises
    [ValueError] with a fixed message per failure; [KeyError] comes from
    [d[k]] on a missing key, [OverflowError] from converting an [int] that
    is too large to a [float]. *)
Inductive exn : Type :=
| ValueError (msg : string)
| KeyError (key : string)
| OverflowError (msg : string).

(** Outcome of a call: a value, an exception, or [Spin] when the retry
    loop of [generate_id] is still running after the supplied draws. *)
Inductive res (A : Type) : Type :=
| Ret (a : A)
| Raise (e : exn)
| Spin.

Arguments Ret {A} a.
Arguments Raise {A} e.
Arguments Spin {A}.

Definition bind {A B : Type} (r : res A) (k : A -> res B) : res B :=
  match r with
  | Ret a => k a
  | Raise e => Raise e
  | Spin => Spin
  end.

Notation "x <- r ;; k" := (bind r (fun x => k))
  (at level 61, r at next level, right associativity).

(* ------------------------------------------------------------------ *)
(** ** Python integers as text *)

Module PyInt.

Definition is_digit (c : ascii) : bool :=
  let n := N_of_ascii c in ((48 <=? n) && (n <=? 57))%N.

(** Digit grouping: an underscore is accepted between two digits and
    dropped; anywhere else it makes the literal invalid. [prev] tells
    whether the previous character was a digit. *)
Fixpoint ungroup_from (prev : bool) (s : string) : option string :=
  match s with
  | EmptyString => Some EmptyString
  | String c r =>
      if Ascii.eqb c "_" then
        match r with
        | String d _ => if prev && is_digit d then ungroup_from false r else None
        | EmptyString => None
        end
      else option_map (String c) (ungroup_from (is_digit c) r)
  end.

Definition ungroup (s : string) : option string := ungroup_from false s.

(** A non-empty run of decimal digits as a number. *)
Definition digits_value (s : string) : option Z :=
  match NilZero.uint_of_string s with
  | Some u => Some (Z.of_N (N.of_uint u))
  | None => None
  end.

(** A leading sign: [(negative, rest)]. *)
Definition take_sign (s : string) : bool * string :=
  match s with
  | String c r =>
      if Ascii.eqb c "-" then (true, r)
      else if Ascii.eqb c "+" then (false, r)
      else (false, s)
  | EmptyString => (false, s)
  end.

(** [str(n)] *)
Definition to_str (n : Z) : string := NilZero.string_of_int (Z.to_int n).

(** [int(s)] for a string [s]. *)
Definition of_str (s : string) : res Z :=
  let '(neg, body) := take_sign (PyStr.strip s) in
  match ungroup body with
  | Some ds =>
      match digits_value ds with
      | Some v => Ret (if neg then - v else v)
      | None => Raise (ValueError "invalid literal for int() with base 10")
      end
  | None => Raise (ValueError "invalid literal for int() with base 10")
  end.

End PyInt.


(* ------------------------------------------------------------------ *)
(** ** Python floats *)

Module PyFloat.

Definition prec : Z := 53.
Definition emax : Z := 1024.

(** A [float] is a binary64 value. *)
Definition float : Type := spec_float.

Definition zero : float := S754_zero false.

(** [x * y], [x <= y] *)
Definition mul (x y : float) : float := SFmul prec emax x y.
Definition leb (x y : float) : bool := SFleb x y.

(** The quotient [a / b] rounded to the nearest integer, ties to even
    ([0 <= a], [0 < b]). *)
Definition div_half_even (a b : Z) : Z :=
  let q := a / b in
  match 2 * (a mod b) ?= b with
  | Lt => q
  | Eq => if Z.even q then q else q + 1
  | Gt => q + 1
  end.

(** [a < b * 2^l], for any sign of [l]. *)
Definition below_scaled (a b l : Z) : bool :=
  if 0 <=? l then a <? b * 2 ^ l else a * 2 ^ (- l) <? b.

(** The integer part of the binary logarithm of [a / b] ([0 < a], [0 < b]). *)
Definition log2_ratio (a b : Z) : Z :=
  let l := Z.log2 a - Z.log2 b in
  if below_scaled a b l then l - 1 else l.

(** [a / (b * 2^e)] rounded to the nearest integer, ties to even. *)
Definition scaled_mantissa (a b e : Z) : Z :=
  if 0 <=? e then div_half_even a (b * 2 ^ e)
  else div_half_even (a * 2 ^ (- e)) b.

(** The binary64 value nearest to the rational [a / b] with sign [s]
    ([0 <= a], [0 < b]), ties to even: what a correctly rounded
    decimal-to-binary conversion returns. It underflows to a zero and
    overflows to an infinity. *)
Definition of_ratio (s : bool) (a b : Z) : float :=
  if a <=? 0 then S754_zero s
  else
    let e := Z.max (log2_ratio a b - 52) (-1074) in
    let m := scaled_mantissa a b e in
    let '(m, e) := if m =? 2 ^ 53 then (2 ^ 52, e + 1) else (m, e) in
    match m with
    | Zpos p => if e <=? 971 then S754_finite s p e else S754_infinity s
    | _ => S754_zero s
    end.

(** [float(n)] for an [int] [n]: the nearest binary64 value, or
    [OverflowError] when that is not finite. *)
Definition of_int (n : Z) : res float :=
  match of_ratio (n <? 0) (Z.abs n) 1 with
  | S754_infinity _ => Raise (OverflowError "int too large to convert to float")
  | x => Ret x
  end.

(** [x * n] for a [float] [x] and an [int] [n]. *)
Definition mul_int (x : float) (n : Z) : res float :=
  y <- of_int n ;; Ret (mul x y).

(** The value [m * 2^e] in hundredths, rounded to the nearest integer,
    ties to even: the digits of the correctly rounded two-decimal form. *)
Definition hundredths (m : positive) (e : Z) : Z :=
  if 0 <=? e then Zpos m * 2 ^ e * 100
  else div_half_even (Zpos m * 100) (2 ^ (- e)).

(** [round(x, 2)]: the two-decimal form of [x] converted back to
    binary64; infinities, NaN and zeros are returned as they are. *)
Definition round2 (x : float) : float :=
  match x with
  | S754_finite s m e => of_ratio s (hundredths m e) 100
  | _ => x
  end.

Definition sign_str (s : bool) : string := if s then "-" else "".

Definition digit_char (d : Z) : ascii := ascii_of_N (48 + Z.to_N d).

(** [n] hundredths in fixed notation with two decimals. *)
Definition fixed2 (n : Z) : string :=
  PyInt.to_str (n / 100) ++ "."
  ++ String (digit_char (n / 10 mod 10)) (String (digit_char (n mod 10)) "").

(** [format(x, ".2f")] *)
Definition format2 (x : float) : string :=
  match x with
  | S754_nan => "nan"
  | S754_infinity s => sign_str s ++ "inf"
  | S754_zero s => sign_str s ++ "0.00"
  | S754_finite s m e => sign_str s ++ fixed2 (hundredths m e)
  end.

(** The text before the first occurrence of one of two characters, and
    the text after it when there is one. *)
Fixpoint cut_at (c1 c2 : ascii) (s : string) : string * option string :=
  match s with
  | EmptyString => (EmptyString, None)
  | String c r =>
      if Ascii.eqb c c1 || Ascii.eqb c c2 then (EmptyString, Some r)
      else let '(a, b) := cut_at c1 c2 r in (String c a, b)
  end.

(** A possibly empty run of decimal digits as a number. *)
Definition digits_or_empty (s : string) : option Z :=
  match NilEmpty.uint_of_string s with
  | Some u => Some (Z.of_N (N.of_uint u))
  | None => None
  end.

(** The exponent part of a literal: an optional sign and digits. *)
Definition exponent_value (s : string) : option Z :=
  let '(neg, ds) := PyInt.take_sign s in
  match PyInt.digits_value ds with
  | Some v => Some (if neg then - v else v)
  | None => None
  end.

Definition bad_float : exn := ValueError "could not convert string to float".

(** The decimal literal [ip.fp] times ten to the [x], with sign [s]:
    with [n] digits in [fp], the digits [ip fp] read as one number, times
    ten to the [x - n]. *)
Definition of_decimal (s : bool) (ip fp : string) (x : Z) : res float :=
  if PyStr.is_empty ip && PyStr.is_empty fp then Raise bad_float
  else
    match digits_or_empty ip, digits_or_empty fp with
    | Some i, Some f =>
        let n := Z.of_nat (String.length fp) in
        let d := i * 10 ^ n + f in
        let k := x - n in
        Ret (if 0 <=? k then of_ratio s (d * 10 ^ k) 1
             else of_ratio s d (10 ^ (- k)))
    | _, _ => Raise bad_float
    end.

(** [float(s)] for a string [s]. *)
Definition of_str (str : string) : res float :=
  let '(s, body) := PyInt.take_sign (PyStr.strip str) in
  let word := PyStr.lower body in
  if String.eqb word "inf" || String.eqb word "infinity" then Ret (S754_infinity s)
  else if String.eqb word "nan" then Ret S754_nan
  else
    match PyInt.ungroup body with
    | None => Raise bad_float
    | Some num =>
        let '(mant, ex) := cut_at "e" "E" num in
        let '(ip, fp) := cut_at "." "." mant in
        let fp := match fp with Some f => f | None => EmptyString end in
        match ex with
        | None => of_decimal s ip fp 0
        | Some xs =>
            match exponent_value xs with
            | Some x => of_decimal s ip fp x
            | None => Raise bad_float
            end
        end
    end.

(** A literal of the source, read as [float(...)] reads it. *)
Definition lit (s : string) : float :=
  match of_str s with Ret x => x | _ => S754_nan end.

End PyFloat.

Import PyFloat(float).

(* ------------------------------------------------------------------ *)
(** ** Python dictionaries *)

Module Dict.

(** Keys are strings; iteration follows insertion order. *)
Definition t (V : Type) : Type := list (string * V).

Definition empty {V : Type} : t V := [].

(** [d.get(k)] *)
Fixpoint get {V : Type} (k : string) (d : t V) : option V :=
  match d with
  | [] => None
  | (k', v) :: r => if String.eqb k k' then Some v else get k r
  end.

(** [k in d] *)
Definition mem {V : Type} (k : string) (d : t V) : bool :=
  match get k d with Some _ => true | None => false end.

(** [d[k] = v]: a present key keeps its place, a new key goes last. *)
Fixpoint set {V : Type} (k : string) (v : V) (d : t V) : t V :=
  match d with
  | [] => [(k, v)]
  | (k', v') :: r =>
      if String.eqb k k' then (k', v) :: r else (k', v') :: set k v r
  end.

(** [d.values()], [d.keys()] *)
Definition values {V : Type} (d : t V) : list V := map snd d.
Definition keys {V : Type} (d : t V) : list string := map fst d.

End Dict.

(* ------------------------------------------------------------------ *)
(** ** Constants *)

Definition CATEGORIES : list string :=
  ["Electronics"; "Books"; "Furniture"; "Fashion"; "Sports"; "Home"; "Toys";
   "Others"].

Definition CONDITIONS : list string :=
  ["NEW"; "LIKE_NEW"; "VERY_GOOD"; "GOOD"; "ACCEPTABLE"].

Definition CATEGORY_BASELINE : Dict.t float :=
  [("Electronics", PyFloat.lit "300.0");
   ("Books", PyFloat.lit "20.0");
   ("Furniture", PyFloat.lit "150.0");
   ("Fashion", PyFloat.lit "50.0");
   ("Sports", PyFloat.lit "80.0");
   ("Home", PyFloat.lit "60.0");
   ("Toys", PyFloat.lit "25.0");
   ("Others", PyFloat.lit "40.0")].

Definition CONDITION_MULTIPLIER : Dict.t float :=
  [("NEW", PyFloat.lit "1.00");
   ("LIKE_NEW", PyFloat.lit "0.90");
   ("VERY_GOOD", PyFloat.lit "0.80");
   ("GOOD", PyFloat.lit "0.65");
   ("ACCEPTABLE", PyFloat.lit "0.50")].

(* ------------------------------------------------------------------ *)
(** ** The ID generator *)

(** [generate_id]: draw [random.randint(100000, 999999)] until its text
    is not a key of [existing]. A draw [d] of the list stands for the
    number [100000 + d mod 900000]; the result is [None] when the draws
    end before an unused number comes. *)
Fixpoint generate_id {V : Type} (draws : list Z) (existing : Dict.t V)
  : option (string * list Z) :=
  match draws with
  | [] => None
  | d :: rest =>
      let value := PyInt.to_str (100000 + d mod (999999 - 100000 + 1)) in
      if negb (Dict.mem value existing) then Some (value, rest)
      else generate_id rest existing
  end.

(* ------------------------------------------------------------------ *)
(** ** CSV rows *)

(** One row as [csv.DictWriter.writerow] takes it and [csv.DictReader]
    yields it: a cell text for each column of the header. *)
Definition row : Type := list (string * string).

(** [row.get(key)] *)
Fixpoint row_get (key : string) (r : row) : option string :=
  match r with
  | [] => None
  | (k, v) :: rest => if String.eqb key k then Some v else row_get key rest
  end.

(** [row.get(key, default)] *)
Definition row_get_default (key default : string) (r : row) : string :=
  match row_get key r with Some v => v | None => default end.

(** [row[key]] *)
Definition row_item (key : string) (r : row) : res string :=
  match row_get key r with Some v => Ret v | None => Raise (KeyError key) end.

(** [float(cell or 0)] and [int(cell or 0)]: an empty cell counts as 0. *)
Definition float_or_zero (cell : string) : res float :=
  if PyStr.is_empty cell then Ret PyFloat.zero else PyFloat.of_str cell.

Definition int_or_zero (cell : string) : res Z :=
  if PyStr.is_empty cell then Ret 0 else PyInt.of_str cell.

(* ------------------------------------------------------------------ *)
(** ** Entities *)

Module User.
Record t : Type := Build {
  id : string;
  username : string;
  password : string
}.

Definition to_row (self : t) : row :=
  [("user_id", id self);
   ("username", username self);
   ("password", password self)].
End User.

Definition user_headers : list string := ["user_id"; "username"; "password"].

Definition user_from_row (r : row) : res User.t :=
  user_id <- row_item "user_id" r ;;
  username <- row_item "username" r ;;
  password <- row_item "password" r ;;
  Ret (User.Build user_id username password).

Module Item.
Record t : Type := Build {
  id : string;
  name : string;
  category : string;
  brand : string;
  condition : string;
  description : string
}.

Definition to_row (self : t) : row :=
  [("item_id", id self);
   ("name", name self);
   ("category", category self);
   ("brand", brand self);
   ("condition", condition self);
   ("description", description self)].
End Item.

Definition item_headers : list string :=
  ["item_id"; "name"; "category"; "brand"; "condition"; "description"].

Definition item_from_row (r : row) : res Item.t :=
  item_id <- row_item "item_id" r ;;
  name <- row_item "name" r ;;
  category <- row_item "category" r ;;
  brand <- row_item "brand" r ;;
  condition <- row_item "condition" r ;;
  description <- row_item "description" r ;;
  Ret (Item.Build item_id name category brand condition description).

Module Listing.
Record t : Type := Build {
  id : string;
  item_id : string;
  seller_id : string;
  price : float;
  quantity : Z;
  active : bool;
  deleted : bool
}.

Definition to_row (self : t) : row :=
  [("listing_id", id self);
   ("item_id", item_id self);
   ("seller_id", seller_id self);
   ("price", PyFloat.format2 (price self));
   ("quantity", PyInt.to_str (quantity self));
   ("active", bool_str (active self));
   ("deleted", bool_str (deleted self))].

(** The in-place updates of the controller. *)
Definition with_deleted (self : t) : t :=
  Build (id self) (item_id self) (seller_id self) (price self)
        (quantity self) false true.

Definition with_quantity (q : Z) (self : t) : t :=
  Build (id self) (item_id self) (seller_id self) (price self)
        q (active self) (deleted self).

Definition with_inactive (self : t) : t :=
  Build (id self) (item_id self) (seller_id self) (price self)
        (quantity self) false (deleted self).
End Listing.

Definition listing_headers : list string :=
  ["listing_id"; "item_id"; "seller_id"; "price"; "quantity"; "active";
   "deleted"].

Definition listing_from_row (r : row) : res Listing.t :=
  listing_id <- row_item "listing_id" r ;;
  item_id <- row_item "item_id" r ;;
  seller_id <- row_item "seller_id" r ;;
  price <- float_or_zero (row_get_default "price" "0" r) ;;
  quantity <- int_or_zero (row_get_default "quantity" "0" r) ;;
  let active := parse_bool (row_get_default "active" "True" r) in
  let deleted := parse_bool (row_get_default "deleted" "False" r) in
  Ret (Listing.Build listing_id item_id seller_id price quantity active deleted).

Module Order.
Record t : Type := Build {
  id : string;
  buyer_id : string;
  seller_id : string;
  listing_id : string;
  unit_price : float;
  quantity : Z;
  total_price : float;
  status : string
}.

Definition to_row (self : t) : row :=
  [("order_id", id self);
   ("buyer_id", buyer_id self);
   ("seller_id", seller_id self);
   ("listing_id", listing_id self);
   ("unit_price", PyFloat.format2 (unit_price self));
   ("quantity", PyInt.to_str (quantity self));
   ("total_price", PyFloat.format2 (total_price self));
   ("status", status self)].
End Order.

Definition order_headers : list string :=
  ["order_id"; "buyer_id"; "seller_id"; "listing_id"; "unit_price";
   "quantity"; "total_price"; "status"].

Definition order_from_row (r : row) : res Order.t :=
  order_id <- row_item "order_id" r ;;
  buyer_id <- row_item "buyer_id" r ;;
  seller_id <- row_item "seller_id" r ;;
  listing_id <- row_item "listing_id" r ;;
  unit_price <- float_or_zero (row_get_default "unit_price" "0" r) ;;
  quantity <- int_or_zero (row_get_default "quantity" "0" r) ;;
  total_price <- float_or_zero (row_get_default "total_price" "0" r) ;;
  let status := row_get_default "status" "COMPLETED" r in
  Ret (Order.Build order_id buyer_id seller_id listing_id unit_price quantity
                   total_price status).

(* ------------------------------------------------------------------ *)
(** ** The controller *)

(** The four tables of a [Marketplace] object. *)
Record Marketplace : Type := Build_Marketplace {
  users : Dict.t User.t;
  items : Dict.t Item.t;
  listings : Dict.t Listing.t;
  orders : Dict.t Order.t
}.

(** The four files of the [data] directory; [None] is a missing file. *)
Record Disk : Type := Build_Disk {
  USERS_CSV : option (list row);
  ITEMS_CSV : option (list row);
  LISTINGS_CSV : option (list row);
  ORDERS_CSV : option (list row)
}.

(** The controller object together with its backing store. *)
Record World : Type := Build_World {
  market : Marketplace;
  disk : Disk
}.

(** [Marketplace()] before any file exists. *)
Definition new_world : World :=
  Build_World (Build_Marketplace Dict.empty Dict.empty Dict.empty Dict.empty)
              (Build_Disk None None None None).

(** The result of a call, the world it leaves and the draws it leaves. *)
Definition outcome (A : Type) : Type := res A * World * list Z.

(** *** CSV I/O *)

(** [ensure_csv]: a missing file is created with its header only. *)
Definition ensure_csv (file : option (list row)) : list row :=
  match file with Some rows => rows | None => [] end.

(** The loop of [_load_csv] over the rows read: a row without a primary
    key is skipped; an exception of [from_row_func] stops the loop and
    leaves [dst] as filled so far. *)
Fixpoint load_rows {V : Type} (from_row_func : row -> res V) (id_key : string)
  (rows : list row) (dst : Dict.t V) : res unit * Dict.t V :=
  match rows with
  | [] => (Ret tt, dst)
  | r :: rest =>
      match row_get id_key r with
      | None => load_rows from_row_func id_key rest dst
      | Some k =>
          if PyStr.is_empty k then load_rows from_row_func id_key rest dst
          else
            match from_row_func r with
            | Ret obj => load_rows from_row_func id_key rest (Dict.set k obj dst)
            | Raise e => (Raise e, dst)
            | Spin => (Spin, dst)
            end
      end
  end.

(** [_load_csv]: the table read from a file (after [dst.clear()]) and the
    file as [ensure_csv] leaves it. *)
Definition _load_csv {V : Type} (file : option (list row))
  (from_row_func : row -> res V) (id_key : string)
  : res unit * Dict.t V * option (list row) :=
  let rows := ensure_csv file in
  let '(r, dst) := load_rows from_row_func id_key rows Dict.empty in
  (r, dst, Some rows).

(** [_save_csv]: the header and one row per object, in table order. *)
Definition _save_csv {V : Type} (to_row : V -> row) (source : Dict.t V)
  : option (list row) :=
  Some (map to_row (Dict.values source)).

(** [load_all_csv]: the four tables in turn; an exception leaves the
    later tables and files untouched. *)
Definition load_all_csv (w : World) : res unit * World :=
  let m := market w in
  let d := disk w in
  let '(r1, us, f1) := _load_csv (USERS_CSV d) user_from_row "user_id" in
  let m := Build_Marketplace us (items m) (listings m) (orders m) in
  let d := Build_Disk f1 (ITEMS_CSV d) (LISTINGS_CSV d) (ORDERS_CSV d) in
  match r1 with
  | Ret _ =>
    let '(r2, its, f2) := _load_csv (ITEMS_CSV d) item_from_row "item_id" in
    let m := Build_Marketplace (users m) its (listings m) (orders m) in
    let d := Build_Disk (USERS_CSV d) f2 (LISTINGS_CSV d) (ORDERS_CSV d) in
    match r2 with
    | Ret _ =>
      let '(r3, ls, f3) :=
        _load_csv (LISTINGS_CSV d) listing_from_row "listing_id" in
      let m := Build_Marketplace (users m) (items m) ls (orders m) in
      let d := Build_Disk (USERS_CSV d) (ITEMS_CSV d) f3 (ORDERS_CSV d) in
      match r3 with
      | Ret _ =>
        let '(r4, os, f4) := _load_csv (ORDERS_CSV d) order_from_row "order_id" in
        let m := Build_Marketplace (users m) (items m) (listings m) os in
        let d := Build_Disk (USERS_CSV d) (ITEMS_CSV d) (LISTINGS_CSV d) f4 in
        (r4, Build_World m d)
      | _ => (r3, Build_World m d)
      end
    | _ => (r2, Build_World m d)
    end
  | _ => (r1, Build_World m d)
  end.

(** [save_all_csv]: every file rewritten from its table. *)
Definition save_all_csv (w : World) : World :=
  let m := market w in
  Build_World m
    (Build_Disk (_save_csv User.to_row (users m))
                (_save_csv Item.to_row (items m))
                (_save_csv Listing.to_row (listings m))
                (_save_csv Order.to_row (orders m))).

(** Table updates of the [Marketplace] object inside a world. *)
Definition set_users (us : Dict.t User.t) (w : World) : World :=
  let m := market w in
  Build_World (Build_Marketplace us (items m) (listings m) (orders m)) (disk w).

Definition set_items (its : Dict.t Item.t) (w : World) : World :=
  let m := market w in
  Build_World (Build_Marketplace (users m) its (listings m) (orders m)) (disk w).

Definition set_listings (ls : Dict.t Listing.t) (w : World) : World :=
  let m := market w in
  Build_World (Build_Marketplace (users m) (items m) ls (orders m)) (disk w).

Definition set_orders (os : Dict.t Order.t) (w : World) : World :=
  let m := market w in
  Build_World (Build_Marketplace (users m) (items m) (listings m) os) (disk w).

(** *** Operations *)

Definition register (draws : list Z) (w : World) (username password : string)
  : outcome User.t :=
  let user_name := title_case username in
  if PyStr.is_empty user_name || PyStr.is_empty password then
    (Raise (ValueError "Username and password cannot be empty."), w, draws)
  else if existsb
            (fun u => String.eqb (PyStr.lower (User.username u))
                                 (PyStr.lower user_name))
            (Dict.values (users (market w))) then
    (Raise (ValueError "Username already exists."), w, draws)
  else
    match generate_id draws (users (market w)) with
    | None => (Spin, w, [])
    | Some (user_id, draws) =>
        let user := User.Build user_id user_name password in
        let w := set_users (Dict.set (User.id user) user (users (market w))) w in
        (Ret user, save_all_csv w, draws)
    end.

Definition login (w : World) (username password : string) : option User.t :=
  let uname := title_case username in
  find (fun user => String.eqb (User.username user) uname
                    && String.eqb (User.password user) password)
       (Dict.values (users (market w))).

Definition post_listing (draws : list Z) (w : World) (seller : User.t)
  (name category brand condition description : string)
  (price : float) (quantity : Z) : outcome Listing.t :=
  let category := title_case category in
  let cond_up := PyStr.upper (PyStr.strip condition) in
  if negb (PyStr.mem category CATEGORIES) then
    (Raise (ValueError "Unknown category."), w, draws)
  else if negb (PyStr.mem cond_up CONDITIONS) then
    (Raise (ValueError "Unknown condition."), w, draws)
  else if PyFloat.leb price PyFloat.zero || (quantity <=? 0) then
    (Raise (ValueError "Price and quantity must be positive."), w, draws)
  else
    match generate_id draws (items (market w)) with
    | None => (Spin, w, [])
    | Some (item_id, draws) =>
        let item := Item.Build item_id (title_case name) category
                               (title_case brand) cond_up
                               (title_case description) in
        let w := set_items (Dict.set (Item.id item) item (items (market w))) w in
        match generate_id draws (listings (market w)) with
        | None => (Spin, w, [])
        | Some (listing_id, draws) =>
            let listing := Listing.Build listing_id (Item.id item)
                             (User.id seller) (PyFloat.round2 price) quantity
                             true false in
            let w := set_listings (Dict.set (Listing.id listing) listing
                                            (listings (market w))) w in
            (Ret listing, save_all_csv w, draws)
        end
    end.

Definition delete_listing (w : World) (seller : User.t) (listing_id : string)
  : res unit * World :=
  match Dict.get listing_id (listings (market w)) with
  | None => (Raise (ValueError "Listing not found."), w)
  | Some listing =>
      if negb (String.eqb (Listing.seller_id listing) (User.id seller)) then
        (Raise (ValueError "You can only delete your own listings."), w)
      else
        let w := set_listings (Dict.set listing_id (Listing.with_deleted listing)
                                        (listings (market w))) w in
        (Ret tt, save_all_csv w)
  end.

(** The body shared by the two searches: the listings, in table order,
    that are not deleted, active, in stock and whose item passes [test].
    The item is looked up only for a listing that passed the three flags;
    a missing item raises [KeyError]. *)
Fixpoint search_listings (test : Item.t -> bool) (its : Dict.t Item.t)
  (ls : list Listing.t) : res (list Listing.t) :=
  match ls with
  | [] => Ret []
  | listing :: rest =>
      if negb (Listing.deleted listing) && Listing.active listing
         && (0 <? Listing.quantity listing) then
        match Dict.get (Listing.item_id listing) its with
        | None => Raise (KeyError (Listing.item_id listing))
        | Some item =>
            found <- search_listings test its rest ;;
            Ret (if test item then listing :: found else found)
        end
      else search_listings test its rest
  end.

Definition search_by_category (w : World) (category : string)
  : res (list Listing.t) :=
  let category := title_case category in
  search_listings (fun item => String.eqb (Item.category item) category)
                  (items (market w)) (Dict.values (listings (market w))).

Definition search_by_full_name (w : World) (full_name : string)
  : res (list Listing.t) :=
  let target := title_case full_name in
  search_listings (fun item => String.eqb (Item.name item) target)
                  (items (market w)) (Dict.values (listings (market w))).

(** [d.get(k, default)] on the two price tables. *)
Definition table_get (k : string) (default : float) (d : Dict.t float) : float :=
  match Dict.get k d with Some v => v | None => default end.

Definition price_suggestion (category condition : string)
  : float * float * float :=
  let category := title_case category in
  let baseline :=
    table_get category (table_get "Others" PyFloat.zero CATEGORY_BASELINE)
              CATEGORY_BASELINE in
  let multiplier :=
    table_get (PyStr.upper (PyStr.strip condition)) (PyFloat.lit "0.65")
              CONDITION_MULTIPLIER in
  let suggestion_price := PyFloat.round2 (PyFloat.mul baseline multiplier) in
  (suggestion_price,
   PyFloat.round2 (PyFloat.mul suggestion_price (PyFloat.lit "0.9")),
   PyFloat.round2 (PyFloat.mul suggestion_price (PyFloat.lit "1.1"))).

Definition buy_listing (draws : list Z) (w : World) (buyer : User.t)
  (listing_id : string) (quantity : Z) : outcome Order.t :=
  match Dict.get listing_id (listings (market w)) with
  | None => (Raise (ValueError "Listing not found."), w, draws)
  | Some listing =>
      if Listing.deleted listing || negb (Listing.active listing)
         || (Listing.quantity listing <=? 0) then
        (Raise (ValueError "Listing not available."), w, draws)
      else if (quantity <=? 0) || (Listing.quantity listing <? quantity) then
        (Raise (ValueError "Invalid quantity."), w, draws)
      else
        match generate_id draws (orders (market w)) with
        | None => (Spin, w, [])
        | Some (order_id, draws) =>
            match PyFloat.mul_int (Listing.price listing) quantity with
            | Ret amount =>
                let order := Order.Build order_id (User.id buyer)
                               (Listing.seller_id listing) (Listing.id listing)
                               (Listing.price listing) quantity
                               (PyFloat.round2 amount) "COMPLETED" in
                let w := set_orders (Dict.set (Order.id order) order
                                              (orders (market w))) w in
                let listing :=
                  Listing.with_quantity (Listing.quantity listing - quantity)
                                        listing in
                let listing :=
                  if Listing.quantity listing <=? 0
                  then Listing.with_inactive listing else listing in
                let w := set_listings (Dict.set listing_id listing
                                                (listings (market w))) w in
                (Ret order, save_all_csv w, draws)
            | Raise e => (Raise e, w, draws)
            | Spin => (Spin, w, draws)
            end
        end
  end.

(* ------------------------------------------------------------------ *)
(** ** Sequences of controller calls *)

(** The eight operations the interface offers. *)
Inductive call : Type :=
| Register (username password : string)
| Login (username password : string)
| PostListing (seller : User.t)
    (name category brand condition description : string)
    (price : float) (quantity : Z)
| DeleteListing (seller : User.t) (listing_id : string)
| SearchByCategory (category : string)
| SearchByFullName (full_name : string)
| PriceSuggestion (category condition : string)
| BuyListing (buyer : User.t) (listing_id : string) (quantity : Z).

(** How a call ended: it returned, it raised, or it never returned. *)
Inductive status : Type :=
| Done
| Failed (e : exn)
| Hung.

Definition status_of {A : Type} (r : res A) : status :=
  match r with
  | Ret _ => Done
  | Raise e => Failed e
  | Spin => Hung
  end.

Definition perform (draws : list Z) (w : World) (c : call)
  : status * World * list Z :=
  match c with
  | Register username password =>
      let '(r, w, draws) := register draws w username password in
      (status_of r, w, draws)
  | Login username password => (Done, w, draws)
  | PostListing seller name category brand condition description price quantity =>
      let '(r, w, draws) :=
        post_listing draws w seller name category brand condition description
                     price quantity in
      (status_of r, w, draws)
  | DeleteListing seller listing_id =>
      let '(r, w) := delete_listing w seller listing_id in
      (status_of r, w, draws)
  | SearchByCategory category =>
      (status_of (search_by_category w category), w, draws)
  | SearchByFullName full_name =>
      (status_of (search_by_full_name w full_name), w, draws)
  | PriceSuggestion category condition => (Done, w, draws)
  | BuyListing buyer listing_id quantity =>
      let '(r, w, draws) := buy_listing draws w buyer listing_id quantity in
      (status_of r, w, draws)
  end.

(** The calls run one after the other, with how each ended; nothing runs
    after a call that does not return. *)
Fixpoint run (draws : list Z) (w : World) (cs : list call)
  : list (call * status) * World * list Z :=
  match cs with
  | [] => ([], w, draws)
  | c :: rest =>
      let '(s, w1, draws1) := perform draws w c in
      match s with
      | Hung => ([(c, Hung)], w1, draws1)
      | _ =>
          let '(log, w2, draws2) := run draws1 w1 rest in
          ((c, s) :: log, w2, draws2)
      end
  end.

(** Units bought from listing [listing_id] by the calls of a log that
    returned. *)
Fixpoint purchased (listing_id : string) (log : list (call * status)) : Z :=
  match log with
  | [] => 0
  | (BuyListing _ lid q, Done) :: rest =>
      (if String.eqb lid listing_id then q else 0) + purchased listing_id rest
  | _ :: rest => purchased listing_id rest
  end.

(** The worlds the controller can be in between two calls, starting from
    a new [Marketplace]. *)
Inductive reachable : World -> Prop :=
| reachable_new : reachable new_world
| reachable_call (w : World) (draws : list Z) (c : call)
    (s : status) (w' : World) (draws' : list Z) :
    reachable w -> perform draws w c = (s, w', draws') -> s <> Hung ->
    reachable w'.

(* ------------------------------------------------------------------ *)
(** ** Failure kinds *)

(** The specification names five kinds of failure; the controller raises
    [ValueError] with one fixed message per failure. [kind_of] reads the
    kind off the message, following the taxonomy of the specification
    (section 7). Any other exception has no kind. *)
Inductive kind : Type :=
| ValidationError
| ConflictError
| NotFoundError
| AuthorizationError
| UnavailableError.

Definition kind_of (e : exn) : option kind :=
  match e with
  | ValueError msg =>
      if String.eqb msg "Username and password cannot be empty." then Some ValidationError
      else if String.eqb msg "Unknown category." then Some ValidationError
      else if String.eqb msg "Unknown condition." then Some ValidationError
      else if String.eqb msg "Price and quantity must be positive." then Some ValidationError
      else if String.eqb msg "Invalid quantity." then Some ValidationError
      else if String.eqb msg "Username already exists." then Some ConflictError
      else if String.eqb msg "Listing not found." then Some NotFoundError
      else if String.eqb msg "You can only delete your own listings." then Some AuthorizationError
      else if String.eqb msg "Listing not available." then Some UnavailableError
      else None
  | _ => None
  end.

(** A result that is a failure of kind [k]. *)
Definition fails_with {A : Type} (r : res A) (k : kind) : Prop :=
  exists e, r = Raise e /\ kind_of e = Some k.

(* ------------------------------------------------------------------ *)
(** ** The effect of a call on the listings *)

(** The listing a purchase of [q] units leaves. *)
Definition after_purchase (q : Z) (l : Listing.t) : Listing.t :=
  let l1 := Listing.with_quantity (Listing.quantity l - q) l in
  if Listing.quantity l1 <=? 0 then Listing.with_inactive l1 else l1.

(** The four ways a call can leave the listings table. *)
Inductive listings_step (w : World) (c : call) (s : status) (w' : World)
  : Prop :=
| step_same :
    listings (market w') = listings (market w) ->
    (forall lid, purchased lid [(c, s)] = 0) ->
    listings_step w c s w'
| step_post (k : string) (l : Listing.t) :
    Dict.get k (listings (market w)) = None ->
    listings (market w') = Dict.set k l (listings (market w)) ->
    (forall lid, purchased lid [(c, s)] = 0) ->
    listings_step w c s w'
| step_delete (k : string) (l : Listing.t) :
    Dict.get k (listings (market w)) = Some l ->
    listings (market w')
    = Dict.set k (Listing.with_deleted l) (listings (market w)) ->
    (forall lid, purchased lid [(c, s)] = 0) ->
    listings_step w c s w'
| step_buy (k : string) (l : Listing.t) (q : Z) :
    Dict.get k (listings (market w)) = Some l ->
    Listing.deleted l = false -> Listing.active l = true ->
    0 < q <= Listing.quantity l ->
    listings (market w')
    = Dict.set k (after_purchase q l) (listings (market w)) ->
    (forall lid, purchased lid [(c, s)]
                 = if String.eqb k lid then q else 0) ->
    listings_step w c s w'.

(** How listing [l] can have become [l'] while [p] units were bought:
    identity, item, seller and price are kept, [deleted] is never
    cleared, and the stock went down by exactly [p]. *)
Definition evolves (l l' : Listing.t) (p : Z) : Prop :=
  Listing.id l' = Listing.id l /\
  Listing.item_id l' = Listing.item_id l /\
  Listing.seller_id l' = Listing.seller_id l /\
  Listing.price l' = Listing.price l /\
  (Listing.deleted l = true -> Listing.deleted l' = true) /\
  Listing.quantity l' + p = Listing.quantity l /\
  0 <= p /\
  (0 <= Listing.quantity l -> 0 <= Listing.quantity l').

(* ------------------------------------------------------------------ *)
(** ** Sample data *)

(** A seller, a buyer and a listing of two units at 250.00. *)
Definition demo_seller : User.t := User.Build "100005" "Bob" "pw1".
Definition demo_buyer : User.t := User.Build "777777" "Carol" "pw2".

Definition demo_listing : Listing.t :=
  Listing.Build "100007" "100006" "100005" (PyFloat.lit "250") 2 true false.

Definition demo_world : World :=
  snd (fst (post_listing [6; 7] (snd (fst (register [5] new_world "Bob" "pw1")))
                         demo_seller "iPhone 8" "Electronics" "Apple" "GOOD"
                         "desc" (PyFloat.lit "250") 2)).

Definition demo_order : Order.t :=
  Order.Build "100008" "777777" "100005" "100007" (PyFloat.lit "250") 2
              (PyFloat.lit "500.00") "COMPLETED".

(** The sample listing once its seller has deleted it. *)
Definition deleted_world : World :=
  snd (delete_listing demo_world demo_seller "100007").

(** A listing of [10^400] units at 1.00, posted by the sample seller. *)
Definition huge_world : World :=
  snd (fst (post_listing [6; 7] (snd (fst (register [5] new_world "Bob" "pw1")))
                         demo_seller "Sand" "Others" "None" "NEW" "grains"
                         (PyFloat.lit "1.0") (10 ^ 400))).

(* ------------------------------------------------------------------ *)
(** ** Well-formed worlds *)

(** A table whose keys are distinct, non-empty and equal to the [id] of
    the object they hold. *)
Definition keyed {V : Type} (id : V -> string) (d : Dict.t V) : Prop :=
  NoDup (Dict.keys d) /\
  forall k v, In (k, v) d -> id v = k /\ k <> "".

(** A price that came out of [round(_, 2)]. *)
Definition rounded (x : float) : Prop := exists y, x = PyFloat.round2 y.

Definition listing_ok (its : Dict.t Item.t) (l : Listing.t) : Prop :=
  (Listing.deleted l = true -> Listing.active l = false) /\
  (exists it, Dict.get (Listing.item_id l) its = Some it) /\
  rounded (Listing.price l) /\
  0 <= Listing.quantity l.

Definition order_ok (o : Order.t) : Prop :=
  rounded (Order.unit_price o) /\ rounded (Order.total_price o).

Record invariant (w : World) : Prop := Build_invariant {
  inv_users : keyed User.id (users (market w));
  inv_items : keyed Item.id (items (market w));
  inv_listings : keyed Listing.id (listings (market w));
  inv_orders : keyed Order.id (orders (market w));
  inv_listing_ok :
    forall k l, In (k, l) (listings (market w)) ->
                listing_ok (items (market w)) l;
  inv_order_ok :
    forall k o, In (k, o) (orders (market w)) -> order_ok o
}.

(* ------------------------------------------------------------------ *)
(** ** Search results, as a filter *)

(** The three flags every search tests first. *)
Definition visible (l : Listing.t) : bool :=
  negb (Listing.deleted l) && Listing.active l && (0 <? Listing.quantity l).

(** [test] on the item of a listing. *)
Definition item_has (test : Item.t -> bool) (its : Dict.t Item.t)
  (l : Listing.t) : bool :=
  match Dict.get (Listing.item_id l) its with
  | Some it => test it
  | None => false
  end.

(* ------------------------------------------------------------------ *)
(** ** The price suggestion, in the words of the specification *)

(** The baseline of a category, 40.0 (that of "Others") when unknown. *)
Definition baseline_of (category : string) : float :=
  match Dict.get category CATEGORY_BASELINE with
  | Some b => b
  | None => PyFloat.lit "40.0"
  end.

(** The multiplier of a condition, 0.65 when unknown. *)
Definition multiplier_of (condition : string) : float :=
  match Dict.get condition CONDITION_MULTIPLIER with
  | Some m => m
  | None => PyFloat.lit "0.65"
  end.

(** The triple built on a baseline and a multiplier. *)
Definition suggestion (baseline multiplier : float) : float * float * float :=
  let s := PyFloat.round2 (PyFloat.mul baseline multiplier) in
  (s, PyFloat.round2 (PyFloat.mul s (PyFloat.lit "0.9")),
      PyFloat.round2 (PyFloat.mul s (PyFloat.lit "1.1"))).

(** The claim as worded: the multiplier is looked up under the
    upper-cased condition. *)
Definition suggestion_for_upper_cased (category condition : string)
  : float * float * float :=
  suggestion (baseline_of (title_case category))
             (multiplier_of (PyStr.upper condition)).

(* ------------------------------------------------------------------ *)
(** ** Character classes of a text *)

(** Every character of [s] passes [p]. *)
Fixpoint all_chars (p : ascii -> bool) (s : string) : bool :=
  match s with
  | EmptyString => true
  | String c r => p c && all_chars p r
  end.

(** The characters of a number in fixed notation: digits and the point. *)
Definition is_plain (c : ascii) : bool :=
  PyInt.is_digit c || Ascii.eqb c ".".

Definition not_space (c : ascii) : bool := negb (PyStr.is_space c).

(* ------------------------------------------------------------------ *)
(** ** Shifted binary exponents *)

(** Exponents of binary64 values are at least [-1074]; [pw e] is
    [2^(e + 1074)], an integer for each of them. *)
Definition pw (e : Z) : Z := 2 ^ (e + 1074).

(* ------------------------------------------------------------------ *)
(** ** Words *)

(** A word: a non-empty text without whitespace, as [str.split] yields. *)
Definition is_word (w : string) : Prop :=
  w <> "" /\ all_chars not_space w = true.

(** The text read so far by [split_from]. *)
Definition pending (cur : option string) : string :=
  match cur with Some w => w | None => "" end.

(* ------------------------------------------------------------------ *)
(** ** Decimal digits *)

(** The numeral [l] with the digit [k] put in front. *)
Definition with_digit (k : Z) (l : uint) : uint :=
  match k with
  | 0 => D0 l | 1 => D1 l | 2 => D2 l | 3 => D3 l | 4 => D4 l
  | 5 => D5 l | 6 => D6 l | 7 => D7 l | 8 => D8 l | _ => D9 l
  end.

(** The six decimal digits of [n], as text. *)
Definition six_digits (n : Z) : string :=
  String (PyFloat.digit_char (n / 100000 mod 10))
    (String (PyFloat.digit_char (n / 10000 mod 10))
       (String (PyFloat.digit_char (n / 1000 mod 10))
          (String (PyFloat.digit_char (n / 100 mod 10))
             (String (PyFloat.digit_char (n / 10 mod 10))
                (String (PyFloat.digit_char (n mod 10)) ""))))).

(* ------------------------------------------------------------------ *)
(** ** Rows with a primary key *)

(** The test of [_load_csv] on a row: [row.get(id_key)] is a non-empty
    text. *)
Definition has_key (id_key : string) (r : row) : bool :=
  match row_get id_key r with
  | Some k => negb (PyStr.is_empty k)
  | None => false
  end.



Definition empty_market : Marketplace :=
  Build_Marketplace Dict.empty Dict.empty Dict.empty Dict.empty.

(* ------------------------------------------------------------------ *)
(** ** What a call does to the world *)

(** The six ways a call can leave the world: untouched; with one more
    user; with one more item and one more listing; with one more item
    only, when no identifier was found for the listing and the call never
    returns; with a listing marked as deleted; with a listing sold from
    and one more order. Every change but the fourth ends in
    [save_all_csv]. *)
Inductive effect (w : World) : status -> World -> Prop :=
| effect_none (s : status) : effect w s w
| effect_register (username : string) (user : User.t) :
    Dict.get (User.id user) (users (market w)) = None ->
    User.id user <> "" ->
    User.username user = title_case username ->
    User.username user <> "" ->
    User.password user <> "" ->
    (forall u, In u (Dict.values (users (market w))) ->
               PyStr.lower (User.username u)
               <> PyStr.lower (User.username user)) ->
    effect w Done
      (save_all_csv
         (set_users (Dict.set (User.id user) user (users (market w))) w))
| effect_post (item : Item.t) (listing : Listing.t) (price : PyFloat.float) :
    Dict.get (Item.id item) (items (market w)) = None ->
    Dict.get (Listing.id listing) (listings (market w)) = None ->
    Item.id item <> "" -> Listing.id listing <> "" ->
    In (Item.category item) CATEGORIES ->
    In (Item.condition item) CONDITIONS ->
    listing = Listing.Build (Listing.id listing) (Item.id item)
                (Listing.seller_id listing) (PyFloat.round2 price)
                (Listing.quantity listing) true false ->
    PyFloat.leb price PyFloat.zero = false ->
    0 < Listing.quantity listing ->
    effect w Done
      (save_all_csv
         (set_listings
            (Dict.set (Listing.id listing) listing (listings (market w)))
            (set_items (Dict.set (Item.id item) item (items (market w))) w)))
| effect_stuck (item : Item.t) :
    Dict.get (Item.id item) (items (market w)) = None ->
    Item.id item <> "" ->
    In (Item.category item) CATEGORIES ->
    In (Item.condition item) CONDITIONS ->
    effect w Hung
      (set_items (Dict.set (Item.id item) item (items (market w))) w)
| effect_delete (k : string) (l : Listing.t) :
    Dict.get k (listings (market w)) = Some l ->
    effect w Done
      (save_all_csv
         (set_listings
            (Dict.set k (Listing.with_deleted l) (listings (market w))) w))
| effect_buy (k : string) (l : Listing.t) (q : Z) (order : Order.t)
             (amount : PyFloat.float) :
    Dict.get k (listings (market w)) = Some l ->
    Listing.deleted l = false -> Listing.active l = true ->
    0 < q <= Listing.quantity l ->
    Dict.get (Order.id order) (orders (market w)) = None ->
    Order.id order <> "" ->
    PyFloat.mul_int (Listing.price l) q = Ret amount ->
    order = Order.Build (Order.id order) (Order.buyer_id order)
              (Listing.seller_id l) (Listing.id l) (Listing.price l) q
              (PyFloat.round2 amount) "COMPLETED" ->
    effect w Done
      (save_all_csv
         (set_listings
            (Dict.set k (after_purchase q l) (listings (market w)))
            (set_orders
               (Dict.set (Order.id order) order (orders (market w))) w))).

(** Worlds linked by the effects of calls made one after the other. *)
Inductive effects (w : World) : World -> Prop :=
| effects_refl : effects w w
| effects_step (s : status) (w1 w2 : World) :
    effect w s w1 -> effects w1 w2 -> effects w w2.

(* ------------------------------------------------------------------ *)
(** ** The status shown with a listing *)

(** [listing_status] *)
Definition listing_status (listing : Listing.t) : string :=
  if Listing.deleted listing then "DELETED"
  else if Listing.quantity listing <=? 0 then "SOLD_OUT"
  else if negb (Listing.active listing) then "INACTIVE"
  else "ACTIVE".

(* ------------------------------------------------------------------ *)
(** ** What the tables hold, beyond their keys *)

(** A user as [register] stores it. *)
Definition user_ok (u : User.t) : Prop :=
  User.username u = title_case (User.username u) /\
  User.username u <> "" /\ User.password u <> "".

(** An item as [post_listing] stores it. *)
Definition item_ok (it : Item.t) : Prop :=
  In (Item.category it) CATEGORIES /\ In (Item.condition it) CONDITIONS.

(** An order and the listing it was bought from. *)
Definition order_of (ls : Dict.t Listing.t) (o : Order.t) : Prop :=
  exists l amount,
    Dict.get (Order.listing_id o) ls = Some l /\
    Order.seller_id o = Listing.seller_id l /\
    Order.unit_price o = Listing.price l /\
    0 < Order.quantity o /\
    PyFloat.mul_int (Order.unit_price o) (Order.quantity o) = Ret amount /\
    Order.total_price o = PyFloat.round2 amount /\
    Order.status o = "COMPLETED".

Record well_formed (w : World) : Prop := Build_well_formed {
  wf_usernames :
    forall k1 u1 k2 u2,
      In (k1, u1) (users (market w)) -> In (k2, u2) (users (market w)) ->
      PyStr.lower (User.username u1) = PyStr.lower (User.username u2) ->
      k1 = k2;
  wf_user : forall k u, In (k, u) (users (market w)) -> user_ok u;
  wf_item : forall k it, In (k, it) (items (market w)) -> item_ok it;
  wf_listing :
    forall k l, In (k, l) (listings (market w)) ->
                (Listing.active l = true <->
                 Listing.deleted l = false /\ 0 < Listing.quantity l);
  wf_order :
    forall k o, In (k, o) (orders (market w)) ->
                order_of (listings (market w)) o
}.

(* ------------------------------------------------------------------ *)
(** ** Units sold, by the orders stored *)

(** The units of listing [lid] that the orders of a table account for. *)
Definition sold (lid : string) (os : Dict.t Order.t) : Z :=
  fold_right
    (fun o acc =>
       if String.eqb (Order.listing_id o) lid then Order.quantity o + acc
       else acc)
    0 (Dict.values os).

(** The sample world once the buyer has bought the two units. *)
Definition sold_world : World :=
  snd (fst (buy_listing [8] demo_world demo_buyer "100007" 2)).

(** A table grown at its end only. *)
Definition extends {V : Type} (d d' : Dict.t V) : Prop :=
  exists more, d' = (d ++ more)%list.

(* ------------------------------------------------------------------ *)
(** ** The order of a price triple *)

(** [0 < low < suggested < high], with the comparison of the floats. *)
Definition in_order (t : PyFloat.float * PyFloat.float * PyFloat.float)
  : bool :=
  let '(s, low, high) := t in
  negb (PyFloat.leb low PyFloat.zero)
  && PyFloat.leb low s && negb (PyFloat.leb s low)
  && PyFloat.leb s high && negb (PyFloat.leb high s).

(* ------------------------------------------------------------------ *)
(** ** The console *)

(** The lines typed are a list of texts; an [input] call takes the first
    one and raises [EOFError] when none is left. What the program writes
    is the prompt of an [input] call or a line of [print]. *)
Inductive written : Type :=
| Asked (prompt : string)
| Printed (line : string).

(** How a prompt ends: with a value, with [None] (the user goes back),
    at the end of the input, or with an exception it does not catch. *)
Inductive answer (A : Type) : Type :=
| Value (a : A)
| Back
| EndOfInput
| Uncaught (r : res A).

Arguments Value {A} a.
Arguments Back {A}.
Arguments EndOfInput {A}.
Arguments Uncaught {A} r.

(** The answer, the lines not read yet, and what was written. *)
Definition dialogue (A : Type) : Type :=
  answer A * list string * list written.

Definition BACK_TOKENS : list string := ["cd .."].

Definition is_back (s : string) : bool :=
  PyStr.mem (PyStr.lower (PyStr.strip s)) BACK_TOKENS.

(** One more turn of a prompt loop after [out] was written. *)
Definition again {A : Type} (out : list written) (d : dialogue A)
  : dialogue A :=
  let '(a, rest, more) := d in (a, rest, (out ++ more)%list).

Fixpoint prompt_loop_back (prompt_hint : string)
  (validator : string -> option string * list written)
  (inputs : list string) : dialogue string :=
  let ask := Asked (prompt_hint ++ " (type 'cd ..' to go back): ") in
  match inputs with
  | [] => (EndOfInput, [], [ask])
  | line :: rest =>
      let string := PyStr.strip line in
      if is_back string then (Back, rest, [ask])
      else
        let '(norm, said) := validator string in
        match norm with
        | Some n => (Value n, rest, ask :: said)
        | None => again (ask :: said) (prompt_loop_back prompt_hint validator rest)
        end
  end.

Fixpoint prompt_text (label : string) (allow_empty : bool)
  (inputs : list string) : dialogue string :=
  let ask := Asked (label ++ " (type 'cd ..' to go back): ") in
  match inputs with
  | [] => (EndOfInput, [], [ask])
  | line :: rest =>
      let string := PyStr.strip line in
      if is_back string then (Back, rest, [ask])
      else if negb (PyStr.is_empty string) || allow_empty then
        (Value string, rest, [ask])
      else
        again [ask; Printed "Input cannot be empty."]
              (prompt_text label allow_empty rest)
  end.

(** [x < y] on floats. *)
Definition float_ltb (x y : PyFloat.float) : bool := SFltb x y.

Section FloatText.

(** [str(x)] for a float, as an f-string without format writes it. *)
Variable float_str : PyFloat.float -> string.

Fixpoint prompt_float (label : string) (default_val min_val : option PyFloat.float)
  (inputs : list string) : dialogue PyFloat.float :=
  let disp :=
    match default_val with
    | Some d => " [default " ++ PyFloat.format2 d ++ "]"
    | None => ""
    end in
  let ask := Asked (label ++ disp ++ " (Enter=accept, 'cd ..'=back): ") in
  match inputs with
  | [] => (EndOfInput, [], [ask])
  | line :: rest =>
      let string := PyStr.strip line in
      if is_back string then (Back, rest, [ask])
      else
        match (if String.eqb string "" then default_val else None) with
        | Some d => (Value d, rest, [ask])
        | None =>
            match PyFloat.of_str string with
            | Ret x =>
                match (match min_val with
                       | Some m => if float_ltb x m then Some m else None
                       | None => None
                       end) with
                | Some m =>
                    again [ask; Printed ("Value must be >= " ++ float_str m)]
                          (prompt_float label default_val min_val rest)
                | None => (Value x, rest, [ask])
                end
            | Raise (ValueError _) =>
                again [ask; Printed "Please enter a valid number."]
                      (prompt_float label default_val min_val rest)
            | r => (Uncaught r, rest, [ask])
            end
        end
  end.

End FloatText.

(** [prompt_int]; [int] reads a text of any length, without the bound
    that CPython puts on the number of digits. *)
Fixpoint prompt_int (label : string) (min_val max_val : option Z)
  (inputs : list string) : dialogue Z :=
  let ask := Asked (label ++ " ('cd ..' to go back): ") in
  match inputs with
  | [] => (EndOfInput, [], [ask])
  | line :: rest =>
      let string := PyStr.strip line in
      if is_back string then (Back, rest, [ask])
      else
        match PyInt.of_str string with
        | Ret x =>
            match (match min_val with
                   | Some m => if x <? m then Some m else None
                   | None => None
                   end) with
            | Some m =>
                again [ask; Printed ("Value must be >= " ++ PyInt.to_str m)]
                      (prompt_int label min_val max_val rest)
            | None =>
                match (match max_val with
                       | Some m => if m <? x then Some m else None
                       | None => None
                       end) with
                | Some m =>
                    again [ask; Printed ("Value must be <= " ++ PyInt.to_str m)]
                          (prompt_int label min_val max_val rest)
                | None => (Value x, rest, [ask])
                end
            end
        | Raise (ValueError _) =>
            again [ask; Printed "Please enter a valid integer."]
                  (prompt_int label min_val max_val rest)
        | r => (Uncaught r, rest, [ask])
        end
  end.

(* ------------------------------------------------------------------ *)
(** ** The validators of the client *)

Definition validate_category_input (category : string)
  : option string * list written :=
  let cate := title_case category in
  if PyStr.mem cate CATEGORIES then (Some cate, [])
  else (None, [Printed "Unknown category. Available categories are:";
               Printed (PyStr.join ", " CATEGORIES)]).

Definition validate_condition_input (condition : string)
  : option string * list written :=
  let cond := PyStr.upper (PyStr.strip condition) in
  if PyStr.mem cond CONDITIONS then (Some cond, [])
  else (None, [Printed ("Unknown condition. Choose from:" ++ " "
                        ++ PyStr.join ", " CONDITIONS)]).

(** A line that is only whitespace. *)
Definition blank (line : string) : Prop := PyStr.strip line = "".

(** [x] within the bounds given to [prompt_int]. *)
Definition within (min_val max_val : option Z) (x : Z) : Prop :=
  (forall m, min_val = Some m -> m <= x) /\
  (forall m, max_val = Some m -> x <= m).

(* ------------------------------------------------------------------ *)
(** ** The lines of the client *)

(** The name of a user, "unknown" when the table does not have it. *)
Definition username_or_unknown (w : World) (user_id : string) : string :=
  match Dict.get user_id (users (market w)) with
  | Some user => User.username user
  | None => "unknown"
  end.

(** [show_listing]: the line printed, or the [KeyError] of
    [market_place.items[listing.item_id]]. *)
Definition show_listing (w : World) (listing : Listing.t) : res written :=
  match Dict.get (Listing.item_id listing) (items (market w)) with
  | None => Raise (KeyError (Listing.item_id listing))
  | Some item =>
      let seller_name := username_or_unknown w (Listing.seller_id listing) in
      Ret (Printed
             ("- ID: " ++ Listing.id listing ++ " | Name: " ++ Item.name item
              ++ " | " ++ "Brand: " ++ Item.brand item ++ " | ["
              ++ Item.category item ++ "] (" ++ Item.condition item ++ ") | "
              ++ "$" ++ PyFloat.format2 (Listing.price listing) ++ " x"
              ++ PyInt.to_str (Listing.quantity listing) ++ " | seller: "
              ++ seller_name))
  end.

Definition show_listing_with_status (w : World) (listing : Listing.t)
  : res written :=
  match Dict.get (Listing.item_id listing) (items (market w)) with
  | None => Raise (KeyError (Listing.item_id listing))
  | Some item =>
      let status := listing_status listing in
      let seller_name := username_or_unknown w (Listing.seller_id listing) in
      Ret (Printed
             ("- ID: " ++ Listing.id listing ++ " | Status: " ++ status
              ++ " | " ++ "Name: " ++ Item.name item ++ " | Brand: "
              ++ Item.brand item ++ " | " ++ "[" ++ Item.category item ++ "] ("
              ++ Item.condition item ++ ") | " ++ "$"
              ++ PyFloat.format2 (Listing.price listing) ++ " x"
              ++ PyInt.to_str (Listing.quantity listing) ++ " | seller: "
              ++ seller_name))
  end.

(** The loop [for lis in active: show_listing(market_place, lis)]: the
    lines printed, up to the first exception. *)
Fixpoint show_each (w : World) (ls : list Listing.t)
  : res unit * list written :=
  match ls with
  | [] => (Ret tt, [])
  | lis :: rest =>
      match show_listing w lis with
      | Ret line =>
          let '(r, out) := show_each w rest in (r, line :: out)
      | Raise e => (Raise e, [])
      | Spin => (Spin, [])
      end
  end.

Definition list_active_listings (w : World)
  : res (list Listing.t) * list written :=
  let active := filter visible (Dict.values (listings (market w))) in
  match active with
  | [] => (Ret active, [Printed "No active listings."])
  | _ :: _ =>
      let '(r, out) := show_each w active in
      (_ <- r ;; Ret active,
       Printed (PyInt.to_str (Z.of_nat (List.length active))
                ++ " active listing(s):") :: out)
  end.

(** [show_order]: the item named is that of the listing of the order,
    when the tables have both. *)
Definition show_order (w : World) (order : Order.t) : written :=
  let '(it_name, it_brand) :=
    match Dict.get (Order.listing_id order) (listings (market w)) with
    | Some lis =>
        match Dict.get (Listing.item_id lis) (items (market w)) with
        | Some it => (Item.name it, Item.brand it)
        | None => ("(listing missing)", "-")
        end
    | None => ("(listing missing)", "-")
    end in
  let buyer := username_or_unknown w (Order.buyer_id order) in
  let seller := username_or_unknown w (Order.seller_id order) in
  Printed ("- Order ID: " ++ Order.id order ++ " | Item: " ++ it_name ++ " | "
           ++ "Brand: " ++ it_brand ++ " | Qty: "
           ++ PyInt.to_str (Order.quantity order) ++ " | " ++ "Unit: $"
           ++ PyFloat.format2 (Order.unit_price order) ++ " | Total: $"
           ++ PyFloat.format2 (Order.total_price order) ++ " | " ++ "Buyer: "
           ++ buyer ++ " | Seller: " ++ seller ++ " | Status: "
           ++ Order.status order).

Definition list_my_purchased_orders (w : World) (user : User.t)
  : list written :=
  let my_orders :=
    filter (fun order => String.eqb (Order.buyer_id order) (User.id user))
           (Dict.values (orders (market w))) in
  match my_orders with
  | [] => [Printed "You have no orders as buyer."]
  | _ :: _ =>
      Printed ("You have " ++ PyInt.to_str (Z.of_nat (List.length my_orders))
               ++ " order(s) as buyer:")
      :: map (show_order w) my_orders
  end.

Definition list_my_sold_orders (w : World) (user : User.t) : list written :=
  let my_orders :=
    filter (fun order => String.eqb (Order.seller_id order) (User.id user))
           (Dict.values (orders (market w))) in
  match my_orders with
  | [] => [Printed "No orders for your listings yet."]
  | _ :: _ =>
      Printed ("You have " ++ PyInt.to_str (Z.of_nat (List.length my_orders))
               ++ " order(s) for your listings:")
      :: map (show_order w) my_orders
  end.

(* ------------------------------------------------------------------ *)
(** ** Calls that only read *)


(* ------------------------------------------------------------------ *)
(** * Properties *)

(** Case analyses on conjunctions and disjunctions of flags. *)
Ltac settle_cases :=
  repeat match goal with
         | |- _ /\ _ => split
         | |- _ <-> _ => split
         | |- _ -> _ => intro
         | H : _ \/ _ |- _ => destruct H
         | H : _ /\ _ |- _ => destruct H
         end;
  try discriminate; try lia; auto.

(** ** Tools: examples *)

Example title_case_ex1 : title_case "  iPhone   8 " = "Iphone 8".
Proof. reflexivity. Qed.

Example title_case_ex2 : title_case "alice" = "Alice".
Proof. reflexivity. Qed.

Example parse_bool_ex : parse_bool " YES " = true /\ parse_bool "no" = false.
Proof. split; reflexivity. Qed.

Example int_of_str_ex :
  PyInt.of_str " -1_000 " = Ret (-1000) /\ PyInt.of_str "12" = Ret 12 /\
  PyInt.of_str "" = Raise (ValueError "invalid literal for int() with base 10") /\
  PyInt.to_str 0 = "0" /\ PyInt.to_str (-45) = "-45".
Proof. repeat split; reflexivity. Qed.

(** ** Rows follow the headers *)

Lemma rows_follow_headers :
  (forall u, map fst (User.to_row u) = user_headers) /\
  (forall i, map fst (Item.to_row i) = item_headers) /\
  (forall l, map fst (Listing.to_row l) = listing_headers) /\
  (forall o, map fst (Order.to_row o) = order_headers).
Proof. repeat split. Qed.

(** ** Floats: examples *)

Example round2_examples :
  PyFloat.round2 (PyFloat.lit "2.675") = PyFloat.lit "2.67" /\
  PyFloat.round2 (PyFloat.lit "0.125") = PyFloat.lit "0.12" /\
  PyFloat.round2 (PyFloat.lit "1e22") = PyFloat.lit "1e22" /\
  PyFloat.round2 (PyFloat.lit "1e-5") = PyFloat.zero /\
  PyFloat.round2 (PyFloat.lit "-0.001") = S754_zero true.
Proof. repeat split; vm_compute; reflexivity. Qed.

Example format2_examples :
  PyFloat.format2 (PyFloat.lit "250") = "250.00" /\
  PyFloat.format2 (PyFloat.lit "2.675") = "2.67" /\
  PyFloat.format2 (PyFloat.lit "1234567.891") = "1234567.89" /\
  PyFloat.format2 (PyFloat.lit "0.005") = "0.01" /\
  PyFloat.format2 (PyFloat.lit "-0.001") = "-0.00" /\
  PyFloat.format2 S754_nan = "nan" /\
  PyFloat.format2 (S754_infinity true) = "-inf".
Proof. repeat split; vm_compute; reflexivity. Qed.

Example float_of_str_examples :
  PyFloat.of_str " +1_0.5e1 " = Ret (PyFloat.lit "105") /\
  PyFloat.of_str "-INF" = Ret (S754_infinity true) /\
  PyFloat.of_str "1e400" = Ret (S754_infinity false) /\
  PyFloat.of_str "2e-324" = Ret PyFloat.zero /\
  PyFloat.of_str "1__0" = Raise PyFloat.bad_float /\
  PyFloat.of_str "." = Raise PyFloat.bad_float /\
  PyFloat.of_str "" = Raise PyFloat.bad_float.
Proof. repeat split; vm_compute; reflexivity. Qed.

Example float_of_int_examples :
  PyFloat.of_int 250 = Ret (PyFloat.lit "250") /\
  PyFloat.of_int (2 ^ 1024 - 2 ^ 970 - 1)
  = Ret (PyFloat.lit "1.7976931348623157e308") /\
  PyFloat.of_int (2 ^ 1024 - 2 ^ 970)
  = Raise (OverflowError "int too large to convert to float").
Proof. repeat split; vm_compute; reflexivity. Qed.

(** The conversions agree with the rounding and the division of the
    binary64 operations of the library. *)
Example of_ratio_agrees :
  PyFloat.of_int 250 = Ret (binary_normalize 53 1024 250 0 false) /\
  PyFloat.of_int (- (10 ^ 30)) = Ret (binary_normalize 53 1024 (- (10 ^ 30)) 0 false) /\
  PyFloat.of_ratio false 1 3
  = SFdiv 53 1024 (PyFloat.lit "1") (PyFloat.lit "3") /\
  PyFloat.of_ratio true 25001 100
  = SFdiv 53 1024 (PyFloat.lit "-25001") (PyFloat.lit "100") /\
  PyFloat.of_ratio false 1 (10 ^ 320)
  = SFdiv 53 1024 (PyFloat.lit "1e-160") (PyFloat.lit "1e160").
Proof. repeat split; vm_compute; reflexivity. Qed.

(** The literals of the source agree with the binary64 values of the
    prover's primitive floats, and a product with the primitive product. *)
Example lit_agrees :
  Prim2SF 0x1.4cccccccccccdp-1%float = PyFloat.lit "0.65" /\
  Prim2SF 0x1.ccccccccccccdp-1%float = PyFloat.lit "0.9" /\
  Prim2SF 0x1.199999999999ap+0%float = PyFloat.lit "1.1" /\
  Prim2SF 300%float = PyFloat.lit "300.0" /\
  Prim2SF (300 * 0x1.199999999999ap+0)%float
  = PyFloat.mul (PyFloat.lit "300.0") (PyFloat.lit "1.1").
Proof. repeat split; vm_compute; reflexivity. Qed.

(** ** Triples *)

Lemma surjective_pairing_3 {A B C : Type} (x : A * B * C) :
  x = (fst (fst x), snd (fst x), snd x).
Proof. now destruct x as [[a b] c]. Qed.

(** ** Dictionaries *)

Section DictFacts.
Context {V : Type}.
Implicit Types (d : Dict.t V) (k : string) (v : V).

Lemma get_set_same d k v : Dict.get k (Dict.set k v d) = Some v.
Proof.
  induction d as [|[k' v'] d IH]; simpl.
  - now rewrite String.eqb_refl.
  - destruct (String.eqb k k') eqn:E; simpl; rewrite E; auto.
Qed.

Lemma get_set_other d k k' v :
  k <> k' -> Dict.get k' (Dict.set k v d) = Dict.get k' d.
Proof.
  intros Hne. induction d as [|[k0 v0] d IH]; simpl.
  - destruct (String.eqb_spec k' k); congruence.
  - destruct (String.eqb_spec k k0); simpl.
    + subst k0. destruct (String.eqb_spec k' k); congruence.
    + now rewrite IH.
Qed.

Lemma set_set d k v v' : Dict.set k v (Dict.set k v' d) = Dict.set k v d.
Proof.
  induction d as [|[k0 v0] d IH]; simpl.
  - now rewrite String.eqb_refl.
  - destruct (String.eqb k k0) eqn:E; simpl; rewrite E; congruence.
Qed.

Lemma set_fresh d k v : Dict.get k d = None -> Dict.set k v d = (d ++ [(k, v)])%list.
Proof.
  induction d as [|[k0 v0] d IH]; simpl; auto.
  destruct (String.eqb k k0); [discriminate|].
  intros H. now rewrite IH.
Qed.

Lemma keys_set_present d k v v0 :
  Dict.get k d = Some v0 -> Dict.keys (Dict.set k v d) = Dict.keys d.
Proof.
  induction d as [|[k0 v1] d IH]; simpl; [discriminate|].
  destruct (String.eqb k k0); simpl; auto.
  intros H. now rewrite IH.
Qed.

Lemma get_In d k v : Dict.get k d = Some v -> In (k, v) d.
Proof.
  induction d as [|[k0 v0] d IH]; simpl; [discriminate|].
  destruct (String.eqb_spec k k0).
  - intros [= ->]. subst. now left.
  - intros H. right. auto.
Qed.

Lemma get_None_keys d k : Dict.get k d = None <-> ~ In k (Dict.keys d).
Proof.
  induction d as [|[k0 v0] d IH]; simpl.
  - tauto.
  - destruct (String.eqb_spec k k0).
    + subst. split; [discriminate | intros H; exfalso; apply H; now left].
    + rewrite IH. split; [intros H [E|E]; [congruence|tauto] | tauto].
Qed.

Lemma In_get_nodup d k v :
  NoDup (Dict.keys d) -> In (k, v) d -> Dict.get k d = Some v.
Proof.
  induction d as [|[k0 v0] d IH]; simpl; [tauto|].
  intros Hnd [E|Hin].
  - injection E as -> ->. now rewrite String.eqb_refl.
  - inversion Hnd as [|? ? Hnot Hnd']; subst.
    destruct (String.eqb_spec k k0).
    + subst. exfalso. apply Hnot.
      change k0 with (fst (k0, v)). now apply in_map.
    + auto.
Qed.

Lemma generate_id_fresh draws d k rest :
  generate_id draws d = Some (k, rest) -> Dict.get k d = None.
Proof.
  revert k rest. induction draws as [|z draws IH]; simpl; [discriminate|].
  intros k rest.
  destruct (Dict.mem _ d) eqn:E; simpl.
  - apply IH.
  - intros [= <- <-]. unfold Dict.mem in E.
    destruct (Dict.get _ d); [discriminate | reflexivity].
Qed.

(** The loop returns as soon as a draw names an unused number. *)
Lemma generate_id_returns draws d :
  (exists z, In z draws /\
             Dict.get (PyInt.to_str (100000 + z mod 900000)) d = None) ->
  exists k rest, generate_id draws d = Some (k, rest).
Proof.
  intros (z & Hin & Hz).
  induction draws as [|z0 draws IH]; [destruct Hin|].
  cbn [generate_id].
  destruct (Dict.mem _ d) eqn:E; cbn [negb]; [|eauto].
  destruct Hin as [->|Hin]; [|auto].
  unfold Dict.mem in E. change (999999 - 100000 + 1) with 900000 in E.
  now rewrite Hz in E.
Qed.
End DictFacts.

(* ------------------------------------------------------------------ *)
(** ** Purchases *)


(** What a returning [buy_listing] has checked and built. *)
Lemma buy_listing_Ret draws w buyer listing_id q order w' draws' :
  buy_listing draws w buyer listing_id q = (Ret order, w', draws') ->
  exists listing order_id amount,
    Dict.get listing_id (listings (market w)) = Some listing /\
    Listing.deleted listing = false /\
    Listing.active listing = true /\
    0 < q <= Listing.quantity listing /\
    generate_id draws (orders (market w)) = Some (order_id, draws') /\
    PyFloat.mul_int (Listing.price listing) q = Ret amount /\
    order = Order.Build order_id (User.id buyer) (Listing.seller_id listing)
              (Listing.id listing) (Listing.price listing) q
              (PyFloat.round2 amount) "COMPLETED" /\
    w' = save_all_csv
           (set_listings
              (Dict.set listing_id (after_purchase q listing)
                        (listings (market w)))
              (set_orders (Dict.set order_id order (orders (market w))) w)).
Proof.
  unfold buy_listing.
  destruct (Dict.get listing_id (listings (market w))) as [l|] eqn:Hget;
    [|discriminate].
  destruct (Listing.deleted l) eqn:Hdel; [discriminate|].
  destruct (Listing.active l) eqn:Hact; [|discriminate].
  destruct (Listing.quantity l <=? 0) eqn:Hq0; [discriminate|].
  cbn [orb negb].
  destruct (q <=? 0) eqn:Hq; [discriminate|].
  destruct (Listing.quantity l <? q) eqn:Hlt; [discriminate|].
  cbn [orb].
  destruct (generate_id draws (orders (market w))) as [[oid ds]|] eqn:Hid;
    [|discriminate].
  destruct (PyFloat.mul_int (Listing.price l) q) as [amount| |] eqn:Hmul;
    try discriminate.
  intros [= <- <- <-].
  exists l, oid, amount.
  repeat split; auto; lia.
Qed.

(** A [buy_listing] that does not return an order changes nothing. *)
Lemma buy_listing_unchanged draws w buyer listing_id q r w' draws' :
  buy_listing draws w buyer listing_id q = (r, w', draws') ->
  (forall order, r <> Ret order) -> w' = w.
Proof.
  unfold buy_listing.
  destruct (Dict.get listing_id (listings (market w))) as [l|];
    [|now intros [= <- <- <-]].
  destruct (_ || _ || _); [now intros [= <- <- <-]|].
  destruct (_ || _); [now intros [= <- <- <-]|].
  destruct (generate_id draws (orders (market w))) as [[oid ds]|];
    [|now intros [= <- <- <-]].
  destruct (PyFloat.mul_int (Listing.price l) q) as [amount| |];
    intros [= <- <- <-]; auto.
  intros H. now destruct (H _ eq_refl).
Qed.

(** [buy_listing] returns when its checks pass, a draw names an unused
    order number and the quantity converts to a [float]. *)
Lemma buy_listing_returns draws w buyer listing_id q listing order_id rest y :
  Dict.get listing_id (listings (market w)) = Some listing ->
  Listing.deleted listing = false ->
  Listing.active listing = true ->
  0 < q <= Listing.quantity listing ->
  generate_id draws (orders (market w)) = Some (order_id, rest) ->
  PyFloat.of_int q = Ret y ->
  exists order w', buy_listing draws w buyer listing_id q = (Ret order, w', rest).
Proof.
  intros Hget Hdel Hact Hq Hid Hy.
  unfold buy_listing. rewrite Hget, Hdel, Hact, Hid.
  unfold PyFloat.mul_int. rewrite Hy. cbn [bind orb negb].
  destruct (Listing.quantity listing <=? 0) eqn:E1; [lia|].
  destruct (q <=? 0) eqn:E2; [lia|].
  destruct (Listing.quantity listing <? q) eqn:E3; [lia|].
  cbn [orb]. eauto.
Qed.

(** C1. For a listing that is not deleted, is active and holds at least
    the requested quantity [q > 0], a [buy_listing] that returns an order
    has decremented the listing's quantity by exactly [q], has cleared
    [active] when the result is [<= 0] and left it set otherwise, has
    changed no other field, and the order is new in the orders table, with
    [unit_price] the listing's price, [total_price] the product
    [unit_price * q] rounded to two decimals and status COMPLETED. In
    particular buying 2 units at price 250 gives a total of 500.00 and
    leaves the listing at quantity 0, inactive. *)
Theorem buy_listing_success :
  forall draws w buyer listing_id q listing order w' draws',
    Dict.get listing_id (listings (market w)) = Some listing ->
    Listing.deleted listing = false ->
    Listing.active listing = true ->
    0 < q <= Listing.quantity listing ->
    buy_listing draws w buyer listing_id q = (Ret order, w', draws') ->
    (exists listing',
       Dict.get listing_id (listings (market w')) = Some listing' /\
       Listing.quantity listing' = Listing.quantity listing - q /\
       Listing.active listing'
         = (if Listing.quantity listing - q <=? 0 then false else true) /\
       Listing.deleted listing' = false /\
       Listing.id listing' = Listing.id listing /\
       Listing.item_id listing' = Listing.item_id listing /\
       Listing.seller_id listing' = Listing.seller_id listing /\
       Listing.price listing' = Listing.price listing /\
       (Listing.price listing = PyFloat.lit "250"
        -> Listing.quantity listing = 2 -> q = 2
        -> Order.total_price order = PyFloat.lit "500.00"
           /\ Listing.quantity listing' = 0
           /\ Listing.active listing' = false)) /\
    Dict.get (Order.id order) (orders (market w)) = None /\
    Dict.get (Order.id order) (orders (market w')) = Some order /\
    Order.unit_price order = Listing.price listing /\
    Order.quantity order = q /\
    (exists amount,
       PyFloat.mul_int (Order.unit_price order) q = Ret amount /\
       Order.total_price order = PyFloat.round2 amount) /\
    Order.status order = "COMPLETED".
Proof.
  intros draws w buyer listing_id q listing order w' draws'
         Hget Hdel Hact Hq Hbuy.
  apply buy_listing_Ret in Hbuy.
  destruct Hbuy as (l & oid & amount & Hget' & _ & _ & _ & Hid & Hmul & -> & ->).
  rewrite Hget in Hget'. injection Hget' as <-.
  split.
  - exists (after_purchase q listing).
    split; [cbn; apply get_set_same|].
    unfold after_purchase. cbn [Listing.quantity Listing.with_quantity].
    assert (Hpart : Listing.price listing = PyFloat.lit "250" ->
                    Listing.quantity listing = 2 -> q = 2 ->
                    PyFloat.round2 amount = PyFloat.lit "500.00"
                    /\ (Listing.quantity listing - q <=? 0) = true).
    { intros Hp Hs ->. rewrite Hs. split; [|reflexivity].
      rewrite Hp in Hmul. vm_compute in Hmul. injection Hmul as <-.
      reflexivity. }
    destruct (Listing.quantity listing - q <=? 0) eqn:E; cbn;
      rewrite ?Hact, ?Hdel; (repeat (split; [solve [auto]|]));
      intros Hp Hs Hq2; destruct (Hpart Hp Hs Hq2) as [Ht Hz];
      try discriminate; repeat split; auto; lia.
  - cbn. repeat split.
    + eapply generate_id_fresh; eauto.
    + apply get_set_same.
    + exists amount. split; auto.
Qed.


Lemma buy_listing_success_witness :
  Order.total_price demo_order = PyFloat.lit "500.00" /\
  Order.status demo_order = "COMPLETED" /\
  exists listing',
    Dict.get "100007"
      (listings (market (snd (fst (buy_listing [8] demo_world demo_buyer
                                               "100007" 2)))))
      = Some listing' /\
    Listing.quantity listing' = 0 /\ Listing.active listing' = false.
Proof.
  destruct (buy_listing_success [8] demo_world demo_buyer "100007" 2
              demo_listing demo_order
              (snd (fst (buy_listing [8] demo_world demo_buyer "100007" 2)))
              [])
    as [(l' & Hget & _ & _ & _ & _ & _ & _ & _ & Hex) _].
  - reflexivity.
  - reflexivity.
  - reflexivity.
  - cbn. lia.
  - vm_compute. reflexivity.
  - destruct Hex as (_ & Hq & Ha); [reflexivity ..|].
    split; [reflexivity|]. split; [reflexivity|].
    exists l'. auto.
Defined.

(* ------------------------------------------------------------------ *)
(** ** What one call does to the listings table *)

Lemma post_listing_Ret draws w seller name category brand condition
      description price quantity listing w' draws' :
  post_listing draws w seller name category brand condition description
               price quantity = (Ret listing, w', draws') ->
  exists item_id draws1,
    PyFloat.leb price PyFloat.zero = false /\ 0 < quantity /\
    generate_id draws (items (market w)) = Some (item_id, draws1) /\
    generate_id draws1 (listings (market w)) = Some (Listing.id listing, draws') /\
    listing = Listing.Build (Listing.id listing) item_id (User.id seller)
                (PyFloat.round2 price) quantity true false /\
    w' = save_all_csv
           (set_listings
              (Dict.set (Listing.id listing) listing (listings (market w)))
              (set_items
                 (Dict.set item_id
                    (Item.Build item_id (title_case name) (title_case category)
                       (title_case brand) (PyStr.upper (PyStr.strip condition))
                       (title_case description))
                    (items (market w))) w)).
Proof.
  unfold post_listing.
  destruct (negb (PyStr.mem _ CATEGORIES)); [discriminate|].
  destruct (negb (PyStr.mem _ CONDITIONS)); [discriminate|].
  destruct (PyFloat.leb price PyFloat.zero) eqn:Hp; [discriminate|].
  destruct (quantity <=? 0) eqn:Hq; [discriminate|]. cbn [orb].
  destruct (generate_id draws (items (market w))) as [[iid d1]|] eqn:H1;
    [|discriminate].
  cbn [market set_items listings].
  destruct (generate_id d1 (listings (market w))) as [[lid d2]|] eqn:H2;
    [|discriminate].
  intros [= <- <- <-]. cbn [Listing.id Item.id].
  exists iid, d1. repeat split; auto; lia.
Qed.

Lemma post_listing_listings draws w seller name category brand condition
      description price quantity r w' draws' :
  post_listing draws w seller name category brand condition description
               price quantity = (r, w', draws') ->
  (forall l, r <> Ret l) -> listings (market w') = listings (market w).
Proof.
  unfold post_listing.
  destruct (negb (PyStr.mem _ CATEGORIES)); [now intros [= <- <- <-]|].
  destruct (negb (PyStr.mem _ CONDITIONS)); [now intros [= <- <- <-]|].
  destruct (_ || _); [now intros [= <- <- <-]|].
  destruct (generate_id draws (items (market w))) as [[iid d1]|];
    [|now intros [= <- <- <-]].
  cbn [market set_items listings].
  destruct (generate_id d1 (listings (market w))) as [[lid d2]|];
    intros [= <- <- <-]; auto.
  intros H. now destruct (H _ eq_refl).
Qed.

Lemma register_listings draws w username password r w' draws' :
  register draws w username password = (r, w', draws') ->
  listings (market w') = listings (market w) /\
  items (market w') = items (market w) /\
  orders (market w') = orders (market w).
Proof.
  unfold register.
  destruct (_ || _); [now intros [= <- <- <-]|].
  destruct (existsb _ _); [now intros [= <- <- <-]|].
  destruct (generate_id draws (users (market w))) as [[uid d1]|];
    now intros [= <- <- <-].
Qed.

Lemma delete_listing_cases w seller listing_id r w' :
  delete_listing w seller listing_id = (r, w') ->
  (w' = w /\ r <> Ret tt) \/
  (exists l, r = Ret tt /\
             Dict.get listing_id (listings (market w)) = Some l /\
             Listing.seller_id l = User.id seller /\
             w' = save_all_csv
                    (set_listings
                       (Dict.set listing_id (Listing.with_deleted l)
                                 (listings (market w))) w)).
Proof.
  unfold delete_listing.
  destruct (Dict.get listing_id (listings (market w))) as [l|] eqn:Hget.
  - destruct (String.eqb_spec (Listing.seller_id l) (User.id seller));
      cbn [negb]; intros [= <- <-].
    + right. exists l. auto.
    + left. split; [auto | discriminate].
  - intros [= <- <-]. left. split; [auto | discriminate].
Qed.

Lemma purchased_not_buy c s :
  (forall b k q, c <> BuyListing b k q) ->
  forall lid, purchased lid [(c, s)] = 0.
Proof.
  intros H lid. destruct c; cbn; auto.
  now destruct (H buyer listing_id quantity).
Qed.

Lemma perform_listings_step draws w c s w' draws' :
  perform draws w c = (s, w', draws') -> listings_step w c s w'.
Proof.
  destruct c; cbn [perform].
  - destruct (register draws w username password) as [[r w1] d1] eqn:E.
    intros [= <- <- <-]. apply register_listings in E.
    apply step_same; [tauto|]. now apply purchased_not_buy.
  - intros [= <- <- <-]. apply step_same; auto.
  - destruct (post_listing _ _ _ _ _ _ _ _ _ _) as [[r w1] d1] eqn:E.
    intros [= <- <- <-].
    destruct r as [l| |].
    + apply post_listing_Ret in E.
      destruct E as (iid & d0 & Hp & Hq & Hi & Hl & Hb & ->).
      apply step_post with (k := Listing.id l) (l := l); auto.
      eapply generate_id_fresh; eauto.
    + apply post_listing_listings in E; [|discriminate].
      apply step_same; auto.
    + apply post_listing_listings in E; [|discriminate].
      apply step_same; auto.
  - destruct (delete_listing w seller listing_id) as [r w1] eqn:E.
    intros [= <- <- <-].
    apply delete_listing_cases in E.
    destruct E as [[-> _]|(l & -> & Hget & _ & ->)].
    + apply step_same; auto.
    + apply step_delete with (k := listing_id) (l := l); auto.
  - intros [= <- <- <-]. apply step_same; auto.
  - intros [= <- <- <-]. apply step_same; auto.
  - intros [= <- <- <-]. apply step_same; auto.
  - destruct (buy_listing draws w buyer listing_id quantity)
      as [[r w1] d1] eqn:E.
    intros [= <- <- <-].
    destruct r as [o| |].
    + apply buy_listing_Ret in E.
      destruct E as (l & oid & amount & Hget & Hd & Ha & Hq & _ & _ & _ & ->).
      apply step_buy with (k := listing_id) (l := l) (q := quantity); auto.
      intros lid. cbn. lia.
    + apply buy_listing_unchanged in E; [|discriminate]. subst.
      apply step_same; auto.
    + apply buy_listing_unchanged in E; [|discriminate]. subst.
      apply step_same; auto.
Qed.

(* ------------------------------------------------------------------ *)
(** ** One listing along a sequence of calls *)

Lemma evolves_refl l : evolves l l 0.
Proof. unfold evolves. repeat split; auto; lia. Qed.

Lemma evolves_trans l1 l2 l3 p q :
  evolves l1 l2 p -> evolves l2 l3 q -> evolves l1 l3 (p + q).
Proof.
  unfold evolves.
  intros (A1 & A2 & A3 & A4 & A5 & A6 & A7 & A8)
         (B1 & B2 & B3 & B4 & B5 & B6 & B7 & B8).
  repeat split; try congruence; auto; lia.
Qed.

Lemma after_purchase_evolves q l :
  0 < q <= Listing.quantity l -> evolves l (after_purchase q l) q.
Proof.
  intros Hq. unfold evolves, after_purchase.
  cbn [Listing.quantity Listing.with_quantity].
  destruct (Listing.quantity l - q <=? 0); cbn; repeat split; auto; lia.
Qed.

Lemma with_deleted_evolves l : evolves l (Listing.with_deleted l) 0.
Proof. unfold evolves. cbn. repeat split; auto; lia. Qed.

Lemma purchased_cons lid c s log :
  purchased lid ((c, s) :: log) = purchased lid [(c, s)] + purchased lid log.
Proof.
  destruct c; cbn; auto. destruct s; cbn; auto. lia.
Qed.

Lemma step_evolves w c s w' lid l :
  listings_step w c s w' ->
  Dict.get lid (listings (market w)) = Some l ->
  exists l', Dict.get lid (listings (market w')) = Some l' /\
             evolves l l' (purchased lid [(c, s)]).
Proof.
  intros Hstep Hget.
  destruct Hstep as [Hsame Hp | k l0 Hk Hset Hp
                     | k l0 Hk Hset Hp | k l0 q Hk Hd Ha Hq Hset Hp];
    rewrite Hp.
  - exists l. rewrite Hsame. split; [auto | apply evolves_refl].
  - exists l. rewrite Hset. split; [|apply evolves_refl].
    rewrite get_set_other; auto. congruence.
  - rewrite Hset. destruct (String.eqb_spec k lid) as [->|Hne].
    + rewrite Hget in Hk. injection Hk as <-.
      exists (Listing.with_deleted l).
      split; [apply get_set_same | apply with_deleted_evolves].
    + exists l. rewrite get_set_other; auto. split; auto. apply evolves_refl.
  - rewrite Hset. destruct (String.eqb_spec k lid) as [->|Hne].
    + rewrite Hget in Hk. injection Hk as <-.
      exists (after_purchase q l).
      split; [apply get_set_same | now apply after_purchase_evolves].
    + exists l. rewrite get_set_other; auto. split; auto. apply evolves_refl.
Qed.

Lemma run_evolves cs : forall draws w log w' draws' lid l,
  run draws w cs = (log, w', draws') ->
  Dict.get lid (listings (market w)) = Some l ->
  exists l', Dict.get lid (listings (market w')) = Some l' /\
             evolves l l' (purchased lid log).
Proof.
  induction cs as [|c cs IH]; intros draws w log w' draws' lid l Hrun Hget.
  - injection Hrun as <- <- <-. exists l. split; auto. apply evolves_refl.
  - cbn [run] in Hrun.
    destruct (perform draws w c) as [[s w1] d1] eqn:Hp.
    pose proof (perform_listings_step _ _ _ _ _ _ Hp) as Hstep.
    destruct (step_evolves _ _ _ _ lid l Hstep Hget) as (l1 & Hget1 & Hev1).
    assert (Hgo : forall log2 w2 d2,
               run d1 w1 cs = (log2, w2, d2) ->
               exists l', Dict.get lid (listings (market w2)) = Some l' /\
                          evolves l l' (purchased lid ((c, s) :: log2))).
    { intros log2 w2 d2 Hrun2.
      destruct (IH _ _ _ _ _ lid l1 Hrun2 Hget1) as (l2 & Hget2 & Hev2).
      exists l2. split; auto. rewrite purchased_cons.
      eapply evolves_trans; eauto. }
    destruct s.
    + destruct (run d1 w1 cs) as [[log2 w2] d2] eqn:Hrun2.
      injection Hrun as <- <- <-. eapply Hgo; eauto.
    + destruct (run d1 w1 cs) as [[log2 w2] d2] eqn:Hrun2.
      injection Hrun as <- <- <-. eapply Hgo; eauto.
    + injection Hrun as <- <- <-. exists l1. auto.
Qed.



(* ------------------------------------------------------------------ *)
(** ** Well-formed worlds are kept by every call *)

Lemma to_str_nonempty n : PyInt.to_str n <> "".
Proof.
  unfold PyInt.to_str, NilZero.string_of_int, NilZero.string_of_uint.
  destruct (Z.to_int n) as [u|u]; [|discriminate].
  destruct u; discriminate.
Qed.

Lemma generate_id_nonempty {V : Type} draws (d : Dict.t V) k rest :
  generate_id draws d = Some (k, rest) -> k <> "".
Proof.
  revert k rest. induction draws as [|z draws IH]; cbn [generate_id];
    [discriminate|].
  intros k rest. destruct (negb _); [|apply IH].
  intros [= <- <-]. apply to_str_nonempty.
Qed.

Lemma In_set {V : Type} (d : Dict.t V) k v k' v' :
  In (k', v') (Dict.set k v d) -> (k' = k /\ v' = v) \/ In (k', v') d.
Proof.
  induction d as [|[k0 v0] d IH]; cbn [Dict.set].
  - intros [[= <- <-]|[]]. now left.
  - destruct (String.eqb_spec k k0) as [<-|Hne].
    + intros [[= <- <-]|H]; [now left | right; now right].
    + intros [H|H]; [right; now left|].
      destruct (IH H); [now left | right; now right].
Qed.

Lemma keys_set_fresh {V : Type} (d : Dict.t V) k v :
  Dict.get k d = None -> Dict.keys (Dict.set k v d) = (Dict.keys d ++ [k])%list.
Proof.
  intros H. rewrite set_fresh by auto. unfold Dict.keys.
  now rewrite map_app.
Qed.

Lemma keyed_set {V : Type} (id : V -> string) (d : Dict.t V) k v :
  keyed id d -> id v = k -> k <> "" -> keyed id (Dict.set k v d).
Proof.
  intros [Hnd Hall] Hid Hk. split.
  - destruct (Dict.get k d) as [v0|] eqn:E.
    + now rewrite (keys_set_present d k v v0 E).
    + rewrite keys_set_fresh by auto.
      apply NoDup_app; [auto | repeat constructor; intros [] | ].
      intros a Ha [<-|[]]. now apply get_None_keys in E.
  - intros k' v' Hin. apply In_set in Hin.
    destruct Hin as [[-> ->]|Hin]; auto.
Qed.

Lemma keyed_empty {V : Type} (id : V -> string) : keyed id Dict.empty.
Proof. split; [constructor | intros k v []]. Qed.

Lemma keyed_get {V : Type} (id : V -> string) (d : Dict.t V) k v :
  keyed id d -> Dict.get k d = Some v -> id v = k /\ k <> "".
Proof. intros [_ H] Hget. apply H. now apply get_In. Qed.

Lemma get_set_keeps {V : Type} (d : Dict.t V) k v k' v' :
  Dict.get k d = None -> Dict.get k' d = Some v' ->
  Dict.get k' (Dict.set k v d) = Some v'.
Proof.
  intros Hn Hs. rewrite get_set_other; auto. congruence.
Qed.

Lemma listing_ok_items its its' l :
  (forall k it, Dict.get k its = Some it -> exists it', Dict.get k its' = Some it') ->
  listing_ok its l -> listing_ok its' l.
Proof.
  intros Hsub (A & (it & B) & C & D). repeat split; auto.
  eapply Hsub; eauto.
Qed.

Lemma register_cases draws w username password r w' draws' :
  register draws w username password = (r, w', draws') ->
  w' = w \/
  exists user,
    r = Ret user /\
    generate_id draws (users (market w)) = Some (User.id user, draws') /\
    user = User.Build (User.id user) (title_case username) password /\
    w' = save_all_csv
           (set_users (Dict.set (User.id user) user (users (market w))) w).
Proof.
  unfold register.
  destruct (_ || _); [intros [= <- <- <-]; now left|].
  destruct (existsb _ _); [intros [= <- <- <-]; now left|].
  destruct (generate_id draws (users (market w))) as [[uid d1]|];
    intros [= <- <- <-]; [|now left].
  right. eexists. cbn. repeat split.
Qed.

Lemma post_listing_not_Ret draws w seller name category brand condition
      description price quantity r w' draws' :
  post_listing draws w seller name category brand condition description
               price quantity = (r, w', draws') ->
  (forall l, r <> Ret l) ->
  w' = w \/
  exists item_id draws1 item,
    generate_id draws (items (market w)) = Some (item_id, draws1) /\
    Item.id item = item_id /\
    w' = set_items (Dict.set item_id item (items (market w))) w.
Proof.
  unfold post_listing.
  destruct (negb (PyStr.mem _ CATEGORIES)); [intros [= <- <- <-]; now left|].
  destruct (negb (PyStr.mem _ CONDITIONS)); [intros [= <- <- <-]; now left|].
  destruct (_ || _); [intros [= <- <- <-]; now left|].
  destruct (generate_id draws (items (market w))) as [[iid d1]|];
    [|intros [= <- <- <-]; now left].
  cbn [market set_items listings].
  destruct (generate_id d1 (listings (market w))) as [[lid d2]|];
    intros [= <- <- <-] H.
  - now destruct (H _ eq_refl).
  - right. eexists _, _, _. repeat split. reflexivity.
Qed.

Lemma invariant_new : invariant new_world.
Proof.
  split; cbn; try apply keyed_empty; intros k x [].
Qed.

Lemma perform_invariant draws w c s w' draws' :
  invariant w -> perform draws w c = (s, w', draws') -> invariant w'.
Proof.
  intros [Hu Hi Hl Ho Hlok Hook] Hp.
  assert (Hposted : forall r w1 d1 seller name category brand condition
                           description price quantity,
             post_listing draws w seller name category brand condition
                          description price quantity = (r, w1, d1) ->
             (forall l, r <> Ret l) -> invariant w1).
  { intros r w1 d1 seller name category brand condition description price
           quantity E Hr.
    apply post_listing_not_Ret in E; auto.
    destruct E as [->|(iid & d0 & item & Hgi & Hid & ->)]; [now split|].
    pose proof (generate_id_fresh _ _ _ _ Hgi) as Hfi.
    split; cbn; auto.
    - apply keyed_set; auto. eapply generate_id_nonempty; eauto.
    - intros k l0 Hin. eapply listing_ok_items; [|eapply Hlok; eauto].
      intros k0 it Hk0. exists it. now apply get_set_keeps. }
  destruct c; cbn [perform] in Hp.
  - destruct (register draws w username password) as [[r w1] d1] eqn:E.
    injection Hp as <- <- <-.
    apply register_cases in E.
    destruct E as [->|(user & -> & Hid & Hb & ->)]; [now split|].
    split; cbn; auto.
    apply keyed_set; auto. eapply generate_id_nonempty; eauto.
  - injection Hp as <- <- <-. now split.
  - destruct (post_listing _ _ _ _ _ _ _ _ _ _) as [[r w1] d1] eqn:E.
    injection Hp as <- <- <-.
    destruct r as [l|e|];
      [| eapply Hposted; eauto; discriminate ..].
    apply post_listing_Ret in E.
      destruct E as (iid & d0 & _ & Hq & Hgi & Hgl & Hb & ->).
      pose proof (generate_id_fresh _ _ _ _ Hgi) as Hfi.
      split; cbn; auto.
      * apply keyed_set; auto. eapply generate_id_nonempty; eauto.
      * apply keyed_set; auto. eapply generate_id_nonempty; eauto.
      * intros k l0 Hin. apply In_set in Hin.
        destruct Hin as [[-> ->]|Hin].
        -- rewrite Hb. repeat split; cbn; try discriminate; try lia.
           ++ eexists. apply get_set_same.
           ++ now exists price.
        -- eapply listing_ok_items; [|eapply Hlok; eauto].
           intros k0 it Hk0. exists it. now apply get_set_keeps.
  - destruct (delete_listing w seller listing_id) as [r w1] eqn:E.
    injection Hp as <- <- <-.
    apply delete_listing_cases in E.
    destruct E as [[-> _]|(l & -> & Hget & _ & ->)]; [now split|].
    destruct (keyed_get _ _ _ _ Hl Hget) as [Hid Hne].
    split; cbn; auto.
    + apply keyed_set; auto.
    + intros k l0 Hin. apply In_set in Hin.
      destruct Hin as [[-> ->]|Hin]; [|eapply Hlok; eauto].
      destruct (Hlok _ _ (get_In _ _ _ Hget)) as (A & B & C & D).
      repeat split; auto.
  - injection Hp as <- <- <-. now split.
  - injection Hp as <- <- <-. now split.
  - injection Hp as <- <- <-. now split.
  - destruct (buy_listing draws w buyer listing_id quantity)
      as [[r w1] d1] eqn:E.
    injection Hp as <- <- <-.
    destruct r as [o|e|];
      [| apply buy_listing_unchanged in E; [|discriminate]; subst; now split ..].
    + apply buy_listing_Ret in E.
      destruct E as (l & oid & amount & Hget & Hd & Ha & Hq & Hgo & Hmul & Hb & ->).
      destruct (keyed_get _ _ _ _ Hl Hget) as [Hid Hne].
      destruct (Hlok _ _ (get_In _ _ _ Hget)) as (A & B & C & D).
      split; cbn; auto.
      * apply keyed_set; auto.
        destruct (after_purchase_evolves quantity l Hq) as (E1 & _). congruence.
      * apply keyed_set; auto; [now rewrite Hb|].
        eapply generate_id_nonempty; eauto.
      * intros k l0 Hin. apply In_set in Hin.
        destruct Hin as [[-> ->]|Hin]; [|eapply Hlok; eauto].
        destruct (after_purchase_evolves quantity l Hq)
          as (_ & E2 & _ & E4 & _ & E6 & _ & E8).
        unfold listing_ok. rewrite E2, E4. repeat split; auto.
        unfold after_purchase. cbn [Listing.quantity Listing.with_quantity].
        destruct (_ <=? 0); cbn; auto.
      * intros k o0 Hin. apply In_set in Hin.
        destruct Hin as [[-> ->]|Hin]; [|eapply Hook; eauto].
        rewrite Hb. split; cbn; [auto | now exists amount].
Qed.

Lemma reachable_invariant w : reachable w -> invariant w.
Proof.
  induction 1 as [|w draws c s w' draws' _ IH Hp Hs].
  - apply invariant_new.
  - eapply perform_invariant; eauto.
Qed.

Lemma run_invariant cs : forall draws w log w' draws',
  invariant w -> run draws w cs = (log, w', draws') -> invariant w'.
Proof.
  induction cs as [|c cs IH]; intros draws w log w' draws' Hinv Hrun.
  - now injection Hrun as <- <- <-.
  - cbn [run] in Hrun.
    destruct (perform draws w c) as [[s w1] d1] eqn:Hp.
    apply perform_invariant in Hp; auto.
    destruct s;
      [destruct (run d1 w1 cs) as [[log2 w2] d2] eqn:Hrun2;
       injection Hrun as <- <- <-; eauto .. |].
    now injection Hrun as <- <- <-.
Qed.

(** C7. In every world reached from a new marketplace by controller calls,
    a deleted listing is inactive; and whatever calls follow, a listing
    that is deleted is still in the table, still deleted and still
    inactive afterwards: nothing leaves the deleted state. *)
Theorem deleted_is_terminal :
  forall w, reachable w ->
    (forall lid l,
        Dict.get lid (listings (market w)) = Some l ->
        Listing.deleted l = true -> Listing.active l = false) /\
    (forall draws cs log w' draws' lid l,
        run draws w cs = (log, w', draws') ->
        Dict.get lid (listings (market w)) = Some l ->
        Listing.deleted l = true ->
        exists l', Dict.get lid (listings (market w')) = Some l' /\
                   Listing.deleted l' = true /\ Listing.active l' = false).
Proof.
  intros w Hreach. pose proof (reachable_invariant w Hreach) as Hinv.
  split.
  - intros lid l Hget Hdel.
    destruct (inv_listing_ok w Hinv lid l (get_In _ _ _ Hget)) as (A & _).
    auto.
  - intros draws cs log w' draws' lid l Hrun Hget Hdel.
    destruct (run_evolves _ _ _ _ _ _ _ _ Hrun Hget) as (l' & Hget' & Hev).
    destruct Hev as (_ & _ & _ & _ & Hd & _).
    exists l'. repeat split; auto.
    pose proof (run_invariant _ _ _ _ _ _ Hinv Hrun) as Hinv'.
    destruct (inv_listing_ok w' Hinv' lid l' (get_In _ _ _ Hget')) as (A & _).
    auto.
Qed.


Lemma demo_world_reachable : reachable demo_world.
Proof.
  eapply reachable_call with
    (draws := [6; 7])
    (c := PostListing demo_seller "iPhone 8" "Electronics" "Apple" "GOOD"
                      "desc" (PyFloat.lit "250") 2)
    (s := Done) (draws' := []).
  - eapply reachable_call with
      (draws := [5]) (c := Register "Bob" "pw1") (s := Done) (draws' := []).
    + apply reachable_new.
    + reflexivity.
    + discriminate.
  - vm_compute. reflexivity.
  - discriminate.
Qed.

Lemma deleted_world_reachable : reachable deleted_world.
Proof.
  eapply reachable_call with
    (draws := []) (c := DeleteListing demo_seller "100007") (s := Done)
    (draws' := []).
  - apply demo_world_reachable.
  - vm_compute. reflexivity.
  - discriminate.
Qed.

Lemma deleted_is_terminal_witness :
  exists l',
    Dict.get "100007"
      (listings (market (snd (fst (run [8; 9; 10] deleted_world
           [BuyListing demo_buyer "100007" 1;
            PostListing demo_seller "Lamp" "home" "Ikea" "new" "" (PyFloat.lit "9.5") 1;
            DeleteListing demo_seller "100007"])))))
    = Some l' /\ Listing.deleted l' = true /\ Listing.active l' = false.
Proof.
  destruct (deleted_is_terminal deleted_world deleted_world_reachable)
    as [_ H].
  refine (H [8; 9; 10] _ _ _ _ "100007"
            (Listing.with_deleted demo_listing) _ _ _).
  - apply surjective_pairing_3.
  - vm_compute. reflexivity.
  - reflexivity.
Defined.

(* ------------------------------------------------------------------ *)
(** ** Deleting a listing *)

(** C5. [delete_listing] fails with NotFoundError when the id is not a
    key of the listings table, and with AuthorizationError when the
    listing's seller is not the caller, the world staying as it was in
    both cases; otherwise it returns, the listing has [deleted] set and
    [active] cleared with its other fields kept, and a second call by the
    owner returns again and changes nothing. *)
Theorem delete_listing_contract :
  forall w seller listing_id,
    (Dict.get listing_id (listings (market w)) = None ->
     exists e, delete_listing w seller listing_id = (Raise e, w) /\
               kind_of e = Some NotFoundError) /\
    (forall l,
        Dict.get listing_id (listings (market w)) = Some l ->
        Listing.seller_id l <> User.id seller ->
        exists e, delete_listing w seller listing_id = (Raise e, w) /\
                  kind_of e = Some AuthorizationError) /\
    (forall l,
        Dict.get listing_id (listings (market w)) = Some l ->
        Listing.seller_id l = User.id seller ->
        exists w' l',
          delete_listing w seller listing_id = (Ret tt, w') /\
          Dict.get listing_id (listings (market w')) = Some l' /\
          Listing.deleted l' = true /\ Listing.active l' = false /\
          Listing.id l' = Listing.id l /\
          Listing.item_id l' = Listing.item_id l /\
          Listing.seller_id l' = Listing.seller_id l /\
          Listing.price l' = Listing.price l /\
          Listing.quantity l' = Listing.quantity l /\
          (forall k, k <> listing_id ->
                     Dict.get k (listings (market w'))
                     = Dict.get k (listings (market w))) /\
          delete_listing w' seller listing_id = (Ret tt, w')).
Proof.
  intros w seller listing_id. unfold delete_listing. repeat split.
  - intros ->. eexists. split; reflexivity.
  - intros l -> Hne.
    destruct (String.eqb_spec (Listing.seller_id l) (User.id seller));
      [contradiction|].
    eexists. split; reflexivity.
  - intros l Hget Heq. rewrite Hget, Heq, String.eqb_refl. cbn [negb].
    eexists _, (Listing.with_deleted l).
    split; [reflexivity|].
    split; [cbn; apply get_set_same|].
    do 7 (split; [cbn; congruence|]).
    split; [intros k Hk; cbn; apply get_set_other; congruence|].
    cbn [market save_all_csv set_listings listings].
    rewrite get_set_same. cbn [Listing.seller_id Listing.with_deleted].
    rewrite Heq, String.eqb_refl. cbn [negb].
    rewrite set_set. reflexivity.
Qed.

Lemma delete_listing_contract_witness :
  (exists e, delete_listing demo_world demo_seller "000000" = (Raise e, demo_world)
             /\ kind_of e = Some NotFoundError) /\
  (exists e, delete_listing demo_world demo_buyer "100007" = (Raise e, demo_world)
             /\ kind_of e = Some AuthorizationError) /\
  (exists w', delete_listing demo_world demo_seller "100007" = (Ret tt, w') /\
              delete_listing w' demo_seller "100007" = (Ret tt, w')).
Proof.
  split; [|split].
  - apply (proj1 (delete_listing_contract demo_world demo_seller "000000")).
    reflexivity.
  - apply (proj1 (proj2 (delete_listing_contract demo_world demo_buyer "100007"))
             demo_listing).
    + reflexivity.
    + discriminate.
  - destruct (proj2 (proj2 (delete_listing_contract demo_world demo_seller
                                                    "100007"))
                demo_listing eq_refl eq_refl)
      as (w' & l' & H1 & _ & _ & _ & _ & _ & _ & _ & _ & _ & H2).
    exists w'. split; assumption.
Defined.

(* ------------------------------------------------------------------ *)
(** ** Registering *)

Lemma existsb_username us user_name :
  existsb (fun u => String.eqb (PyStr.lower (User.username u))
                               (PyStr.lower user_name)) us = true <->
  exists u, In u us /\ PyStr.lower (User.username u) = PyStr.lower user_name.
Proof.
  rewrite existsb_exists. split; intros (u & Hin & H); exists u; split; auto.
  - now apply String.eqb_eq.
  - now apply String.eqb_eq.
Qed.

(** C4. [register] fails with ValidationError when the normalised
    username or the password is empty; otherwise it fails with
    ConflictError when an existing user's username equals the normalised
    one up to case, as when "alice" comes after "Alice"; otherwise, as
    soon as a draw names an unused number, it returns a user with the
    normalised username, the password as given and an id that was not a
    key of the users table, and stores it under that id, last in the
    table and on file. A failed call changes nothing. *)
Theorem register_contract :
  forall draws w username password,
    (title_case username = "" \/ password = "" ->
     exists e, register draws w username password = (Raise e, w, draws) /\
               kind_of e = Some ValidationError) /\
    (title_case username <> "" -> password <> "" ->
     (exists u, In u (Dict.values (users (market w))) /\
                PyStr.lower (User.username u)
                = PyStr.lower (title_case username)) ->
     exists e, register draws w username password = (Raise e, w, draws) /\
               kind_of e = Some ConflictError) /\
    (password <> "" ->
     (exists u, In u (Dict.values (users (market w))) /\
                User.username u = "Alice") ->
     exists e, register draws w "alice" password = (Raise e, w, draws) /\
               kind_of e = Some ConflictError) /\
    (title_case username <> "" -> password <> "" ->
     (forall u, In u (Dict.values (users (market w))) ->
                PyStr.lower (User.username u)
                <> PyStr.lower (title_case username)) ->
     (exists z, In z draws /\
                Dict.get (PyInt.to_str (100000 + z mod 900000))
                         (users (market w)) = None) ->
     exists user w' draws',
       register draws w username password = (Ret user, w', draws') /\
       User.username user = title_case username /\
       User.password user = password /\
       Dict.get (User.id user) (users (market w)) = None /\
       users (market w')
       = (users (market w) ++ [(User.id user, user)])%list /\
       USERS_CSV (disk w')
       = Some (map User.to_row (Dict.values (users (market w'))))).
Proof.
  intros draws w username password.
  repeat split.
  - intros H. unfold register.
    assert (E : PyStr.is_empty (title_case username) || PyStr.is_empty password
                = true).
    { destruct H as [-> | ->]; [reflexivity|].
      destruct (title_case username); reflexivity. }
    rewrite E. eexists. split; reflexivity.
  - intros Hn Hp Hex. unfold register.
    destruct (title_case username) eqn:Et; [contradiction|].
    destruct password; [contradiction|]. cbn [PyStr.is_empty orb].
    apply existsb_username in Hex. rewrite Hex.
    eexists. split; reflexivity.
  - intros Hp (u & Hin & Hu). unfold register.
    change (title_case "alice") with "Alice".
    destruct password; [contradiction|]. cbn [PyStr.is_empty orb].
    assert (Hex : exists u0, In u0 (Dict.values (users (market w))) /\
                    PyStr.lower (User.username u0) = PyStr.lower "Alice")
      by (exists u; split; [auto | now rewrite Hu]).
    apply existsb_username in Hex. rewrite Hex.
    eexists. split; reflexivity.
  - intros Hn Hp Hall Hdraw. unfold register.
    destruct (title_case username) eqn:Et; [contradiction|].
    destruct password eqn:Ep; [contradiction|]. cbn [PyStr.is_empty orb].
    destruct (existsb _ _) eqn:Hex.
    { apply existsb_username in Hex. destruct Hex as (u & Hin & Hu).
      now destruct (Hall u Hin). }
    destruct (generate_id_returns draws (users (market w)) Hdraw)
      as (k & rest & Hid).
    rewrite Hid. eexists _, _, _. split; [reflexivity|].
    pose proof (generate_id_fresh _ _ _ _ Hid) as Hfresh.
    cbn. repeat split; auto. now apply set_fresh.
Qed.

Lemma register_contract_witness :
  (exists e, register [5] new_world "   " "pw" = (Raise e, new_world, [5]) /\
             kind_of e = Some ValidationError) /\
  (exists e, register [9] demo_world "bOB" "pw" = (Raise e, demo_world, [9]) /\
             kind_of e = Some ConflictError) /\
  (exists user w' draws',
      register [5; 9] demo_world "dave  smith" "pw3" = (Ret user, w', draws') /\
      User.username user = "Dave Smith" /\ User.password user = "pw3").
Proof.
  split; [|split].
  - apply (proj1 (register_contract [5] new_world "   " "pw")).
    left. reflexivity.
  - apply (proj1 (proj2 (register_contract [9] demo_world "bOB" "pw"))).
    + discriminate.
    + discriminate.
    + exists demo_seller. split; [left|]; reflexivity.
  - destruct (proj2 (proj2 (proj2
                (register_contract [5; 9] demo_world "dave  smith" "pw3"))))
      as (user & w' & draws' & H1 & H2 & H3 & _).
    + discriminate.
    + discriminate.
    + intros u [<-|[]]. discriminate.
    + exists 9. split; [right; left|]; reflexivity.
    + exists user, w', draws'. auto.
Defined.

(* ------------------------------------------------------------------ *)
(** ** Failures of a purchase *)

(** The result of [buy_listing], check by check. *)
Lemma buy_listing_result draws w buyer listing_id q :
  let r := fst (fst (buy_listing draws w buyer listing_id q)) in
  match Dict.get listing_id (listings (market w)) with
  | None => r = Raise (ValueError "Listing not found.")
  | Some l =>
      if Listing.deleted l || negb (Listing.active l)
         || (Listing.quantity l <=? 0)
      then r = Raise (ValueError "Listing not available.")
      else if (q <=? 0) || (Listing.quantity l <? q)
           then r = Raise (ValueError "Invalid quantity.")
           else forall k, ~ fails_with r k
  end.
Proof.
  unfold buy_listing.
  destruct (Dict.get listing_id (listings (market w))) as [l|]; [|reflexivity].
  destruct (_ || _ || _); [reflexivity|].
  destruct (_ || _); [reflexivity|].
  intros k (e & He & Hk).
  destruct (generate_id _ _) as [[oid ds]|]; [|discriminate].
  destruct (PyFloat.mul_int _ _) as [a|e'|] eqn:Hm; try discriminate.
  injection He as <-. unfold PyFloat.mul_int in Hm.
  destruct (PyFloat.of_int q) as [y|e2|] eqn:Hy; try discriminate.
  injection Hm as <-. unfold PyFloat.of_int in Hy.
  destruct (PyFloat.of_ratio _ _ _); try discriminate.
  injection Hy as <-. discriminate.
Qed.

Lemma fails_with_Raise {A : Type} (e : exn) (k : kind) :
  fails_with (@Raise A e) k <-> kind_of e = Some k.
Proof.
  unfold fails_with. split.
  - intros (e' & [= <-] & H). exact H.
  - intros H. exists e. auto.
Qed.

(** The three reported failures of [buy_listing], each exactly under its
    condition and in this order. *)
Lemma buy_listing_failures draws w buyer listing_id q :
  (Dict.get listing_id (listings (market w)) = None <->
   fails_with (fst (fst (buy_listing draws w buyer listing_id q)))
              NotFoundError) /\
  (forall l, Dict.get listing_id (listings (market w)) = Some l ->
     ((Listing.deleted l = true \/ Listing.active l = false
       \/ Listing.quantity l <= 0) <->
      fails_with (fst (fst (buy_listing draws w buyer listing_id q)))
                 UnavailableError) /\
     ((Listing.deleted l = false /\ Listing.active l = true
       /\ 0 < Listing.quantity l /\ (q <= 0 \/ Listing.quantity l < q)) <->
      fails_with (fst (fst (buy_listing draws w buyer listing_id q)))
                 ValidationError)).
Proof.
  pose proof (buy_listing_result draws w buyer listing_id q) as H.
  cbv zeta in H.
  destruct (Dict.get listing_id (listings (market w))) as [l|].
  - split.
    + split; [discriminate|]. intros Hf. exfalso. revert H Hf.
      destruct (_ || _ || _); [intros ->; rewrite fails_with_Raise; discriminate|].
      destruct (_ || _); [intros ->; rewrite fails_with_Raise; discriminate|].
      intros H Hf. exact (H _ Hf).
    + intros l0 [= <-].
      destruct (Listing.deleted l), (Listing.active l),
        (Z.leb_spec (Listing.quantity l) 0); cbn [orb negb] in H;
        try (rewrite H, !fails_with_Raise; cbn; settle_cases; fail).
      destruct (Z.leb_spec q 0), (Z.ltb_spec (Listing.quantity l) q);
        cbn [orb] in H;
        try (rewrite H, !fails_with_Raise; cbn; settle_cases; fail).
      split; split; try (intros Hf; destruct (H _ Hf)); settle_cases.
  - rewrite H, fails_with_Raise. split; [split; auto|discriminate].
Qed.

(** C3. The three reported failures are as specified
    ([buy_listing_failures]), but the remaining cases do not all succeed:
    in a world reached by one registration and one posting, a listing
    holds [10^400] units, is active and not deleted, the requested
    quantity is positive and within the stock, and [buy_listing] ends
    with [OverflowError], which is none of the failures of the
    specification, while computing the total price. *)
Theorem buy_listing_overflows :
  reachable huge_world /\
  exists l,
    Dict.get "100007" (listings (market huge_world)) = Some l /\
    Listing.deleted l = false /\ Listing.active l = true /\
    0 < 10 ^ 400 <= Listing.quantity l /\
    buy_listing [8] huge_world demo_buyer "100007" (10 ^ 400)
    = (Raise (OverflowError "int too large to convert to float"),
       huge_world, []) /\
    kind_of (OverflowError "int too large to convert to float") = None.
Proof.
  split.
  - eapply reachable_call with
      (draws := [6; 7])
      (c := PostListing demo_seller "Sand" "Others" "None" "NEW" "grains"
                        (PyFloat.lit "1.0") (10 ^ 400))
      (s := Done) (draws' := []).
    + eapply reachable_call with
        (draws := [5]) (c := Register "Bob" "pw1") (s := Done) (draws' := []).
      * apply reachable_new.
      * reflexivity.
      * discriminate.
    + vm_compute. reflexivity.
    + discriminate.
  - eexists. split; [vm_compute; reflexivity|].
    repeat split; try (vm_compute; congruence).
Qed.

(* ------------------------------------------------------------------ *)
(** ** The stored price *)

(** C10. The price [post_listing] stores is not the price it was given but
    that price rounded to two decimals: the returned listing, stored under
    its id, carries [round(price, 2)], and so does the [unit_price] of
    every order later bought from it, whatever calls come in between; a
    price of 19.999 is accepted and stored as 20.00. *)
Theorem post_listing_rounds_price :
  (forall draws w seller name category brand condition description price
          quantity listing w1 draws1,
      post_listing draws w seller name category brand condition description
                   price quantity = (Ret listing, w1, draws1) ->
      Listing.price listing = PyFloat.round2 price /\
      Dict.get (Listing.id listing) (listings (market w1)) = Some listing /\
      forall draws2 cs log w2 draws3 draws4 buyer q order w3 draws5,
        run draws2 w1 cs = (log, w2, draws3) ->
        buy_listing draws4 w2 buyer (Listing.id listing) q
        = (Ret order, w3, draws5) ->
        Order.unit_price order = PyFloat.round2 price) /\
  (PyFloat.leb (PyFloat.lit "19.999") PyFloat.zero = false /\
   PyFloat.round2 (PyFloat.lit "19.999") = PyFloat.lit "20.00" /\
   PyFloat.round2 (PyFloat.lit "19.999") <> PyFloat.lit "19.999").
Proof.
  split.
  - intros draws w seller name category brand condition description price
           quantity listing w1 draws1 Hpost.
    apply post_listing_Ret in Hpost.
    destruct Hpost as (iid & d0 & _ & _ & _ & _ & Hl & ->).
    assert (Hp : Listing.price listing = PyFloat.round2 price)
      by (now rewrite Hl).
    split; [auto|].
    split; [cbn; apply get_set_same|].
    intros draws2 cs log w2 draws3 draws4 buyer q order w3 draws5 Hrun Hbuy.
    eapply run_evolves with (lid := Listing.id listing) (l := listing) in Hrun;
      [|cbn; apply get_set_same].
    destruct Hrun as (l2 & Hget2 & _ & _ & _ & Hprice & _).
    apply buy_listing_Ret in Hbuy.
    destruct Hbuy as (l & oid & amount & Hget & _ & _ & _ & _ & _ & -> & _).
    rewrite Hget2 in Hget. injection Hget as <-. cbn. congruence.
  - repeat split; vm_compute; congruence.
Qed.

Lemma post_listing_rounds_price_witness :
  Listing.price
    (Listing.Build "100007" "100006" "100005" (PyFloat.lit "20.00") 1 true false)
  = PyFloat.round2 (PyFloat.lit "19.999").
Proof.
  refine (proj1 (proj1 post_listing_rounds_price
                   [6; 7] (snd (fst (register [5] new_world "Bob" "pw1")))
                   demo_seller "Pen" "Others" "Bic" "NEW" ""
                   (PyFloat.lit "19.999") 1 _
                   (snd (fst (post_listing [6; 7]
                       (snd (fst (register [5] new_world "Bob" "pw1")))
                       demo_seller "Pen" "Others" "Bic" "NEW" ""
                       (PyFloat.lit "19.999") 1)))
                   [] _)).
  vm_compute. reflexivity.
Defined.

(* ------------------------------------------------------------------ *)
(** ** The price suggestion *)

(** C9, as worded, fails: with the condition " new" the upper-cased text
    " NEW" is no key of the multiplier table, so the wording gives the
    fallback 0.65, while the code strips the text first and finds 1.00. *)
Lemma price_suggestion_counterexample :
  price_suggestion "Electronics" " new"
  = (PyFloat.lit "300.00", PyFloat.lit "270.00", PyFloat.lit "330.00") /\
  suggestion_for_upper_cased "Electronics" " new"
  = (PyFloat.lit "195.00", PyFloat.lit "175.50", PyFloat.lit "214.50") /\
  price_suggestion "Electronics" " new"
  <> suggestion_for_upper_cased "Electronics" " new".
Proof.
  repeat split; vm_compute; congruence.
Qed.

(** C9, amended. [price_suggestion c d] is [(s, round(s * 0.9, 2),
    round(s * 1.1, 2))] with [s = round(baseline * multiplier, 2)], the
    baseline being the table entry of the title-cased [c], 40.0 (that of
    "Others") when there is none, and the multiplier the table entry of
    [d] stripped of surrounding whitespace and then upper-cased, 0.65
    when there is none; "Electronics" and "NEW" give (300.00, 270.00,
    330.00), and an unknown category gives what "Others" gives. *)
Theorem price_suggestion_formula :
  (forall c d,
      price_suggestion c d
      = suggestion (baseline_of (title_case c))
                   (multiplier_of (PyStr.upper (PyStr.strip d)))) /\
  Dict.get "Others" CATEGORY_BASELINE = Some (PyFloat.lit "40.0") /\
  price_suggestion "Electronics" "NEW"
  = (PyFloat.lit "300.00", PyFloat.lit "270.00", PyFloat.lit "330.00") /\
  price_suggestion "Unknown" "NEW" = price_suggestion "Others" "NEW".
Proof.
  split; [|repeat split; vm_compute; reflexivity].
  intros c d. unfold price_suggestion, suggestion, baseline_of, multiplier_of,
                table_get.
  reflexivity.
Qed.

(* ------------------------------------------------------------------ *)
(** ** Searching *)

Lemma search_listings_filter test its ls :
  (forall l, In l ls -> visible l = true ->
             exists it, Dict.get (Listing.item_id l) its = Some it) ->
  search_listings test its ls
  = Ret (filter (fun l => visible l && item_has test its l) ls).
Proof.
  induction ls as [|l ls IH]; intros Hits; [reflexivity|].
  cbn [search_listings filter]. fold (visible l).
  destruct (visible l) eqn:Hv; cbn [andb].
  - destruct (Hits l (or_introl eq_refl) Hv) as (it & Hit).
    unfold item_has at 1. rewrite Hit.
    rewrite IH by (intros l0 Hin; apply Hits; now right).
    cbn [bind]. now destruct (test it).
  - apply IH. intros l0 Hin. apply Hits. now right.
Qed.

Lemma In_values {V : Type} (d : Dict.t V) v :
  In v (Dict.values d) -> exists k, In (k, v) d.
Proof.
  unfold Dict.values. rewrite in_map_iff.
  intros ([k v'] & Hv & Hin). cbn in Hv. subst. eauto.
Qed.

Lemma invariant_search_items w :
  invariant w ->
  forall l, In l (Dict.values (listings (market w))) -> visible l = true ->
            exists it, Dict.get (Listing.item_id l) (items (market w)) = Some it.
Proof.
  intros Hinv l Hin _. apply In_values in Hin. destruct Hin as (k & Hin).
  destruct (inv_listing_ok w Hinv k l Hin) as (_ & H & _). exact H.
Qed.

(** C6. In a reachable world [search_by_category] and
    [search_by_full_name] return, in table order, exactly the listings
    that are not deleted, active and in stock and whose item has the
    title-cased query as its category, respectively as its name. So when
    a purchase brings a listing's quantity to 0, the listing is inactive,
    still not deleted, and no search returns it any more. *)
Theorem search_contract :
  forall w, reachable w ->
    (forall category,
        search_by_category w category
        = Ret (filter
                 (fun l => visible l &&
                           item_has (fun it => String.eqb (Item.category it)
                                                  (title_case category))
                                    (items (market w)) l)
                 (Dict.values (listings (market w))))) /\
    (forall full_name,
        search_by_full_name w full_name
        = Ret (filter
                 (fun l => visible l &&
                           item_has (fun it => String.eqb (Item.name it)
                                                  (title_case full_name))
                                    (items (market w)) l)
                 (Dict.values (listings (market w))))) /\
    (forall draws buyer listing_id q order w' draws' l',
        buy_listing draws w buyer listing_id q = (Ret order, w', draws') ->
        Dict.get listing_id (listings (market w')) = Some l' ->
        Listing.quantity l' = 0 ->
        Listing.active l' = false /\ Listing.deleted l' = false /\
        forall query,
          exists by_category by_name,
            search_by_category w' query = Ret by_category /\
            search_by_full_name w' query = Ret by_name /\
            forall x, In x by_category \/ In x by_name ->
                      x <> l' /\ Listing.id x <> listing_id).
Proof.
  intros w Hreach. pose proof (reachable_invariant w Hreach) as Hinv.
  split; [|split].
  - intros category. unfold search_by_category.
    apply search_listings_filter, invariant_search_items, Hinv.
  - intros full_name. unfold search_by_full_name.
    apply search_listings_filter, invariant_search_items, Hinv.
  - intros draws buyer listing_id q order w' draws' l' Hbuy Hget' Hq0.
    assert (Hinv' : invariant w').
    { apply (perform_invariant draws w (BuyListing buyer listing_id q) Done
                               w' draws' Hinv).
      cbn [perform]. now rewrite Hbuy. }
    pose proof Hbuy as Hret. apply buy_listing_Ret in Hret.
    destruct Hret as (l & oid & amount & Hget & Hd & Ha & Hq & _ & _ & _ & ->).
    cbn in Hget'. rewrite get_set_same in Hget'. injection Hget' as <-.
    assert (Hvis : visible (after_purchase q l) = false).
    { unfold visible. rewrite Hq0. now rewrite Bool.andb_false_r. }
    assert (Hflags : Listing.active (after_purchase q l) = false /\
                     Listing.deleted (after_purchase q l) = false).
    { revert Hq0. unfold after_purchase.
      cbn [Listing.quantity Listing.with_quantity].
      destruct (Z.leb_spec (Listing.quantity l - q) 0); cbn; [auto | lia]. }
    destruct Hflags as [Hact Hdel]. repeat split; auto.
    intros query.
    eexists _, _.
    split; [unfold search_by_category;
            apply search_listings_filter, invariant_search_items, Hinv'|].
    split; [unfold search_by_full_name;
            apply search_listings_filter, invariant_search_items, Hinv'|].
    assert (Hx : forall x,
               In x (Dict.values (listings (market
                  (save_all_csv
                     (set_listings
                        (Dict.set listing_id (after_purchase q l)
                                  (listings (market w)))
                        (set_orders
                           (Dict.set oid
                              (Order.Build oid (User.id buyer)
                                 (Listing.seller_id l) (Listing.id l)
                                 (Listing.price l) q (PyFloat.round2 amount)
                                 "COMPLETED")
                              (orders (market w))) w)))))) ->
               visible x = true ->
               x <> after_purchase q l /\ Listing.id x <> listing_id).
    { intros x Hin Hv. split; [intros ->; congruence|].
      intros Hid. apply In_values in Hin. destruct Hin as (k & Hin).
      destruct (inv_listings _ Hinv') as [Hnd Hkeys].
      destruct (Hkeys k x Hin) as [Hk _].
      apply In_get_nodup in Hin; auto.
      rewrite <- Hk, Hid in Hin. cbn in Hin.
      rewrite get_set_same in Hin. injection Hin as <-. congruence. }
    intros x [Hin|Hin]; apply filter_In in Hin; destruct Hin as [Hin Hf];
      apply andb_prop in Hf; destruct Hf as [Hv _]; now apply Hx.
Qed.

Lemma search_contract_witness :
  search_by_category demo_world "electronics" = Ret [demo_listing] /\
  search_by_full_name demo_world "iphone  8" = Ret [demo_listing] /\
  search_by_category
    (snd (fst (buy_listing [8] demo_world demo_buyer "100007" 2)))
    "electronics" = Ret [].
Proof.
  destruct (search_contract demo_world demo_world_reachable) as (H1 & H2 & H3).
  split; [rewrite H1; reflexivity|].
  split; [rewrite H2; reflexivity|].
  destruct (H3 [8] demo_buyer "100007" 2 demo_order
               (snd (fst (buy_listing [8] demo_world demo_buyer "100007" 2)))
               [] (after_purchase 2 demo_listing))
    as (_ & _ & Hq).
  - vm_compute. reflexivity.
  - vm_compute. reflexivity.
  - reflexivity.
  - vm_compute. reflexivity.
Defined.

Section FloatRounding.
Import PyFloat.

(* ------------------------------------------------------------------ *)
(** ** Rounding a quotient to the nearest integer *)

Lemma div_half_even_bounds a b :
  0 < b ->
  - b <= 2 * (a - div_half_even a b * b) <= b.
Proof.
  intros Hb. unfold div_half_even.
  pose proof (Z.div_mod a b ltac:(lia)) as Hdm.
  pose proof (Z.mod_pos_bound a b Hb) as Hr.
  destruct (Z.compare_spec (2 * (a mod b)) b) as [E|E|E];
    [destruct (Z.even (a / b))|..]; nia.
Qed.

Lemma div_half_even_unique a b m :
  0 < b -> - b < 2 * (a - m * b) < b -> div_half_even a b = m.
Proof.
  intros Hb Hm. pose proof (div_half_even_bounds a b Hb) as H0.
  nia.
Qed.

Lemma div_half_even_exact m b : 0 < b -> div_half_even (m * b) b = m.
Proof. intros Hb. apply div_half_even_unique; lia. Qed.

Lemma div_half_even_scale c a b :
  0 < c -> 0 < b -> div_half_even (c * a) (c * b) = div_half_even a b.
Proof.
  intros Hc Hb. unfold div_half_even.
  rewrite Z.div_mul_cancel_l by lia.
  rewrite Z.mul_mod_distr_l by lia.
  destruct (Z.compare_spec (2 * (c * (a mod b))) (c * b)),
           (Z.compare_spec (2 * (a mod b)) b); try reflexivity; nia.
Qed.

Lemma div_half_even_nonneg a b : 0 <= a -> 0 < b -> 0 <= div_half_even a b.
Proof.
  intros Ha Hb. pose proof (div_half_even_bounds a b Hb). nia.
Qed.

(* ------------------------------------------------------------------ *)
(** ** Binary exponents, shifted to stay non-negative *)

Lemma pw_pos e : -1074 <= e -> 0 < pw e.
Proof. intros H. unfold pw. apply Z.pow_pos_nonneg; lia. Qed.

Lemma pw_add e k : -1074 <= e -> 0 <= k -> pw (e + k) = pw e * 2 ^ k.
Proof.
  intros He Hk. unfold pw.
  replace (e + k + 1074) with ((e + 1074) + k) by ring.
  apply Z.pow_add_r; lia.
Qed.

Lemma pw_neg e : -1074 <= e <= 0 -> pw e * 2 ^ (- e) = pw 0.
Proof.
  intros He. rewrite <- (pw_add e (- e)) by lia. f_equal. lia.
Qed.

Lemma pw_mono e e' : -1074 <= e <= e' -> pw e <= pw e'.
Proof. intros H. unfold pw. apply Z.pow_le_mono_r; lia. Qed.

Lemma scaled_mantissa_pw a b e :
  0 < b -> -1074 <= e ->
  scaled_mantissa a b e = div_half_even (a * pw 0) (b * pw e).
Proof.
  intros Hb He. unfold scaled_mantissa.
  destruct (Z.leb_spec 0 e) as [H|H].
  - replace e with (0 + e) at 2 by ring. rewrite pw_add by lia.
    replace (a * pw 0) with (pw 0 * a) by ring.
    replace (b * (pw 0 * 2 ^ e)) with (pw 0 * (b * 2 ^ e)) by ring.
    rewrite div_half_even_scale;
      [reflexivity | apply pw_pos; lia
       | apply Z.mul_pos_pos; auto; apply Z.pow_pos_nonneg; lia].
  - rewrite <- (pw_neg e) by lia.
    replace (a * (pw e * 2 ^ (- e))) with (pw e * (a * 2 ^ (- e))) by ring.
    replace (b * pw e) with (pw e * b) by ring.
    rewrite div_half_even_scale; [reflexivity | apply pw_pos; lia | auto].
Qed.

Lemma hundredths_pw m e :
  -1074 <= e ->
  hundredths m e = div_half_even (Zpos m * 100 * pw e) (pw 0).
Proof.
  intros He. unfold hundredths.
  destruct (Z.leb_spec 0 e) as [H|H].
  - replace e with (0 + e) at 2 by ring. rewrite pw_add by lia.
    replace (Z.pos m * 100 * (pw 0 * 2 ^ e))
      with (Z.pos m * 2 ^ e * 100 * pw 0) by ring.
    rewrite div_half_even_exact; [reflexivity | apply pw_pos; lia].
  - rewrite <- (pw_neg e) by lia.
    replace (Z.pos m * 100 * pw e) with (pw e * (Z.pos m * 100)) by ring.
    rewrite div_half_even_scale;
      [reflexivity | apply pw_pos; lia | apply Z.pow_pos_nonneg; lia].
Qed.

Lemma below_scaled_pw a b l :
  -1074 <= l ->
  below_scaled a b l = (a * pw 0 <? b * pw l).
Proof.
  intros Hl. unfold below_scaled.
  destruct (Z.leb_spec 0 l) as [H|H].
  - replace l with (0 + l) at 2 by ring. rewrite pw_add by lia.
    pose proof (pw_pos 0 ltac:(lia)).
    destruct (Z.ltb_spec a (b * 2 ^ l)), (Z.ltb_spec (a * pw 0) (b * (pw 0 * 2 ^ l)));
      auto; nia.
  - rewrite <- (pw_neg l) by lia.
    pose proof (pw_pos l ltac:(lia)).
    destruct (Z.ltb_spec (a * 2 ^ (- l)) b),
             (Z.ltb_spec (a * (pw l * 2 ^ (- l))) (b * pw l)); auto; nia.
Qed.

(** The logarithm of a ratio whose exponent is in range. *)
Lemma log2_ratio_spec a b :
  0 < a -> 0 < b -> -1074 <= Z.log2 a - Z.log2 b - 1 ->
  let l := log2_ratio a b in
  Z.log2 a - Z.log2 b - 1 <= l /\
  b * pw l <= a * pw 0 < b * pw (l + 1).
Proof.
  intros Ha Hb Hl. unfold log2_ratio.
  set (l0 := Z.log2 a - Z.log2 b) in *.
  pose proof (Z.log2_spec a Ha) as Hla.
  pose proof (Z.log2_spec b Hb) as Hlb.
  pose proof (Z.log2_nonneg a). pose proof (Z.log2_nonneg b).
  (* a * 2^1074 < 2^lb * 2^(l0 + 1 + 1074),  2^(lb+1) * 2^(l0 - 1 + 1074) <= a * 2^1074 *)
  assert (E1 : 2 ^ Z.log2 b * pw (l0 + 1) = 2 ^ Z.succ (Z.log2 a) * pw 0).
  { unfold pw. rewrite <- !Z.pow_add_r by lia. f_equal. unfold l0. lia. }
  assert (E2 : 2 ^ Z.succ (Z.log2 b) * pw (l0 - 1) = 2 ^ Z.log2 a * pw 0).
  { unfold pw. rewrite <- !Z.pow_add_r by lia. f_equal. unfold l0. lia. }
  pose proof (pw_pos 0 ltac:(lia)) as P0.
  pose proof (pw_pos (l0 - 1) ltac:(lia)) as P1.
  pose proof (pw_pos (l0 + 1) ltac:(lia)) as P2.
  rewrite below_scaled_pw by lia.
  destruct (Z.ltb_spec (a * pw 0) (b * pw l0)) as [Hlt|Hge].
  - replace (l0 - 1 + 1) with l0 by ring. split; [lia|]. split; [nia|lia].
  - split; [lia|]. split; [lia|nia].
Qed.

Lemma log2_ratio_unique a b k :
  0 < a -> 0 < b -> -1074 <= Z.log2 a - Z.log2 b - 1 -> -1074 <= k ->
  b * pw k <= a * pw 0 < b * pw (k + 1) ->
  log2_ratio a b = k.
Proof.
  intros Ha Hb Hl Hk Hbounds.
  destruct (log2_ratio_spec a b Ha Hb Hl) as [Hlow Hspec].
  set (l := log2_ratio a b) in *.
  destruct (Z.lt_trichotomy l k) as [H|[H|H]]; auto; exfalso.
  - pose proof (pw_mono (l + 1) k ltac:(lia)). nia.
  - pose proof (pw_mono (k + 1) l ltac:(lia)). nia.
Qed.

(* ------------------------------------------------------------------ *)
(** ** The nearest binary64 value of a ratio *)

(** In the normal range [of_ratio] gives an infinity or a value with a
    53-bit mantissa that is within half a unit in the last place of the
    ratio. *)
Lemma of_ratio_normal s a b :
  0 < a -> 0 < b -> -1074 <= Z.log2 a - Z.log2 b - 53 ->
  of_ratio s a b = S754_infinity s \/
  exists p e,
    of_ratio s a b = S754_finite s p e /\
    2 ^ 52 <= Zpos p < 2 ^ 53 /\
    -1074 <= e <= 971 /\
    Z.log2 a - Z.log2 b - 53 <= e /\
    - (b * pw e) <= 2 * (a * pw 0 - Zpos p * (b * pw e)) <= b * pw e.
Proof.
  intros Ha Hb Hl.
  destruct (log2_ratio_spec a b Ha Hb ltac:(lia)) as [Hlow Hspec].
  unfold of_ratio. destruct (Z.leb_spec a 0) as [H0|_]; [lia|].
  set (l := log2_ratio a b) in *.
  rewrite Z.max_l by lia.
  rewrite scaled_mantissa_pw by lia.
  set (e := l - 52) in *.
  assert (P : 0 < pw e) by (apply pw_pos; lia).
  assert (E1 : pw l = pw e * 2 ^ 52)
    by (rewrite <- pw_add by lia; f_equal; unfold e; lia).
  assert (E2 : pw (l + 1) = pw e * 2 ^ 53)
    by (rewrite <- pw_add by lia; f_equal; unfold e; lia).
  assert (E3 : pw (e + 1) = pw e * 2)
    by (rewrite pw_add by lia; reflexivity).
  rewrite E1, E2 in Hspec.
  pose proof (div_half_even_bounds (a * pw 0) (b * pw e) ltac:(nia)) as Hm.
  set (m := div_half_even (a * pw 0) (b * pw e)) in *.
  assert (Hrange : 2 ^ 52 <= m <= 2 ^ 53).
  { change (2 ^ 52) with 4503599627370496 in *.
    change (2 ^ 53) with 9007199254740992 in *. nia. }
  destruct (Z.eqb_spec m (2 ^ 53)) as [Em|Em].
  - change (2 ^ 52) with (Zpos 4503599627370496).
    destruct (Z.leb_spec (e + 1) 971); [|now left].
    right. exists 4503599627370496%positive, (e + 1).
    split; [reflexivity|]. split; [lia|]. split; [lia|]. split; [lia|].
    rewrite E3. rewrite Em in Hm.
    change (2 ^ 53) with 9007199254740992 in *. nia.
  - destruct m as [|p|p]; try (change (2 ^ 52) with 4503599627370496 in *; lia).
    destruct (Z.leb_spec e 971); [|now left].
    right. exists p, e. repeat split; try lia.
Qed.

(** A value with a 53-bit mantissa is what [of_ratio] returns for a
    ratio of its binade that rounds to its mantissa. *)
Lemma of_ratio_recognise s a b p e :
  0 < a -> 0 < b -> -1074 <= Z.log2 a - Z.log2 b - 1 ->
  -1074 <= e <= 971 ->
  2 ^ 52 <= Zpos p < 2 ^ 53 ->
  2 ^ 52 * (b * pw e) <= a * pw 0 < 2 ^ 53 * (b * pw e) ->
  div_half_even (a * pw 0) (b * pw e) = Zpos p ->
  of_ratio s a b = S754_finite s p e.
Proof.
  intros Ha Hb Hl He Hp Hbin Hm.
  assert (El : log2_ratio a b = e + 52).
  { apply log2_ratio_unique; auto; try lia.
    replace (e + 52 + 1) with (e + 53) by ring.
    rewrite !pw_add by lia. nia. }
  unfold of_ratio. destruct (Z.leb_spec a 0) as [H0|_]; [lia|].
  rewrite El. replace (e + 52 - 52) with e by ring.
  rewrite Z.max_l by lia.
  rewrite scaled_mantissa_pw by lia. rewrite Hm.
  destruct (Z.eqb_spec (Zpos p) (2 ^ 53)) as [E|_]; [lia|].
  destruct (Z.leb_spec e 971); [reflexivity | lia].
Qed.

(* ------------------------------------------------------------------ *)
(** ** Rounding to two decimals is idempotent *)

Lemma hundredths_nonneg m e : 0 <= hundredths m e.
Proof.
  unfold hundredths. destruct (Z.leb_spec 0 e).
  - pose proof (Z.pow_nonneg 2 e ltac:(lia)). nia.
  - apply div_half_even_nonneg; [lia|]. apply Z.pow_pos_nonneg; lia.
Qed.

(** The binary64 value nearest to [n] hundredths is its own rounding to
    two decimals. *)
Lemma round2_of_ratio_100 s n :
  0 < n -> round2 (of_ratio s n 100) = of_ratio s n 100.
Proof.
  intros Hn.
  pose proof (Z.log2_nonneg n) as Hlog.
  assert (L100 : Z.log2 100 = 6) by reflexivity.
  destruct (of_ratio_normal s n 100 Hn ltac:(lia) ltac:(lia))
    as [Hinf | (p & e & Heq & Hp & He & _ & Herr)].
  - now rewrite Hinf.
  - rewrite Heq. cbn [round2]. rewrite hundredths_pw by lia.
    pose proof (pw_pos 0 ltac:(lia)) as PT.
    pose proof (pw_pos e ltac:(lia)) as PU.
    destruct (Z.le_gt_cases e (-7)) as [Hsmall|Hbig].
    + (* below 2^46: the two-decimal form is that of [n] *)
      assert (HTU : 128 * pw e <= pw 0).
      { rewrite <- (pw_neg e) by lia.
        pose proof (Z.pow_le_mono_r 2 7 (- e) ltac:(lia) ltac:(lia)).
        change (2 ^ 7) with 128 in *. nia. }
      rewrite (div_half_even_unique _ _ n); [exact Heq | lia | nia].
    + (* from 2^46 on: the value is the nearest to its two-decimal form *)
      assert (HTU : pw 0 <= 64 * pw e).
      { destruct (Z.le_gt_cases e 0).
        - rewrite <- (pw_neg e) by lia.
          pose proof (Z.pow_le_mono_r 2 (- e) 6 ltac:(lia) ltac:(lia)).
          change (2 ^ 6) with 64 in *. nia.
        - pose proof (pw_mono 0 e ltac:(lia)). lia. }
      pose proof (div_half_even_bounds (Zpos p * 100 * pw e) (pw 0) PT) as Hn'.
      set (n' := div_half_even (Zpos p * 100 * pw e) (pw 0)) in *.
      assert (Hexact : Zpos p = 2 ^ 52 -> n' * pw 0 = 2 ^ 52 * (100 * pw e)).
      { intros Ep. unfold n'. rewrite Ep.
        assert (A1 : pw (e + 52) = pw e * 2 ^ 52) by (apply pw_add; lia).
        assert (A2 : pw (0 + (e + 52)) = pw 0 * 2 ^ (e + 52))
          by (apply pw_add; lia).
        replace (0 + (e + 52)) with (e + 52) in A2 by ring.
        replace (2 ^ 52 * 100 * pw e) with (100 * 2 ^ (e + 52) * pw 0) by nia.
        rewrite div_half_even_exact by lia. nia. }
      change (2 ^ 52) with 4503599627370496 in *.
      change (2 ^ 53) with 9007199254740992 in *.
      assert (Hpos : 0 < n') by nia.
      pose proof (Z.log2_nonneg n').
      apply of_ratio_recognise; auto; try lia.
      * change (2 ^ 52) with 4503599627370496.
        change (2 ^ 53) with 9007199254740992.
        destruct (Z.eq_dec (Zpos p) 4503599627370496) as [Ep|Ep].
        -- rewrite (Hexact Ep). nia.
        -- nia.
      * apply div_half_even_unique; nia.
Qed.

(** [round(round(x, 2), 2) = round(x, 2)] for every binary64 value. *)
Lemma round2_idempotent x : round2 (round2 x) = round2 x.
Proof.
  destruct x as [s|s| |s m e]; try reflexivity.
  cbn [round2].
  pose proof (hundredths_nonneg m e) as H.
  destruct (Z.eq_dec (hundredths m e) 0) as [E|E].
  - rewrite E. reflexivity.
  - apply round2_of_ratio_100. lia.
Qed.

End FloatRounding.

(* ------------------------------------------------------------------ *)
(** ** Texts without whitespace, digits *)

Lemma all_chars_app p s t :
  all_chars p (s ++ t) = all_chars p s && all_chars p t.
Proof.
  induction s as [|c s IH]; cbn; [reflexivity|].
  now rewrite IH, Bool.andb_assoc.
Qed.

Lemma all_chars_impl (p q : ascii -> bool) s :
  (forall c, p c = true -> q c = true) ->
  all_chars p s = true -> all_chars q s = true.
Proof.
  intros Hpq. induction s as [|c s IH]; cbn; [reflexivity|].
  intros H. apply andb_prop in H. destruct H as [H1 H2].
  now rewrite (Hpq _ H1), IH.
Qed.

Lemma rev_onto_twice s a b :
  PyStr.rev_onto (PyStr.rev_onto s a) b = PyStr.rev_onto a (s ++ b).
Proof.
  revert a b. induction s as [|c s IH]; intros a b; cbn.
  - reflexivity.
  - rewrite IH. reflexivity.
Qed.

Lemma append_empty_r s : s ++ "" = s.
Proof. induction s as [|c s IH]; cbn; congruence. Qed.

Lemma reverse_involutive s : PyStr.reverse (PyStr.reverse s) = s.
Proof.
  unfold PyStr.reverse. rewrite rev_onto_twice. cbn. apply append_empty_r.
Qed.

Lemma all_chars_rev_onto p s a :
  all_chars p (PyStr.rev_onto s a) = all_chars p s && all_chars p a.
Proof.
  revert a. induction s as [|c s IH]; intros a; cbn; [reflexivity|].
  rewrite IH. cbn. destruct (p c), (all_chars p s); reflexivity.
Qed.

Lemma lstrip_no_space s : all_chars not_space s = true -> PyStr.lstrip s = s.
Proof.
  destruct s as [|c s]; cbn; [reflexivity|].
  unfold not_space. now destruct (PyStr.is_space c).
Qed.

Lemma strip_no_space s : all_chars not_space s = true -> PyStr.strip s = s.
Proof.
  intros H. unfold PyStr.strip, PyStr.rstrip.
  rewrite (lstrip_no_space s H).
  rewrite lstrip_no_space; [apply reverse_involutive|].
  unfold PyStr.reverse. rewrite all_chars_rev_onto, H. reflexivity.
Qed.

Lemma digit_not_space c : PyInt.is_digit c = true -> not_space c = true.
Proof. destruct c as [[] [] [] [] [] [] [] []]; cbn; congruence. Qed.


Lemma digit_plain c : PyInt.is_digit c = true -> is_plain c = true.
Proof. unfold is_plain. now intros ->. Qed.

Lemma digits_of_uint u :
  all_chars PyInt.is_digit (NilEmpty.string_of_uint u) = true.
Proof. induction u; cbn; auto. Qed.

(** The text of a non-negative integer: the digits of a numeral. *)
Lemma to_str_nonneg q :
  0 <= q ->
  exists u, u <> Nil /\ PyInt.to_str q = NilEmpty.string_of_uint u /\
            Z.of_N (N.of_uint u) = q.
Proof.
  intros Hq. exists (N.to_uint (Z.to_N q)).
  assert (Hnil : N.to_uint (Z.to_N q) <> Nil).
  { destruct (Z.to_N q); cbn; [discriminate|].
    apply DecimalPos.Unsigned.to_uint_nonnil. }
  split; [exact Hnil|]. split.
  - unfold PyInt.to_str. destruct q as [|p|p]; [reflexivity| |lia].
    cbn. pose proof (DecimalPos.Unsigned.to_uint_nonnil p).
    now destruct (Pos.to_uint p).
  - rewrite DecimalN.Unsigned.of_to. lia.
Qed.

Lemma string_of_uint_nonempty u :
  u <> Nil -> NilEmpty.string_of_uint u <> "".
Proof. destruct u; cbn; congruence. Qed.

Lemma digits_value_of_uint u :
  u <> Nil ->
  PyInt.digits_value (NilEmpty.string_of_uint u) = Some (Z.of_N (N.of_uint u)).
Proof.
  intros Hu. unfold PyInt.digits_value, NilZero.uint_of_string.
  pose proof (string_of_uint_nonempty u Hu) as Hne.
  destruct (NilEmpty.string_of_uint u) eqn:E; [congruence|].
  rewrite <- E, NilEmpty.usu. reflexivity.
Qed.

Lemma ungroup_from_plain prev s :
  all_chars is_plain s = true -> PyInt.ungroup_from prev s = Some s.
Proof.
  revert prev. induction s as [|c s IH]; intros prev; cbn; [reflexivity|].
  intros H. apply andb_prop in H. destruct H as [Hc Hs].
  destruct (Ascii.eqb_spec c "_") as [->|_]; [discriminate|].
  now rewrite IH.
Qed.

Lemma take_sign_digit c s :
  PyInt.is_digit c = true ->
  PyInt.take_sign (String c s) = (false, String c s).
Proof. destruct c as [[] [] [] [] [] [] [] []]; cbn; congruence. Qed.

(** [int(str(n)) = n] *)
Lemma int_of_str_to_str n : PyInt.of_str (PyInt.to_str n) = Ret n.
Proof.
  destruct (Z.le_gt_cases 0 n) as [Hn|Hn].
  - destruct (to_str_nonneg n Hn) as (u & Hu & Hs & Hv).
    unfold PyInt.of_str. rewrite Hs.
    pose proof (digits_of_uint u) as Hd.
    rewrite strip_no_space
      by (eapply all_chars_impl; [apply digit_not_space | exact Hd]).
    pose proof (string_of_uint_nonempty u Hu) as Hne.
    destruct (NilEmpty.string_of_uint u) as [|c r] eqn:E; [congruence|].
    rewrite take_sign_digit by (cbn in Hd; now apply andb_prop in Hd).
    unfold PyInt.ungroup. rewrite ungroup_from_plain
      by (eapply all_chars_impl; [apply digit_plain | exact Hd]).
    rewrite <- E, digits_value_of_uint, Hv by auto. reflexivity.
  - destruct n as [|p|p]; try lia.
    unfold PyInt.of_str, PyInt.to_str. cbn [Z.to_int NilZero.string_of_int].
    pose proof (DecimalPos.Unsigned.to_uint_nonnil p) as Hu.
    assert (Es : NilZero.string_of_uint (Pos.to_uint p)
                 = NilEmpty.string_of_uint (Pos.to_uint p))
      by (now destruct (Pos.to_uint p)).
    rewrite Es.
    pose proof (digits_of_uint (Pos.to_uint p)) as Hd.
    rewrite strip_no_space.
    + cbn [PyInt.take_sign Ascii.eqb Bool.eqb]. cbn iota.
      unfold PyInt.ungroup. rewrite ungroup_from_plain
        by (eapply all_chars_impl; [apply digit_plain | exact Hd]).
      rewrite digits_value_of_uint by auto.
      rewrite DecimalPos.Unsigned.of_to. reflexivity.
    + cbn. eapply all_chars_impl; [apply digit_not_space | exact Hd].
Qed.

(* ------------------------------------------------------------------ *)
(** ** Reading back a number in fixed notation *)





Lemma digit_char_is_digit d :
  0 <= d <= 9 -> PyInt.is_digit (PyFloat.digit_char d) = true.
Proof.
  intros H.
  assert (C : d = 0 \/ d = 1 \/ d = 2 \/ d = 3 \/ d = 4 \/ d = 5 \/ d = 6
              \/ d = 7 \/ d = 8 \/ d = 9) by lia.
  repeat (destruct C as [->|C]; [reflexivity|]). now subst.
Qed.




(* ------------------------------------------------------------------ *)
(** ** Rows read back *)

Lemma is_empty_false s : s <> "" -> PyStr.is_empty s = false.
Proof. destruct s; [congruence | reflexivity]. Qed.













(* ------------------------------------------------------------------ *)
(** ** Saving, then loading *)



(* ------------------------------------------------------------------ *)
(** ** Splitting and joining words *)

Lemma append_assoc_str (a b c : string) : (a ++ b) ++ c = a ++ (b ++ c).
Proof. induction a as [|x a IH]; cbn; congruence. Qed.

Lemma split_from_spaces sp cur :
  all_chars PyStr.is_space sp = true ->
  PyStr.split_from sp cur = PyStr.split_from "" cur.
Proof.
  revert cur. induction sp as [|c sp IH]; intros cur H; [reflexivity|].
  cbn in H. apply andb_prop in H. destruct H as [Hc Hs].
  cbn [PyStr.split_from]. rewrite Hc.
  destruct cur; rewrite (IH None Hs); reflexivity.
Qed.

Lemma split_from_word x t cur :
  is_word x ->
  PyStr.split_from (x ++ t) cur = PyStr.split_from t (Some (pending cur ++ x)).
Proof.
  intros [Hne Hx]. revert cur.
  induction x as [|c x IH]; intros cur; [congruence|].
  cbn in Hx. apply andb_prop in Hx. destruct Hx as [Hc Hx].
  assert (Hsp : PyStr.is_space c = false)
    by (unfold not_space in Hc; now destruct (PyStr.is_space c)).
  cbn [append PyStr.split_from]. rewrite Hsp.
  assert (E : match cur with
              | Some w => w ++ String c ""
              | None => String c ""
              end = pending cur ++ String c "") by (now destruct cur).
  rewrite E.
  destruct x as [|c' x'].
  - reflexivity.
  - rewrite IH by (auto; discriminate).
    cbn [pending]. now rewrite append_assoc_str.
Qed.

Lemma split_join ws :
  Forall is_word ws -> PyStr.split (PyStr.join " " ws) = ws.
Proof.
  unfold PyStr.split.
  induction ws as [|w ws IH]; intros H; [reflexivity|].
  inversion H as [|? ? Hw Hws]; subst.
  destruct ws as [|w2 ws].
  - cbn [PyStr.join]. rewrite <- (append_empty_r w) at 1.
    now rewrite split_from_word.
  - specialize (IH Hws).
    assert (E : PyStr.join " " (w :: w2 :: ws)
                = w ++ String " " (PyStr.join " " (w2 :: ws))) by reflexivity.
    rewrite E. set (J := PyStr.join " " (w2 :: ws)) in *.
    rewrite split_from_word by exact Hw.
    change (PyStr.split_from (String " " J) (Some (pending None ++ w)))
      with (w :: PyStr.split_from J None).
    now rewrite IH.
Qed.

Lemma word_snoc w c :
  (w = "" \/ is_word w) -> PyStr.is_space c = false -> is_word (w ++ String c "").
Proof.
  intros Hw Hc. split.
  - destruct w; discriminate.
  - rewrite all_chars_app. cbn. unfold not_space at 2. rewrite Hc. cbn.
    destruct Hw as [->|[_ H]]; [reflexivity|]. now rewrite H.
Qed.

Lemma split_from_words s : forall cur,
  (cur = None \/ is_word (pending cur)) ->
  Forall is_word (PyStr.split_from s cur).
Proof.
  induction s as [|c s IH]; intros cur Hcur; cbn [PyStr.split_from].
  - destruct cur as [w|]; [|constructor].
    destruct Hcur as [H|H]; [discriminate|].
    constructor; [exact H | constructor].
  - destruct (PyStr.is_space c) eqn:Hc.
    + destruct cur as [w|].
      * destruct Hcur as [H|H]; [discriminate|].
        constructor; [exact H|]. apply IH. now left.
      * apply IH. now left.
    + apply IH. right. cbn [pending]. destruct cur as [w|].
      * destruct Hcur as [H|H]; [discriminate|]. apply word_snoc; auto.
      * apply (word_snoc "" c); auto.
Qed.

Lemma split_words s : Forall is_word (PyStr.split s).
Proof. apply split_from_words. now left. Qed.

(* ------------------------------------------------------------------ *)
(** ** Stripping does not change the words *)

Lemma rev_onto_acc s acc : PyStr.rev_onto s acc = PyStr.rev_onto s "" ++ acc.
Proof.
  revert acc. induction s as [|c s IH]; intros acc; cbn; [reflexivity|].
  rewrite IH, (IH (String c "")). now rewrite append_assoc_str.
Qed.

Lemma reverse_cons c s : PyStr.reverse (String c s) = PyStr.reverse s ++ String c "".
Proof. unfold PyStr.reverse. cbn. apply rev_onto_acc. Qed.

Lemma reverse_snoc s c : PyStr.reverse (s ++ String c "") = String c (PyStr.reverse s).
Proof.
  rewrite <- (reverse_involutive s) at 1.
  rewrite <- reverse_cons. apply reverse_involutive.
Qed.

(** Induction on a text from its end. *)
Lemma string_snoc_ind (P : string -> Prop) :
  P "" -> (forall s c, P s -> P (s ++ String c "")) -> forall s, P s.
Proof.
  intros H0 Hs s. rewrite <- (reverse_involutive s).
  induction (PyStr.reverse s) as [|c r IH]; [exact H0|].
  rewrite reverse_cons. now apply Hs.
Qed.

Lemma rstrip_snoc s c :
  PyStr.rstrip (s ++ String c "")
  = if PyStr.is_space c then PyStr.rstrip s else s ++ String c "".
Proof.
  unfold PyStr.rstrip. rewrite reverse_snoc. cbn [PyStr.lstrip].
  destruct (PyStr.is_space c); [reflexivity|].
  now rewrite reverse_cons, reverse_involutive.
Qed.

Lemma split_from_snoc_space s c : forall cur,
  PyStr.is_space c = true ->
  PyStr.split_from (s ++ String c "") cur = PyStr.split_from s cur.
Proof.
  induction s as [|x s IH]; intros cur Hc.
  - cbn. rewrite Hc. now destruct cur.
  - cbn [append PyStr.split_from].
    destruct (PyStr.is_space x); [destruct cur|]; now rewrite IH.
Qed.

Lemma split_rstrip s : PyStr.split (PyStr.rstrip s) = PyStr.split s.
Proof.
  induction s as [|s c IH] using string_snoc_ind; [reflexivity|].
  rewrite rstrip_snoc. destruct (PyStr.is_space c) eqn:Hc; [|reflexivity].
  rewrite IH. unfold PyStr.split. now rewrite split_from_snoc_space.
Qed.

Lemma split_lstrip s : PyStr.split (PyStr.lstrip s) = PyStr.split s.
Proof.
  unfold PyStr.split. induction s as [|c s IH]; [reflexivity|].
  cbn [PyStr.lstrip PyStr.split_from].
  destruct (PyStr.is_space c) eqn:Hc; [exact IH|].
  cbn [PyStr.split_from]. now rewrite Hc.
Qed.

Lemma split_strip s : PyStr.split (PyStr.strip s) = PyStr.split s.
Proof. unfold PyStr.strip. now rewrite split_rstrip, split_lstrip. Qed.

(* ------------------------------------------------------------------ *)
(** ** Changing case *)

Lemma upper_char_space c : PyStr.is_space (PyStr.upper_char c) = PyStr.is_space c.
Proof. destruct c as [[] [] [] [] [] [] [] []]; reflexivity. Qed.

Lemma lower_char_space c : PyStr.is_space (PyStr.lower_char c) = PyStr.is_space c.
Proof. destruct c as [[] [] [] [] [] [] [] []]; reflexivity. Qed.

Lemma upper_char_idem c : PyStr.upper_char (PyStr.upper_char c) = PyStr.upper_char c.
Proof. destruct c as [[] [] [] [] [] [] [] []]; reflexivity. Qed.

Lemma lower_char_idem c : PyStr.lower_char (PyStr.lower_char c) = PyStr.lower_char c.
Proof. destruct c as [[] [] [] [] [] [] [] []]; reflexivity. Qed.

Lemma upper_lower_char c : PyStr.upper_char (PyStr.lower_char c) = PyStr.upper_char c.
Proof. destruct c as [[] [] [] [] [] [] [] []]; reflexivity. Qed.

Lemma lower_upper_char c : PyStr.lower_char (PyStr.upper_char c) = PyStr.lower_char c.
Proof. destruct c as [[] [] [] [] [] [] [] []]; reflexivity. Qed.

Lemma map_chars_compose f g h s :
  (forall c, f (g c) = h c) ->
  PyStr.map_chars f (PyStr.map_chars g s) = PyStr.map_chars h s.
Proof. intros H. induction s as [|c s IH]; cbn; congruence. Qed.

Lemma map_chars_no_space f s :
  (forall c, PyStr.is_space (f c) = PyStr.is_space c) ->
  all_chars not_space (PyStr.map_chars f s) = all_chars not_space s.
Proof.
  intros H. induction s as [|c s IH]; cbn; [reflexivity|].
  unfold not_space at 1 3. now rewrite H, IH.
Qed.

Lemma capitalize_word w : is_word w -> is_word (PyStr.capitalize w).
Proof.
  intros [Hne Hw]. destruct w as [|c r]; [congruence|].
  split; [discriminate|]. cbn in *.
  apply andb_prop in Hw. destruct Hw as [Hc Hr].
  unfold not_space at 1. rewrite upper_char_space.
  unfold not_space in Hc. rewrite Hc. cbn.
  unfold PyStr.lower. now rewrite (map_chars_no_space _ _ lower_char_space).
Qed.

Lemma capitalize_idem w : PyStr.capitalize (PyStr.capitalize w) = PyStr.capitalize w.
Proof.
  destruct w as [|c r]; [reflexivity|]. cbn. rewrite upper_char_idem.
  unfold PyStr.lower. now rewrite (map_chars_compose _ _ _ _ lower_char_idem).
Qed.

Lemma map_chars_app f s t :
  PyStr.map_chars f (s ++ t) = PyStr.map_chars f s ++ PyStr.map_chars f t.
Proof. induction s as [|c s IH]; cbn; congruence. Qed.

Lemma split_from_map_chars f s :
  (forall c, PyStr.is_space (f c) = PyStr.is_space c) ->
  forall cur,
    PyStr.split_from (PyStr.map_chars f s) (option_map (PyStr.map_chars f) cur)
    = map (PyStr.map_chars f) (PyStr.split_from s cur).
Proof.
  intros H. induction s as [|c s IH]; intros cur.
  - now destruct cur.
  - cbn [PyStr.map_chars PyStr.split_from]. rewrite H.
    destruct (PyStr.is_space c).
    + destruct cur as [w|]; cbn [option_map map].
      * now rewrite <- (IH None).
      * apply (IH None).
    + rewrite <- IH. f_equal. destruct cur as [w|]; cbn [option_map]; [|reflexivity].
      now rewrite map_chars_app.
Qed.

Lemma split_map_chars f s :
  (forall c, PyStr.is_space (f c) = PyStr.is_space c) ->
  PyStr.split (PyStr.map_chars f s) = map (PyStr.map_chars f) (PyStr.split s).
Proof. intros H. apply (split_from_map_chars f s H None). Qed.

Lemma capitalize_lower w : PyStr.capitalize (PyStr.lower w) = PyStr.capitalize w.
Proof.
  destruct w as [|c r]; [reflexivity|]. cbn. rewrite upper_lower_char.
  unfold PyStr.lower. now rewrite (map_chars_compose _ _ _ _ lower_char_idem).
Qed.

Lemma capitalize_upper w : PyStr.capitalize (PyStr.upper w) = PyStr.capitalize w.
Proof.
  destruct w as [|c r]; [reflexivity|]. cbn. rewrite upper_char_idem.
  unfold PyStr.lower, PyStr.upper.
  now rewrite (map_chars_compose _ _ _ _ lower_upper_char).
Qed.

(* ------------------------------------------------------------------ *)
(** ** Title case *)

(** The words of a title-cased text are the capitalised words of the
    text. *)
Lemma split_title_case s :
  PyStr.split (title_case s) = map PyStr.capitalize (PyStr.split s).
Proof.
  unfold title_case. rewrite split_strip. apply split_join.
  apply Forall_map. eapply Forall_impl; [|apply split_words].
  intros w. apply capitalize_word.
Qed.

Lemma title_case_normal s : title_case (title_case s) = title_case s.
Proof.
  unfold title_case at 1. rewrite split_strip, split_title_case.
  rewrite map_map. unfold title_case. rewrite split_strip.
  f_equal. apply map_ext. apply capitalize_idem.
Qed.

Lemma title_case_words s t :
  map PyStr.lower (PyStr.split s) = map PyStr.lower (PyStr.split t) ->
  title_case s = title_case t.
Proof.
  intros H. unfold title_case. rewrite !split_strip. f_equal.
  rewrite <- (map_ext _ _ capitalize_lower (PyStr.split s)).
  rewrite <- (map_ext _ _ capitalize_lower (PyStr.split t)).
  rewrite <- (map_map PyStr.lower PyStr.capitalize (PyStr.split s)).
  rewrite <- (map_map PyStr.lower PyStr.capitalize (PyStr.split t)).
  now rewrite H.
Qed.


Lemma title_case_lower s : title_case (PyStr.lower s) = title_case s.
Proof.
  apply title_case_words. unfold PyStr.lower at 2.
  rewrite (split_map_chars _ _ lower_char_space), map_map.
  apply map_ext. intros w. unfold PyStr.lower.
  apply (map_chars_compose _ _ _ _ lower_char_idem).
Qed.

Lemma title_case_upper s : title_case (PyStr.upper s) = title_case s.
Proof.
  apply title_case_words. unfold PyStr.upper.
  rewrite (split_map_chars _ _ upper_char_space), map_map.
  apply map_ext. intros w. unfold PyStr.lower.
  apply (map_chars_compose _ _ _ _ lower_upper_char).
Qed.




(* ------------------------------------------------------------------ *)
(** ** The text of a six-digit number *)

Ltac digit_cases k H :=
  let C := fresh "C" in
  assert (C : k = 0 \/ k = 1 \/ k = 2 \/ k = 3 \/ k = 4 \/ k = 5 \/ k = 6
              \/ k = 7 \/ k = 8 \/ k = 9) by lia;
  clear H;
  repeat (destruct C as [C|C]; [rewrite C|]); [..|rewrite C].

Lemma string_of_with_digit k l :
  0 <= k <= 9 ->
  NilEmpty.string_of_uint (with_digit k l)
  = String (PyFloat.digit_char k) (NilEmpty.string_of_uint l).
Proof. intros H. digit_cases k H; reflexivity. Qed.

Lemma of_lu_with_digit k l :
  0 <= k <= 9 ->
  Z.of_N (DecimalPos.Unsigned.of_lu (with_digit k l)) = k + 10 * Z.of_N (DecimalPos.Unsigned.of_lu l).
Proof.
  intros H. digit_cases k H; cbn [with_digit DecimalPos.Unsigned.of_lu]; lia.
Qed.

Lemma revapp_with_digit k l acc :
  revapp (with_digit k l) acc = revapp l (with_digit k acc).
Proof.
  destruct k as [|p|p]; try reflexivity.
  do 4 (destruct p as [p|p|]; try reflexivity).
Qed.

Lemma unorm_with_digit k l :
  1 <= k <= 9 -> unorm (with_digit k l) = with_digit k l.
Proof.
  intros H.
  assert (C : k = 1 \/ k = 2 \/ k = 3 \/ k = 4 \/ k = 5 \/ k = 6
              \/ k = 7 \/ k = 8 \/ k = 9) by lia.
  clear H. repeat (destruct C as [C|C]; [rewrite C; reflexivity|]).
  now rewrite C.
Qed.

(** [str(n)] of a number of six digits is its six digits. *)
Lemma to_str_six_digits n :
  100000 <= n <= 999999 -> PyInt.to_str n = six_digits n.
Proof.
  intros Hn.
  set (d5 := n / 100000 mod 10). set (d4 := n / 10000 mod 10).
  set (d3 := n / 1000 mod 10). set (d2 := n / 100 mod 10).
  set (d1 := n / 10 mod 10). set (d0 := n mod 10).
  assert (R5 : 1 <= d5 <= 9).
  { assert (1 <= n / 100000 < 10)
      by (split; [apply Z.div_le_lower_bound | apply Z.div_lt_upper_bound]; lia).
    unfold d5. rewrite Z.mod_small; lia. }
  assert (R4 : 0 <= d4 <= 9) by (unfold d4; pose proof (Z.mod_pos_bound (n / 10000) 10); lia).
  assert (R3 : 0 <= d3 <= 9) by (unfold d3; pose proof (Z.mod_pos_bound (n / 1000) 10); lia).
  assert (R2 : 0 <= d2 <= 9) by (unfold d2; pose proof (Z.mod_pos_bound (n / 100) 10); lia).
  assert (R1 : 0 <= d1 <= 9) by (unfold d1; pose proof (Z.mod_pos_bound (n / 10) 10); lia).
  assert (R0 : 0 <= d0 <= 9) by (unfold d0; pose proof (Z.mod_pos_bound n 10); lia).
  set (u := with_digit d5 (with_digit d4 (with_digit d3 (with_digit d2
              (with_digit d1 (with_digit d0 Nil)))))).
  assert (Hval : Z.of_N (Pos.of_uint u) = n).
  { rewrite DecimalPos.Unsigned.of_uint_alt. unfold u, rev.
    rewrite !revapp_with_digit. cbn [revapp].
    rewrite !of_lu_with_digit by lia. cbn [DecimalPos.Unsigned.of_lu].
    unfold d5, d4, d3, d2, d1, d0.
    pose proof (Z.div_mod n 10 ltac:(lia)).
    pose proof (Z.div_mod (n / 10) 10 ltac:(lia)).
    pose proof (Z.div_mod (n / 10 / 10) 10 ltac:(lia)).
    pose proof (Z.div_mod (n / 10 / 10 / 10) 10 ltac:(lia)).
    pose proof (Z.div_mod (n / 10 / 10 / 10 / 10) 10 ltac:(lia)).
    pose proof (Z.div_mod (n / 10 / 10 / 10 / 10 / 10) 10 ltac:(lia)).
    assert (E2 : n / 10 / 10 = n / 100) by (rewrite Z.div_div; [reflexivity|lia..]).
    assert (E3 : n / 100 / 10 = n / 1000) by (rewrite Z.div_div; [reflexivity|lia..]).
    assert (E4 : n / 1000 / 10 = n / 10000) by (rewrite Z.div_div; [reflexivity|lia..]).
    assert (E5 : n / 10000 / 10 = n / 100000) by (rewrite Z.div_div; [reflexivity|lia..]).
    assert (E6 : n / 100000 / 10 = 0) by (rewrite Z.div_div; [apply Z.div_small|..]; lia).
    rewrite E2, E3, E4, E5 in *. rewrite E6 in *. lia. }
  destruct n as [|p|p]; try lia.
  unfold PyInt.to_str. cbn [Z.to_int NilZero.string_of_int].
  assert (Hu : Pos.to_uint p = u).
  { change (Pos.to_uint p) with (N.to_uint (Npos p)).
    replace (Npos p) with (Pos.of_uint u) by lia.
    rewrite DecimalPos.Unsigned.to_of. unfold u. now apply unorm_with_digit. }
  rewrite Hu. unfold u.
  replace (NilZero.string_of_uint
             (with_digit d5 (with_digit d4 (with_digit d3 (with_digit d2
                (with_digit d1 (with_digit d0 Nil)))))))
    with (NilEmpty.string_of_uint
             (with_digit d5 (with_digit d4 (with_digit d3 (with_digit d2
                (with_digit d1 (with_digit d0 Nil))))))).
  - rewrite !string_of_with_digit by lia. reflexivity.
  - unfold NilZero.string_of_uint.
    assert (C : d5 = 1 \/ d5 = 2 \/ d5 = 3 \/ d5 = 4 \/ d5 = 5 \/ d5 = 6
                \/ d5 = 7 \/ d5 = 8 \/ d5 = 9) by lia.
    repeat (destruct C as [C|C]; [rewrite C; reflexivity|]).
    now rewrite C.
Qed.

Lemma six_digits_shape n :
  String.length (six_digits n) = 6%nat /\
  all_chars PyInt.is_digit (six_digits n) = true.
Proof.
  split; [reflexivity|]. unfold six_digits. cbn [all_chars].
  rewrite !digit_char_is_digit;
    [reflexivity
    | match goal with
      | |- 0 <= ?a mod 10 <= 9 => pose proof (Z.mod_pos_bound a 10); lia
      end ..].
Qed.

(** X3. An identifier made by [generate_id] is the text of a number from
    100000 to 999999: six decimal digits, read back by [int] as that
    number; it is no key of the table, and it comes from the first draw
    whose number is unused, the draws before it being used ones. *)
Theorem generate_id_six_digits {V : Type} (draws : list Z) (existing : Dict.t V)
        (value : string) (rest : list Z) :
  generate_id draws existing = Some (value, rest) ->
  String.length value = 6%nat /\
  all_chars PyInt.is_digit value = true /\
  Dict.get value existing = None /\
  exists skipped z,
    draws = (skipped ++ z :: rest)%list /\
    value = PyInt.to_str (100000 + z mod 900000) /\
    PyInt.of_str value = Ret (100000 + z mod 900000) /\
    100000 <= 100000 + z mod 900000 <= 999999 /\
    forall u, In u skipped ->
              Dict.mem (PyInt.to_str (100000 + u mod 900000)) existing = true.
Proof.
  intros H.
  assert (Hfresh : Dict.get value existing = None)
    by (eapply generate_id_fresh; eauto).
  assert (Hex : exists skipped z,
             draws = (skipped ++ z :: rest)%list /\
             value = PyInt.to_str (100000 + z mod 900000) /\
             forall u, In u skipped ->
               Dict.mem (PyInt.to_str (100000 + u mod 900000)) existing = true).
  { revert H. induction draws as [|d draws IH]; cbn [generate_id];
      [discriminate|].
    change (999999 - 100000 + 1) with 900000.
    destruct (Dict.mem (PyInt.to_str (100000 + d mod 900000)) existing) eqn:E;
      cbn [negb].
    - intros H. destruct (IH H) as (sk & z & -> & Hv & Hsk).
      exists (d :: sk), z. repeat split; auto.
      intros u [<-|Hu]; auto.
    - intros [= <- <-]. exists [], d. repeat split; auto. }
  destruct Hex as (sk & z & Hd & Hv & Hsk).
  pose proof (Z.mod_pos_bound z 900000 ltac:(lia)) as Hz.
  assert (Hsix : value = six_digits (100000 + z mod 900000))
    by (rewrite Hv; apply to_str_six_digits; lia).
  destruct (six_digits_shape (100000 + z mod 900000)) as [Hlen Hdig].
  rewrite Hsix at 1 2. repeat split; auto.
  exists sk, z. repeat split; auto; try lia.
  rewrite Hv. apply int_of_str_to_str.
Qed.

Lemma generate_id_six_digits_witness :
  String.length "100007" = 6%nat /\
  Dict.get "100007" (listings (market new_world)) = None.
Proof.
  destruct (generate_id_six_digits [7; 8] (listings (market new_world))
              "100007" [8] eq_refl) as (H1 & _ & H3 & _).
  split; assumption.
Defined.

(* ------------------------------------------------------------------ *)
(** ** Rows written and read back, in general *)



(* ------------------------------------------------------------------ *)
(** ** Cells that are missing or empty *)

(** X5. A listings row needs its three identifiers only. Without
    the other columns the listing is read with price 0.0, quantity 0,
    active and not deleted; with those columns present but their cells
    empty it is read with price 0.0, quantity 0, and inactive, the empty
    text being no spelling of true. A row without the [listing_id] column
    raises [KeyError]; a price cell that is no number raises the
    [ValueError] of [float]. *)
Theorem listing_row_defaults :
  (forall id item seller,
      listing_from_row
        [("listing_id", id); ("item_id", item); ("seller_id", seller)]
      = Ret (Listing.Build id item seller PyFloat.zero 0 true false)) /\
  (forall id item seller,
      listing_from_row
        [("listing_id", id); ("item_id", item); ("seller_id", seller);
         ("price", ""); ("quantity", ""); ("active", ""); ("deleted", "")]
      = Ret (Listing.Build id item seller PyFloat.zero 0 false false)) /\
  (forall r, row_get "listing_id" r = None ->
             listing_from_row r = Raise (KeyError "listing_id")) /\
  (forall id item seller cell rest e,
      cell <> "" -> PyFloat.of_str cell = Raise e ->
      listing_from_row
        (("listing_id", id) :: ("item_id", item) :: ("seller_id", seller)
         :: ("price", cell) :: rest)
      = Raise e).
Proof.
  repeat split.
  - intros r H. unfold listing_from_row, row_item. now rewrite H.
  - intros id item seller cell rest e Hne He.
    unfold listing_from_row.
    cbn [row_item row_get row_get_default String.eqb Ascii.eqb Bool.eqb bind].
    cbn iota. unfold float_or_zero.
    rewrite (is_empty_false _ Hne), He. reflexivity.
Qed.

Lemma listing_row_defaults_witness :
  listing_from_row
    [("listing_id", "100007"); ("item_id", "100006"); ("seller_id", "100005");
     ("price", "12,50"); ("quantity", "1")]
  = Raise PyFloat.bad_float.
Proof.
  apply (proj2 (proj2 (proj2 listing_row_defaults))).
  - discriminate.
  - reflexivity.
Defined.

(* ------------------------------------------------------------------ *)
(** ** Loading skips the rows without a primary key *)

(** X6. [_load_csv] ignores every row whose primary key is missing
    or empty: the table loaded, and the error if there is one, are those
    of the file without these rows. *)
Theorem load_rows_skips_blank {V : Type} (from_row_func : row -> res V)
        (id_key : string) (rows : list row) (dst : Dict.t V) :
  load_rows from_row_func id_key rows dst
  = load_rows from_row_func id_key (filter (has_key id_key) rows) dst.
Proof.
  revert dst. induction rows as [|r rows IH]; intros dst; [reflexivity|].
  cbn [load_rows filter]. unfold has_key at 1.
  destruct (row_get id_key r) as [k|] eqn:Hk; [|apply IH].
  destruct (PyStr.is_empty k) eqn:He; cbn [negb]; [apply IH|].
  cbn [load_rows]. rewrite Hk, He.
  destruct (from_row_func r); auto.
Qed.

(* ------------------------------------------------------------------ *)
(** ** Every call has one of the six effects *)

Lemma mem_In s l : PyStr.mem s l = true -> In s l.
Proof.
  unfold PyStr.mem. intros H. apply existsb_exists in H.
  destruct H as (x & Hin & Heq). apply String.eqb_eq in Heq. now subst.
Qed.

Lemma In_mem s l : In s l -> PyStr.mem s l = true.
Proof.
  unfold PyStr.mem. intros H. apply existsb_exists. exists s.
  split; [exact H|apply String.eqb_refl].
Qed.

Lemma is_empty_spec s : PyStr.is_empty s = false <-> s <> "".
Proof.
  split; [|apply is_empty_false].
  destruct s; [discriminate|intros _; discriminate].
Qed.

Lemma register_effect draws w username password r w' draws' :
  register draws w username password = (r, w', draws') ->
  effect w (status_of r) w'.
Proof.
  unfold register.
  destruct (PyStr.is_empty (title_case username)) eqn:Hu;
    [intros [= <- <- <-]; constructor|].
  destruct (PyStr.is_empty password) eqn:Hp;
    [intros [= <- <- <-]; constructor|]. cbn [orb].
  destruct (existsb _ _) eqn:Hex; [intros [= <- <- <-]; constructor|].
  destruct (generate_id draws (users (market w))) as [[uid d1]|] eqn:Hg;
    intros [= <- <- <-]; [|constructor].
  cbn [status_of User.id].
  apply (effect_register w username (User.Build uid (title_case username) password));
    cbn [User.id User.username User.password].
  - eapply generate_id_fresh; eauto.
  - eapply generate_id_nonempty; eauto.
  - reflexivity.
  - now apply is_empty_spec.
  - now apply is_empty_spec.
  - intros u Hin Heq.
    assert (existsb (fun u => String.eqb (PyStr.lower (User.username u))
                                (PyStr.lower (title_case username)))
                    (Dict.values (users (market w))) = true) as Habs.
    { apply existsb_username. eauto. }
    congruence.
Qed.

Lemma post_listing_effect draws w seller name category brand condition
      description price quantity r w' draws' :
  post_listing draws w seller name category brand condition description
               price quantity = (r, w', draws') ->
  effect w (status_of r) w'.
Proof.
  unfold post_listing.
  destruct (PyStr.mem (title_case category) CATEGORIES) eqn:Hc; cbn [negb];
    [|intros [= <- <- <-]; constructor].
  destruct (PyStr.mem (PyStr.upper (PyStr.strip condition)) CONDITIONS) eqn:Hd;
    cbn [negb]; [|intros [= <- <- <-]; constructor].
  destruct (PyFloat.leb price PyFloat.zero) eqn:Hp;
    [intros [= <- <- <-]; constructor|].
  destruct (quantity <=? 0) eqn:Hq; [intros [= <- <- <-]; constructor|].
  cbn [orb].
  destruct (generate_id draws (items (market w))) as [[iid d1]|] eqn:H1;
    [|intros [= <- <- <-]; constructor].
  cbn [market set_items listings Item.id].
  destruct (generate_id d1 (listings (market w))) as [[lid d2]|] eqn:H2;
    intros [= <- <- <-]; cbn [status_of Listing.id].
  - apply (effect_post w
             (Item.Build iid (title_case name) (title_case category)
                         (title_case brand) (PyStr.upper (PyStr.strip condition))
                         (title_case description))
             (Listing.Build lid iid (User.id seller) (PyFloat.round2 price)
                            quantity true false) price);
      cbn [Item.id Item.category Item.condition Listing.id Listing.seller_id
           Listing.quantity]; auto.
    + eapply generate_id_fresh; eauto.
    + eapply generate_id_fresh; eauto.
    + eapply generate_id_nonempty; eauto.
    + eapply generate_id_nonempty; eauto.
    + now apply mem_In.
    + now apply mem_In.
    + apply Z.leb_gt in Hq. exact Hq.
  - apply (effect_stuck w
             (Item.Build iid (title_case name) (title_case category)
                         (title_case brand) (PyStr.upper (PyStr.strip condition))
                         (title_case description)));
      cbn [Item.id Item.category Item.condition].
    + eapply generate_id_fresh; eauto.
    + eapply generate_id_nonempty; eauto.
    + now apply mem_In.
    + now apply mem_In.
Qed.

Lemma delete_listing_effect w seller listing_id r w' :
  delete_listing w seller listing_id = (r, w') ->
  effect w (status_of r) w'.
Proof.
  intros H. destruct (delete_listing_cases _ _ _ _ _ H) as [[-> _]|(l & -> & Hg & _ & ->)].
  - constructor.
  - now apply effect_delete.
Qed.

Lemma buy_listing_effect draws w buyer listing_id q r w' draws' :
  buy_listing draws w buyer listing_id q = (r, w', draws') ->
  effect w (status_of r) w'.
Proof.
  intros H. destruct r as [order|e|].
  - destruct (buy_listing_Ret _ _ _ _ _ _ _ _ H)
      as (l & oid & amount & Hg & Hd & Ha & Hq & Hid & Hm & Ho & ->).
    cbn [status_of].
    assert (Order.id order = oid) as Hoid by (subst order; reflexivity).
    rewrite <- Hoid in *.
    apply (effect_buy w listing_id l q order amount); auto.
    + eapply generate_id_fresh; eauto.
    + eapply generate_id_nonempty; eauto.
    + rewrite Ho at 1. cbn [Order.buyer_id]. rewrite Ho. reflexivity.
  - rewrite (buy_listing_unchanged _ _ _ _ _ _ _ _ H) by discriminate.
    constructor.
  - rewrite (buy_listing_unchanged _ _ _ _ _ _ _ _ H) by discriminate.
    constructor.
Qed.

Lemma perform_effect draws w c s w' draws' :
  perform draws w c = (s, w', draws') -> effect w s w'.
Proof.
  destruct c; cbn [perform].
  - destruct (register _ _ _ _) as [[r w1] d1] eqn:H. intros [= <- <- <-].
    eapply register_effect; eauto.
  - intros [= <- <- <-]. constructor.
  - destruct (post_listing _ _ _ _ _ _ _ _ _ _) as [[r w1] d1] eqn:H.
    intros [= <- <- <-]. eapply post_listing_effect; eauto.
  - destruct (delete_listing _ _ _) as [r w1] eqn:H. intros [= <- <- <-].
    eapply delete_listing_effect; eauto.
  - intros [= <- <- <-]. constructor.
  - intros [= <- <- <-]. constructor.
  - intros [= <- <- <-]. constructor.
  - destruct (buy_listing _ _ _ _ _) as [[r w1] d1] eqn:H. intros [= <- <- <-].
    eapply buy_listing_effect; eauto.
Qed.

Lemma run_effects cs : forall draws w log w' draws',
  run draws w cs = (log, w', draws') -> effects w w'.
Proof.
  induction cs as [|c cs IH]; intros draws w log w' draws'; cbn [run].
  - intros [= <- <- <-]. constructor.
  - destruct (perform draws w c) as [[s w1] d1] eqn:Hp.
    apply perform_effect in Hp.
    destruct s.
    + destruct (run d1 w1 cs) as [[log2 w2] d2] eqn:Hr. intros [= <- <- <-].
      eapply effects_step; eauto.
    + destruct (run d1 w1 cs) as [[log2 w2] d2] eqn:Hr. intros [= <- <- <-].
      eapply effects_step; eauto.
    + intros [= <- <- <-]. eapply effects_step; [eauto|constructor].
Qed.

Lemma reachable_effects w :
  reachable w -> effects new_world w.
Proof.
  assert (Htrans : forall a b c s, effects a b -> effect b s c -> effects a c).
  { intros a b c s Hab. induction Hab as [|a s1 a1 b H1 Hab IH]; intros Hbc.
    - eapply effects_step; [eauto|constructor].
    - eapply effects_step; [eauto|]. now apply IH. }
  induction 1 as [|w draws c s w' draws' Hr IH Hp Hs].
  - constructor.
  - eapply Htrans; [exact IH|]. eapply perform_effect; eauto.
Qed.

(* ------------------------------------------------------------------ *)
(** ** Starting again from the files *)






(* ------------------------------------------------------------------ *)
(** ** Every reachable world is well formed *)

Lemma In_pair_values {V : Type} (d : Dict.t V) k v :
  In (k, v) d -> In v (Dict.values d).
Proof. intros H. unfold Dict.values. now apply (in_map snd d (k, v)). Qed.

Lemma In_pair_get {V : Type} (d : Dict.t V) k v :
  In (k, v) d -> exists v0, Dict.get k d = Some v0.
Proof.
  induction d as [|[k' v'] d IH]; cbn; [tauto|].
  intros [[= -> ->]|H].
  - rewrite String.eqb_refl. eauto.
  - destruct (String.eqb k k'); eauto.
Qed.

Lemma new_world_well_formed : well_formed new_world.
Proof. constructor; cbn; intros; contradiction. Qed.

Lemma order_of_set ls k l l' o :
  Dict.get k ls = Some l ->
  Listing.seller_id l' = Listing.seller_id l ->
  Listing.price l' = Listing.price l ->
  order_of ls o -> order_of (Dict.set k l' ls) o.
Proof.
  intros Hk Hs Hp (l0 & amount & Hg & H1 & H2 & H3 & H4 & H5 & H6).
  destruct (String.eqb_spec k (Order.listing_id o)) as [Heq|Hne].
  - exists l', amount. rewrite <- Heq in *. rewrite get_set_same.
    assert (l0 = l) as -> by congruence.
    repeat split; auto; congruence.
  - exists l0, amount. rewrite get_set_other by exact Hne.
    repeat split; auto.
Qed.

Lemma order_of_fresh ls k l o :
  Dict.get k ls = None -> order_of ls o -> order_of (Dict.set k l ls) o.
Proof.
  intros Hk (l0 & amount & Hg & H).
  exists l0, amount. split; [|exact H].
  eapply get_set_keeps; eauto.
Qed.

Lemma effect_well_formed w s w' :
  invariant w -> well_formed w -> effect w s w' -> well_formed w'.
Proof.
  intros Hinv [Hun Hu Hi Hl Ho] He.
  destruct He as [s|username user Hfresh Hid Hname Hne Hpw Huniq
                  |item listing price Hfi Hfl Hii Hli Hcat Hcond Hlis Hp Hq
                  |item Hfi Hii Hcat Hcond
                  |k l Hg
                  |k l q order amount Hg Hd Ha Hq Hfo Hoi Hm Hord].
  - now constructor.
  - constructor;
      cbn [market save_all_csv set_users users items listings orders]; auto.
    + intros k1 u1 k2 u2 H1 H2 Heq.
      apply In_set in H1. apply In_set in H2.
      destruct H1 as [[-> ->]|H1], H2 as [[-> ->]|H2]; auto.
      * exfalso. apply (Huniq u2); [eapply In_pair_values; eauto|congruence].
      * exfalso. apply (Huniq u1); [eapply In_pair_values; eauto|congruence].
      * eauto.
    + intros k u H. apply In_set in H. destruct H as [[-> ->]|H]; eauto.
      split; [|now split].
      rewrite Hname at 2. rewrite title_case_normal. exact Hname.
  - constructor;
      cbn [market save_all_csv set_listings set_items users items listings
           orders]; auto.
    + intros k it H. apply In_set in H. destruct H as [[-> ->]|H]; eauto.
      now split.
    + intros k l H. apply In_set in H. destruct H as [[-> ->]|H]; eauto.
      rewrite Hlis. cbn. split; auto.
    + intros k o H. apply order_of_fresh; eauto.
  - constructor; cbn [market set_items users items listings orders]; auto.
    intros k it H. apply In_set in H. destruct H as [[-> ->]|H]; eauto.
    now split.
  - constructor;
      cbn [market save_all_csv set_listings users items listings orders]; auto.
    + intros k' l' H. apply In_set in H. destruct H as [[-> ->]|H]; eauto.
      cbn. split; [discriminate|intros [? _]; discriminate].
    + intros k' o H. eapply order_of_set; eauto.
  - constructor;
      cbn [market save_all_csv set_listings set_orders users items listings
           orders]; auto.
    + intros k' l' H. apply In_set in H. destruct H as [[-> ->]|H]; eauto.
      unfold after_purchase. cbn [Listing.quantity Listing.with_quantity].
      destruct (Z.leb_spec (Listing.quantity l - q) 0); cbn.
      * split; [discriminate|intros [_ ?]; lia].
      * split; auto.
    + assert (Hev := after_purchase_evolves q l Hq).
      destruct Hev as (_ & _ & Hsel & Hpr & _).
      intros k' o H. apply In_set in H. destruct H as [[-> ->]|H].
      * destruct (keyed_get _ _ _ _ (inv_listings _ Hinv) Hg) as [Hlid _].
        exists (after_purchase q l), amount.
        rewrite Hord. cbn [Order.listing_id Order.seller_id Order.unit_price
                            Order.quantity Order.total_price Order.status].
        rewrite Hlid, get_set_same.
        split; [reflexivity|]. split; [symmetry; exact Hsel|].
        split; [symmetry; exact Hpr|]. split; [lia|]. auto.
      * eapply order_of_set; eauto.
Qed.

Lemma reachable_well_formed w : reachable w -> well_formed w.
Proof.
  induction 1 as [|w draws c s w' draws' Hr IH Hp Hs].
  - apply new_world_well_formed.
  - apply (effect_well_formed w s w');
      [now apply reachable_invariant|exact IH|].
    eapply perform_effect; eauto.
Qed.

(* ------------------------------------------------------------------ *)
(** ** Users *)

Lemma users_unique w :
  reachable w ->
  forall k1 u1 k2 u2,
    In (k1, u1) (users (market w)) -> In (k2, u2) (users (market w)) ->
    PyStr.lower (User.username u1) = PyStr.lower (User.username u2) ->
    k1 = k2 /\ u1 = u2.
Proof.
  intros Hr. destruct (reachable_well_formed w Hr) as [Hun _ _ _ _].
  destruct (reachable_invariant w Hr) as [[Hnd _] _ _ _ _ _].
  intros k1 u1 k2 u2 H1 H2 Heq.
  assert (k1 = k2) as <- by eauto. split; [reflexivity|].
  apply (In_get_nodup _ _ _ Hnd) in H1.
  apply (In_get_nodup _ _ _ Hnd) in H2. congruence.
Qed.



Lemma login_find us name password u :
  find (fun user => String.eqb (User.username user) name
                    && String.eqb (User.password user) password) us = Some u ->
  In u us /\ User.username u = name /\ User.password u = password.
Proof.
  intros H. apply find_some in H. destruct H as [Hin Heq].
  apply andb_true_iff in Heq. destruct Heq as [H1 H2].
  apply String.eqb_eq in H1, H2. auto.
Qed.

(** X9. [login] returns a stored user whose name is the normal form
    of the name typed and whose password is the password typed, character
    for character. In a world the controller can reach it finds every
    stored user, under any spelling of the name with the normal form
    stored; with a password that user does not have, it finds no one. *)
Theorem login_contract w :
  (forall username password u,
      login w username password = Some u ->
      In u (Dict.values (users (market w))) /\
      User.username u = title_case username /\
      User.password u = password) /\
  (reachable w ->
   forall k u username,
     In (k, u) (users (market w)) ->
     title_case username = User.username u ->
     login w username (User.password u) = Some u /\
     forall password, password <> User.password u ->
                      login w username password = None).
Proof.
  split.
  - intros username password u H. now apply login_find in H.
  - intros Hr k u username Hin Hname.
    pose proof (users_unique w Hr) as Huniq.
    assert (Hsame : forall password u',
               login w username password = Some u' -> u' = u).
    { intros password u' H. apply login_find in H.
      destruct H as (Hin' & Hn' & _).
      apply In_values in Hin'. destruct Hin' as (k' & Hin').
      destruct (Huniq k' u' k u Hin' Hin) as [_ ->]; [congruence|reflexivity]. }
    split.
    + destruct (login w username (User.password u)) as [u'|] eqn:Hl.
      * f_equal. eauto.
      * exfalso. unfold login in Hl.
        pose proof (find_none _ _ Hl u (In_pair_values _ _ _ Hin)) as Hf.
        cbn beta in Hf. rewrite Hname, !String.eqb_refl in Hf. discriminate.
    + intros password Hne.
      destruct (login w username password) as [u'|] eqn:Hl; [|reflexivity].
      exfalso. assert (u' = u) as -> by eauto.
      apply login_find in Hl. destruct Hl as (_ & _ & Hp). congruence.
Qed.

Lemma login_contract_witness :
  login demo_world "bOB" (User.password demo_seller) = Some demo_seller.
Proof.
  refine (proj1 (proj2 (login_contract demo_world) demo_world_reachable
                   "100005" demo_seller "bOB" _ _)).
  - vm_compute. left. reflexivity.
  - reflexivity.
Defined.




(* ------------------------------------------------------------------ *)
(** ** Items, listings and orders of a reachable world *)

Lemma sold_world_reachable : reachable sold_world.
Proof.
  eapply reachable_call with
    (draws := [8]) (c := BuyListing demo_buyer "100007" 2) (s := Done)
    (draws' := []).
  - apply demo_world_reachable.
  - vm_compute. reflexivity.
  - discriminate.
Qed.

(** X11. In every world the controller can reach, the category of
    every item stored is one of the eight of [CATEGORIES] and its
    condition one of the five of [CONDITIONS]; a search for anything that
    is no category, once normalised, returns no listing. *)
Theorem items_enumerated w :
  reachable w ->
  (forall k it, In (k, it) (items (market w)) ->
                In (Item.category it) CATEGORIES /\
                In (Item.condition it) CONDITIONS) /\
  (forall category, ~ In (title_case category) CATEGORIES ->
                    search_by_category w category = Ret []).
Proof.
  intros Hr. pose proof (reachable_well_formed w Hr) as Hwf.
  pose proof (reachable_invariant w Hr) as Hinv.
  split; [exact (wf_item w Hwf)|].
  intros category Hno. unfold search_by_category.
  rewrite search_listings_filter by now apply invariant_search_items.
  f_equal. induction (Dict.values (listings (market w))) as [|l ls IH];
    [reflexivity|].
  cbn [filter]. rewrite IH.
  replace (item_has _ _ l) with false; [now rewrite andb_false_r|].
  unfold item_has.
  destruct (Dict.get (Listing.item_id l) (items (market w))) as [it|] eqn:Hg;
    [|reflexivity].
  destruct (String.eqb_spec (Item.category it) (title_case category)) as [He|];
    [|reflexivity].
  exfalso. apply Hno. rewrite <- He.
  apply get_In in Hg. apply (wf_item w Hwf _ _ Hg).
Qed.

Lemma items_enumerated_witness :
  search_by_category demo_world "phones" = Ret [].
Proof.
  refine (proj2 (items_enumerated demo_world demo_world_reachable) "phones" _).
  vm_compute. intuition discriminate.
Defined.

(** X12. In every world the controller can reach a listing is active
    exactly when it is not deleted and has stock. So [listing_status]
    never answers INACTIVE there, and it answers ACTIVE exactly for the
    listings the searches look at. *)
Theorem listing_status_reachable w :
  reachable w ->
  forall k l, In (k, l) (listings (market w)) ->
    (Listing.active l = true <->
     Listing.deleted l = false /\ 0 < Listing.quantity l) /\
    listing_status l <> "INACTIVE" /\
    (listing_status l = "ACTIVE" <-> visible l = true).
Proof.
  intros Hr k l Hin.
  pose proof (wf_listing w (reachable_well_formed w Hr) k l Hin) as Hact.
  split; [exact Hact|].
  unfold listing_status, visible.
  destruct (Listing.deleted l) eqn:Hd; cbn [negb andb].
  - split; [discriminate|]. split; discriminate.
  - destruct (Z.leb_spec (Listing.quantity l) 0) as [Hq|Hq].
    + split; [discriminate|]. split; [discriminate|].
      assert ((0 <? Listing.quantity l) = false) as Hz by (apply Z.ltb_ge; lia).
      rewrite Hz, andb_false_r. discriminate.
    + assert (Listing.active l = true) as Ha by (apply Hact; auto).
      rewrite Ha. cbn [negb andb]. split; [discriminate|].
      split; [intros _|reflexivity]. now apply Z.ltb_lt.
Qed.

Lemma listing_status_reachable_witness :
  listing_status demo_listing <> "INACTIVE".
Proof.
  refine (proj1 (proj2 (listing_status_reachable demo_world
                          demo_world_reachable "100007" demo_listing _))).
  vm_compute. left. reflexivity.
Defined.

(** X13. In every world the controller can reach, every order
    stored names a listing that is still in the listings table, with the
    seller and the price of that listing; its quantity is positive, its
    total is its unit price times its quantity rounded to two decimals,
    and its status is COMPLETED. *)
Theorem orders_reference_listings w :
  reachable w ->
  forall k o, In (k, o) (orders (market w)) ->
  exists l amount,
    Dict.get (Order.listing_id o) (listings (market w)) = Some l /\
    Order.seller_id o = Listing.seller_id l /\
    Order.unit_price o = Listing.price l /\
    0 < Order.quantity o /\
    PyFloat.mul_int (Order.unit_price o) (Order.quantity o) = Ret amount /\
    Order.total_price o = PyFloat.round2 amount /\
    Order.status o = "COMPLETED".
Proof.
  intros Hr k o Hin.
  exact (wf_order w (reachable_well_formed w Hr) k o Hin).
Qed.

Lemma orders_reference_listings_witness :
  exists l,
    Dict.get (Order.listing_id demo_order) (listings (market sold_world))
    = Some l /\
    Order.seller_id demo_order = Listing.seller_id l.
Proof.
  destruct (orders_reference_listings sold_world sold_world_reachable
              "100008" demo_order) as (l & amount & H1 & H2 & _).
  - vm_compute. left. reflexivity.
  - exists l. split; assumption.
Defined.

(* ------------------------------------------------------------------ *)
(** ** Users, items and orders are only ever added *)

Lemma extends_refl {V : Type} (d : Dict.t V) : extends d d.
Proof. exists []. now rewrite app_nil_r. Qed.

Lemma extends_trans {V : Type} (a b c : Dict.t V) :
  extends a b -> extends b c -> extends a c.
Proof.
  intros [m1 ->] [m2 ->]. exists (m1 ++ m2)%list. now rewrite app_assoc.
Qed.

Lemma extends_set {V : Type} (d : Dict.t V) k v :
  Dict.get k d = None -> extends d (Dict.set k v d).
Proof. intros H. exists [(k, v)]. now apply set_fresh. Qed.

Lemma extends_get {V : Type} (d d' : Dict.t V) k v :
  extends d d' -> Dict.get k d = Some v -> Dict.get k d' = Some v.
Proof.
  intros [more ->]. induction d as [|[k1 v1] d IH]; cbn; [discriminate|].
  destruct (String.eqb k k1); auto.
Qed.

Lemma effect_extends w s w' :
  effect w s w' ->
  extends (users (market w)) (users (market w')) /\
  extends (items (market w)) (items (market w')) /\
  extends (orders (market w)) (orders (market w')).
Proof.
  intros H; destruct H;
    cbn [market save_all_csv set_users set_items set_listings set_orders
         users items listings orders];
    repeat split; try apply extends_refl; now apply extends_set.
Qed.

Lemma effects_extends w w' :
  effects w w' ->
  extends (users (market w)) (users (market w')) /\
  extends (items (market w)) (items (market w')) /\
  extends (orders (market w)) (orders (market w')).
Proof.
  induction 1 as [|w s w1 w2 H1 H2 IH].
  - repeat split; apply extends_refl.
  - destruct (effect_extends _ _ _ H1) as (A1 & A2 & A3).
    destruct IH as (B1 & B2 & B3).
    repeat split; eapply extends_trans; eauto.
Qed.

(** X14. Whatever calls are made, in whatever world, and however
    each of them ends, the users, the items and the orders stored before
    are stored after, unchanged and in the same order: the three tables
    only grow at their end. In particular a key that held a user, an item
    or an order holds it for ever. *)
Theorem tables_append_only draws w cs :
  let w' := snd (fst (run draws w cs)) in
  extends (users (market w)) (users (market w')) /\
  extends (items (market w)) (items (market w')) /\
  extends (orders (market w)) (orders (market w')) /\
  (forall k u, Dict.get k (users (market w)) = Some u ->
               Dict.get k (users (market w')) = Some u) /\
  (forall k i, Dict.get k (items (market w)) = Some i ->
               Dict.get k (items (market w')) = Some i) /\
  (forall k o, Dict.get k (orders (market w)) = Some o ->
               Dict.get k (orders (market w')) = Some o).
Proof.
  intros w'. subst w'.
  destruct (run draws w cs) as [[log w'] draws'] eqn:Hrun. cbn [fst snd].
  apply run_effects in Hrun. apply effects_extends in Hrun.
  destruct Hrun as (A & B & C).
  repeat split; auto; intros k v; now apply extends_get.
Qed.

(* ------------------------------------------------------------------ *)
(** ** The stock and the orders add up *)

Lemma sold_app lid os k o :
  sold lid (os ++ [(k, o)])%list
  = sold lid os
    + (if String.eqb (Order.listing_id o) lid then Order.quantity o else 0).
Proof.
  unfold sold, Dict.values. rewrite map_app. cbn [map snd].
  induction (map snd os) as [|a l IH]; cbn.
  - destruct (String.eqb _ _); lia.
  - rewrite IH. destruct (String.eqb (Order.listing_id a) lid); lia.
Qed.

Lemma after_purchase_quantity q l :
  Listing.quantity (after_purchase q l) = Listing.quantity l - q.
Proof.
  unfold after_purchase. cbn [Listing.quantity Listing.with_quantity].
  now destruct (_ <=? 0).
Qed.

Lemma effect_ledger w s w' lid l :
  invariant w -> effect w s w' ->
  Dict.get lid (listings (market w)) = Some l ->
  exists l',
    Dict.get lid (listings (market w')) = Some l' /\
    Listing.quantity l' + sold lid (orders (market w'))
    = Listing.quantity l + sold lid (orders (market w)).
Proof.
  intros Hinv He Hl.
  destruct He as [s|username user Hfresh Hid Hname Hne Hpw Huniq
                  |item listing price Hfi Hfl Hii Hli Hcat Hcond Hlis Hp Hq
                  |item Hfi Hii Hcat Hcond
                  |k l0 Hg
                  |k l0 q order amount Hg Hd Ha Hq Hfo Hoi Hm Hord];
    cbn [market save_all_csv set_users set_items set_listings set_orders
         users items listings orders].
  - eauto.
  - eauto.
  - exists l. split; [|reflexivity]. eapply get_set_keeps; eauto.
  - eauto.
  - destruct (String.eqb_spec k lid) as [->|Hne].
    + rewrite get_set_same. eexists. split; [reflexivity|].
      assert (l0 = l) as -> by congruence. reflexivity.
    + rewrite get_set_other by exact Hne. eauto.
  - rewrite (set_fresh _ _ _ Hfo), sold_app.
    destruct (keyed_get _ _ _ _ (inv_listings _ Hinv) Hg) as [Hlid _].
    assert (Order.listing_id order = k /\ Order.quantity order = q) as [-> ->]
      by (rewrite Hord; cbn; auto).
    destruct (String.eqb_spec k lid) as [->|Hne].
    + rewrite get_set_same. eexists. split; [reflexivity|].
      assert (l0 = l) as -> by congruence.
      rewrite after_purchase_quantity. lia.
    + rewrite get_set_other by exact Hne. exists l. split; [exact Hl|lia].
Qed.

(** X15. From a well-formed world, whatever calls are made and
    however each of them ends, a listing stays in the listings table, and
    its stock plus the units that the stored orders account for under its
    identifier is what it was: every unit that leaves the stock is in an
    order, and no order is stored without the stock going down. *)
Theorem stock_ledger cs : forall draws w lid l,
  invariant w ->
  Dict.get lid (listings (market w)) = Some l ->
  let w' := snd (fst (run draws w cs)) in
  exists l',
    Dict.get lid (listings (market w')) = Some l' /\
    Listing.quantity l' + sold lid (orders (market w'))
    = Listing.quantity l + sold lid (orders (market w)).
Proof.
  induction cs as [|c cs IH]; intros draws w lid l Hinv Hl; cbn [run].
  - cbn. eauto.
  - destruct (perform draws w c) as [[s w1] d1] eqn:Hp.
    pose proof (perform_invariant _ _ _ _ _ _ Hinv Hp) as Hinv1.
    apply perform_effect in Hp.
    destruct (effect_ledger _ _ _ _ _ Hinv Hp Hl) as (l1 & Hl1 & Heq1).
    assert (Hrest : let w' := snd (fst (run d1 w1 cs)) in
              exists l',
                Dict.get lid (listings (market w')) = Some l' /\
                Listing.quantity l' + sold lid (orders (market w'))
                = Listing.quantity l + sold lid (orders (market w))).
    { destruct (IH d1 w1 lid l1 Hinv1 Hl1) as (l2 & Hl2 & Heq2).
      exists l2. split; [exact Hl2|]. cbn zeta in *. lia. }
    destruct s.
    + destruct (run d1 w1 cs) as [[log2 w2] d2]. exact Hrest.
    + destruct (run d1 w1 cs) as [[log2 w2] d2]. exact Hrest.
    + cbn. eauto.
Qed.

Lemma stock_ledger_witness :
  exists l',
    Dict.get "100007" (listings (market sold_world)) = Some l' /\
    Listing.quantity l' + sold "100007" (orders (market sold_world)) = 2 + 0.
Proof.
  refine (stock_ledger [BuyListing demo_buyer "100007" 2] [8] demo_world
            "100007" demo_listing _ _).
  - apply reachable_invariant. apply demo_world_reachable.
  - vm_compute. reflexivity.
Defined.

(* ------------------------------------------------------------------ *)
(** ** A listing posted is found *)

Lemma In_set_same {V : Type} (d : Dict.t V) k v : In (k, v) (Dict.set k v d).
Proof. apply get_In. apply get_set_same. Qed.

(** X16. From a well-formed world, a listing that
    [post_listing] returned is at once among the results of
    [search_by_category] for the category as it was typed and of
    [search_by_full_name] for the name as it was typed, and neither
    search raises. *)
Theorem post_then_search draws w seller name category brand condition
        description price quantity listing w' draws' :
  invariant w ->
  post_listing draws w seller name category brand condition description
               price quantity = (Ret listing, w', draws') ->
  (exists found, search_by_category w' category = Ret found /\ In listing found)
  /\
  (exists found, search_by_full_name w' name = Ret found /\ In listing found).
Proof.
  intros Hinv Hpost.
  assert (Hinv' : invariant w').
  { apply (perform_invariant draws w
             (PostListing seller name category brand condition description
                          price quantity) Done w' draws' Hinv).
    cbn [perform]. now rewrite Hpost. }
  destruct (post_listing_Ret _ _ _ _ _ _ _ _ _ _ _ _ _ Hpost)
    as (item_id & draws1 & Hp & Hq & _ & _ & Hl & Hw).
  assert (Hin : In listing (Dict.values (listings (market w')))).
  { rewrite Hw. cbn [market save_all_csv set_listings listings].
    eapply In_pair_values. apply In_set_same. }
  assert (Hvis : visible listing = true).
  { rewrite Hl. unfold visible. cbn. apply Z.ltb_lt. exact Hq. }
  assert (Hitem : Dict.get (Listing.item_id listing) (items (market w'))
                  = Some (Item.Build item_id (title_case name)
                            (title_case category) (title_case brand)
                            (PyStr.upper (PyStr.strip condition))
                            (title_case description))).
  { rewrite Hw, Hl.
    cbn [market save_all_csv set_listings set_items items Listing.item_id].
    apply get_set_same. }
  split.
  - unfold search_by_category.
    rewrite search_listings_filter by now apply invariant_search_items.
    eexists. split; [reflexivity|].
    apply filter_In. split; [exact Hin|].
    rewrite Hvis. unfold item_has. rewrite Hitem.
    cbn [Item.category andb]. apply String.eqb_refl.
  - unfold search_by_full_name.
    rewrite search_listings_filter by now apply invariant_search_items.
    eexists. split; [reflexivity|].
    apply filter_In. split; [exact Hin|].
    rewrite Hvis. unfold item_has. rewrite Hitem.
    cbn [Item.name andb]. apply String.eqb_refl.
Qed.

Lemma post_then_search_witness :
  exists found,
    search_by_category demo_world "electronics" = Ret found /\
    In demo_listing found.
Proof.
  refine (proj1 (post_then_search [6; 7]
                   (snd (fst (register [5] new_world "Bob" "pw1")))
                   demo_seller "iPhone 8" "electronics" "Apple" "GOOD" "desc"
                   (PyFloat.lit "250") 2 demo_listing demo_world [] _ _)).
  - apply reachable_invariant.
    eapply reachable_call with
      (draws := [5]) (c := Register "Bob" "pw1") (s := Done) (draws' := []).
    + apply reachable_new.
    + reflexivity.
    + discriminate.
  - vm_compute. reflexivity.
Defined.

(* ------------------------------------------------------------------ *)
(** ** The suggested price and its range *)

Lemma table_get_In k default d :
  In (table_get k default d) (default :: map snd d).
Proof.
  unfold table_get. induction d as [|[k1 v1] d IH]; cbn; [now left|].
  destruct (String.eqb k k1); [right; now left|].
  destruct IH as [IH|IH]; [now left|right; now right].
Qed.

(** X17. Whatever texts are given for the category and the
    condition, the three prices of [price_suggestion] are in order,
    [0 < low < suggested < high], and each of them has two decimals. *)
Theorem price_suggestion_in_order category condition :
  in_order (price_suggestion category condition) = true /\
  let '(s, low, high) := price_suggestion category condition in
  PyFloat.round2 s = s /\ PyFloat.round2 low = low /\
  PyFloat.round2 high = high.
Proof.
  split.
  - unfold price_suggestion.
    pose proof (table_get_In (title_case category)
                  (table_get "Others" PyFloat.zero CATEGORY_BASELINE)
                  CATEGORY_BASELINE) as Hb.
    pose proof (table_get_In (PyStr.upper (PyStr.strip condition))
                  (PyFloat.lit "0.65") CONDITION_MULTIPLIER) as Hm.
    set (b := table_get (title_case category) _ _) in *.
    set (m := table_get (PyStr.upper (PyStr.strip condition)) _ _) in *.
    clearbody b m.
    assert (Hall :
              forallb
                (fun b =>
                   forallb
                     (fun m =>
                        in_order
                          (let s := PyFloat.round2 (PyFloat.mul b m) in
                           (s, PyFloat.round2 (PyFloat.mul s (PyFloat.lit "0.9")),
                            PyFloat.round2 (PyFloat.mul s (PyFloat.lit "1.1")))))
                     (PyFloat.lit "0.65" :: map snd CONDITION_MULTIPLIER))
                (table_get "Others" PyFloat.zero CATEGORY_BASELINE
                 :: map snd CATEGORY_BASELINE) = true)
      by (vm_compute; reflexivity).
    rewrite forallb_forall in Hall. specialize (Hall b Hb).
    rewrite forallb_forall in Hall. exact (Hall m Hm).
  - unfold price_suggestion. cbn zeta.
    repeat split; apply round2_idempotent.
Qed.

(* ------------------------------------------------------------------ *)
(** ** What the prompts return *)

Lemma again_answer {A : Type} (out : list written) (d : dialogue A) a rest w :
  again out d = (a, rest, w) ->
  exists w0, d = (a, rest, w0) /\ w = (out ++ w0)%list.
Proof.
  destruct d as [[a0 r0] w0]. cbn. intros [= <- <- <-]. eauto.
Qed.

(** X18. [prompt_text] reads lines until one is the word for
    going back or is accepted. When it returns a text, that text is a
    line typed with the whitespace around it removed, it is not the word
    for going back, and it is empty only if [allow_empty] is set; the
    lines read before it were all blank, and the lines after it are left
    unread. It returns [None] only at a line that says to go back, and
    raises nothing but the [EOFError] of [input] when the lines run
    out. *)
Theorem prompt_text_answer label allow_empty inputs a rest out :
  prompt_text label allow_empty inputs = (a, rest, out) ->
  match a with
  | Value s =>
      exists skipped line,
        inputs = (skipped ++ line :: rest)%list /\
        Forall blank skipped /\
        s = PyStr.strip line /\ is_back s = false /\
        (allow_empty = false -> s <> "")
  | Back =>
      exists skipped line,
        inputs = (skipped ++ line :: rest)%list /\
        Forall blank skipped /\ is_back (PyStr.strip line) = true
  | EndOfInput => rest = [] /\ Forall blank inputs
  | Uncaught _ => False
  end.
Proof.
  revert a rest out. induction inputs as [|line inputs IH]; intros a rest out.
  - cbn. intros [= <- <- <-]. auto.
  - cbn [prompt_text].
    destruct (is_back (PyStr.strip line)) eqn:Hb.
    { intros [= <- <- <-]. exists [], line. auto. }
    destruct (PyStr.is_empty (PyStr.strip line)) eqn:He; cbn [negb orb].
    + destruct allow_empty.
      * intros [= <- <- <-]. exists [], line. repeat split; auto.
        discriminate.
      * intros H. apply again_answer in H. destruct H as (w0 & H & _).
        apply IH in H.
        assert (Hbl : blank line).
        { unfold blank. now destruct (PyStr.strip line). }
        destruct a as [s| | |r].
        -- destruct H as (sk & l & -> & Hsk & H).
           exists (line :: sk), l. split; [reflexivity|]. split; auto.
        -- destruct H as (sk & l & -> & Hsk & H).
           exists (line :: sk), l. split; [reflexivity|]. split; auto.
        -- destruct H as [-> H]. auto.
        -- exact H.
    + intros [= <- <- <-]. exists [], line. repeat split; auto.
      intros _ Hs. now rewrite Hs in He.
Qed.

Lemma prompt_text_answer_witness :
  exists skipped line,
    ["  "; " Bob "; "pw1"] = (skipped ++ line :: ["pw1"])%list /\
    Forall blank skipped /\ "Bob" = PyStr.strip line.
Proof.
  destruct (prompt_text_answer "Username: " false ["  "; " Bob "; "pw1"]
              (Value "Bob") ["pw1"]
              [Asked "Username:  (type 'cd ..' to go back): ";
               Printed "Input cannot be empty.";
               Asked "Username:  (type 'cd ..' to go back): "])
    as (skipped & line & H1 & H2 & H3 & _).
  - reflexivity.
  - exists skipped, line. auto.
Defined.

(** X19. [prompt_int] returns an integer only if it is the
    value that [int] gives to a line typed, and is within the bounds
    given; every line before it was read and refused, the lines after it
    are left unread. It catches every exception of [int]. *)
Theorem prompt_int_answer label min_val max_val inputs a rest out :
  prompt_int label min_val max_val inputs = (a, rest, out) ->
  match a with
  | Value x =>
      exists skipped line,
        inputs = (skipped ++ line :: rest)%list /\
        PyInt.of_str (PyStr.strip line) = Ret x /\
        is_back (PyStr.strip line) = false /\
        within min_val max_val x
  | Back =>
      exists skipped line,
        inputs = (skipped ++ line :: rest)%list /\
        is_back (PyStr.strip line) = true
  | EndOfInput => rest = []
  | Uncaught _ => False
  end.
Proof.
  revert a rest out. induction inputs as [|line inputs IH]; intros a rest out.
  - cbn. intros [= <- <- <-]. auto.
  - cbn [prompt_int].
    assert (Hagain : forall said,
               again said (prompt_int label min_val max_val inputs)
               = (a, rest, out) ->
               match a with
               | Value x =>
                   exists skipped line0,
                     (line :: inputs) = (skipped ++ line0 :: rest)%list /\
                     PyInt.of_str (PyStr.strip line0) = Ret x /\
                     is_back (PyStr.strip line0) = false /\
                     within min_val max_val x
               | Back =>
                   exists skipped line0,
                     (line :: inputs) = (skipped ++ line0 :: rest)%list /\
                     is_back (PyStr.strip line0) = true
               | EndOfInput => rest = []
               | Uncaught _ => False
               end).
    { intros said H. apply again_answer in H. destruct H as (w0 & H & _).
      apply IH in H. destruct a as [x| | |r]; auto.
      - destruct H as (sk & l & -> & H). exists (line :: sk), l. auto.
      - destruct H as (sk & l & -> & H). exists (line :: sk), l. auto. }
    destruct (is_back (PyStr.strip line)) eqn:Hb.
    { intros [= <- <- <-]. exists [], line. auto. }
    destruct (PyInt.of_str (PyStr.strip line)) as [x|e|] eqn:Hx.
    + destruct min_val as [m|].
      * destruct (Z.ltb_spec x m) as [Hlt|Hge]; [apply Hagain|].
        destruct max_val as [M|].
        -- destruct (Z.ltb_spec M x) as [Hgt|Hle]; [apply Hagain|].
           intros [= <- <- <-]. exists [], line. repeat split; auto.
           ++ now intros ? [= <-].
           ++ now intros ? [= <-].
        -- intros [= <- <- <-]. exists [], line. repeat split; auto.
           ++ now intros ? [= <-].
           ++ discriminate.
      * destruct max_val as [M|].
        -- destruct (Z.ltb_spec M x) as [Hgt|Hle]; [apply Hagain|].
           intros [= <- <- <-]. exists [], line. repeat split; auto.
           ++ discriminate.
           ++ now intros ? [= <-].
        -- intros [= <- <- <-]. exists [], line. repeat split; auto;
             discriminate.
    + destruct e as [msg|key|msg]; [apply Hagain| |];
        exfalso; revert Hx; unfold PyInt.of_str;
        destruct (PyInt.take_sign _) as [neg body];
        destruct (PyInt.ungroup body) as [ds|]; try discriminate;
        destruct (PyInt.digits_value ds); discriminate.
    + exfalso. revert Hx. unfold PyInt.of_str.
      destruct (PyInt.take_sign _) as [neg body].
      destruct (PyInt.ungroup body) as [ds|]; [|discriminate].
      destruct (PyInt.digits_value ds); discriminate.
Qed.

Lemma prompt_int_answer_witness :
  exists skipped line,
    ["0"; "two"; " 2 "; "next"] = (skipped ++ line :: ["next"])%list /\
    PyInt.of_str (PyStr.strip line) = Ret 2 /\
    within (Some 1) None 2.
Proof.
  destruct (prompt_int_answer "Quantity" (Some 1) None
              ["0"; "two"; " 2 "; "next"] (Value 2) ["next"]
              [Asked "Quantity ('cd ..' to go back): ";
               Printed "Value must be >= 1";
               Asked "Quantity ('cd ..' to go back): ";
               Printed "Please enter a valid integer.";
               Asked "Quantity ('cd ..' to go back): "])
    as (skipped & line & H1 & H2 & _ & H3).
  - vm_compute. reflexivity.
  - exists skipped, line. auto.
Defined.

Lemma of_decimal_raises s ip fp x :
  match PyFloat.of_decimal s ip fp x with
  | Ret _ => True
  | Raise (ValueError _) => True
  | _ => False
  end.
Proof.
  unfold PyFloat.of_decimal, PyFloat.bad_float.
  destruct (_ && _); [exact I|].
  destruct (PyFloat.digits_or_empty ip); [|exact I].
  destruct (PyFloat.digits_or_empty fp); exact I.
Qed.

Lemma float_of_str_raises str :
  match PyFloat.of_str str with
  | Ret _ => True
  | Raise (ValueError _) => True
  | _ => False
  end.
Proof.
  unfold PyFloat.of_str.
  destruct (PyInt.take_sign _) as [s body].
  destruct (_ || _); [exact I|].
  destruct (String.eqb _ "nan"); [exact I|].
  destruct (PyInt.ungroup body) as [num|]; [|exact I].
  destruct (PyFloat.cut_at _ _ num) as [mant ex].
  destruct (PyFloat.cut_at _ _ mant) as [ip fp].
  destruct ex as [xs|]; [|apply of_decimal_raises].
  destruct (PyFloat.exponent_value xs); [apply of_decimal_raises|exact I].
Qed.

(** X20. [prompt_float] returns a number only in two ways: the
    default, for a blank line when a default is given, whatever the
    minimum; or the value that [float] gives to a line typed, when that
    value is not below the minimum. So NaN, which is below nothing, is
    returned whatever the minimum is. It catches every exception of
    [float]. *)
Theorem prompt_float_answer float_str label default_val min_val inputs
        a rest out :
  prompt_float float_str label default_val min_val inputs = (a, rest, out) ->
  match a with
  | Value x =>
      exists skipped line,
        inputs = (skipped ++ line :: rest)%list /\
        is_back (PyStr.strip line) = false /\
        ((blank line /\ default_val = Some x) \/
         (PyFloat.of_str (PyStr.strip line) = Ret x /\
          forall m, min_val = Some m -> float_ltb x m = false))
  | Back =>
      exists skipped line,
        inputs = (skipped ++ line :: rest)%list /\
        is_back (PyStr.strip line) = true
  | EndOfInput => rest = []
  | Uncaught _ => False
  end /\
  (forall line more,
      inputs = line :: more -> is_back (PyStr.strip line) = false ->
      PyFloat.of_str (PyStr.strip line) = Ret S754_nan ->
      a = Value S754_nan /\ rest = more).
Proof.
  intros H. split.
  - revert a rest out H.
    induction inputs as [|line inputs IH]; intros a rest out.
    { cbn. intros [= <- <- <-]. auto. }
    cbn [prompt_float].
    assert (Hagain : forall said,
               again said
                     (prompt_float float_str label default_val min_val inputs)
               = (a, rest, out) ->
               match a with
               | Value x =>
                   exists skipped line0,
                     (line :: inputs) = (skipped ++ line0 :: rest)%list /\
                     is_back (PyStr.strip line0) = false /\
                     ((blank line0 /\ default_val = Some x) \/
                      (PyFloat.of_str (PyStr.strip line0) = Ret x /\
                       forall m, min_val = Some m -> float_ltb x m = false))
               | Back =>
                   exists skipped line0,
                     (line :: inputs) = (skipped ++ line0 :: rest)%list /\
                     is_back (PyStr.strip line0) = true
               | EndOfInput => rest = []
               | Uncaught _ => False
               end).
    { intros said H. apply again_answer in H. destruct H as (w0 & H & _).
      apply IH in H. destruct a as [x| | |r]; auto.
      - destruct H as (sk & l & -> & H). exists (line :: sk), l. auto.
      - destruct H as (sk & l & -> & H). exists (line :: sk), l. auto. }
    destruct (is_back (PyStr.strip line)) eqn:Hb.
    { intros [= <- <- <-]. exists [], line. auto. }
    destruct (String.eqb_spec (PyStr.strip line) "") as [He|He].
    + destruct default_val as [d|].
      * intros [= <- <- <-]. exists [], line. split; [reflexivity|].
        split; [exact Hb|]. left. split; [exact He|reflexivity].
      * pose proof (float_of_str_raises (PyStr.strip line)) as Hr.
        destruct (PyFloat.of_str (PyStr.strip line)) as [x|e|] eqn:Hx;
          [|destruct e; try contradiction; apply Hagain|contradiction].
        destruct min_val as [m|].
        -- destruct (float_ltb x m) eqn:Hlt; [apply Hagain|].
           intros [= <- <- <-]. exists [], line. split; [reflexivity|].
           split; [exact Hb|]. right. split; [exact Hx|].
           now intros ? [= <-].
        -- intros [= <- <- <-]. exists [], line. split; [reflexivity|].
           split; [exact Hb|]. right. split; [exact Hx|]. discriminate.
    + assert (Hnone : (if false then default_val else None)
                      = @None PyFloat.float) by reflexivity.
      cbn match.
      pose proof (float_of_str_raises (PyStr.strip line)) as Hr.
      destruct (PyFloat.of_str (PyStr.strip line)) as [x|e|] eqn:Hx;
        [|destruct e; try contradiction; apply Hagain|contradiction].
      destruct min_val as [m|].
      * destruct (float_ltb x m) eqn:Hlt; [apply Hagain|].
        intros [= <- <- <-]. exists [], line. split; [reflexivity|].
        split; [exact Hb|]. right. split; [exact Hx|].
        now intros ? [= <-].
      * intros [= <- <- <-]. exists [], line. split; [reflexivity|].
        split; [exact Hb|]. right. split; [exact Hx|]. discriminate.
  - intros line more -> Hb Hx. revert H. cbn [prompt_float].
    rewrite Hb, Hx.
    destruct (String.eqb_spec (PyStr.strip line) "") as [He|He];
      [rewrite He in Hx; discriminate Hx|].
    destruct min_val as [m|]; [|now intros [= <- <- <-]].
    unfold float_ltb, SFltb. cbn. now intros [= <- <- <-].
Qed.

Lemma prompt_float_answer_witness :
  fst (fst (prompt_float (fun _ => "0.01") "Price"
                         (Some (PyFloat.lit "195.00"))
                         (Some (PyFloat.lit "0.01")) [" NaN "; "3"]))
  = Value S754_nan.
Proof.
  refine (proj1 (proj2 (prompt_float_answer (fun _ => "0.01") "Price"
                          (Some (PyFloat.lit "195.00"))
                          (Some (PyFloat.lit "0.01")) [" NaN "; "3"]
                          _ _ _ _) " NaN " ["3"] _ _ _)).
  - apply surjective_pairing_3.
  - reflexivity.
  - reflexivity.
  - reflexivity.
Defined.

(** X21. [prompt_loop_back] returns a text only if it is what the
    validator gave for a line typed, with the whitespace around the line
    removed; the validator refused every line read before, and the lines
    after it are left unread. *)
Theorem prompt_loop_back_answer prompt_hint validator inputs a rest out :
  prompt_loop_back prompt_hint validator inputs = (a, rest, out) ->
  match a with
  | Value n =>
      exists skipped line,
        inputs = (skipped ++ line :: rest)%list /\
        Forall (fun l => fst (validator (PyStr.strip l)) = None) skipped /\
        is_back (PyStr.strip line) = false /\
        fst (validator (PyStr.strip line)) = Some n
  | Back =>
      exists skipped line,
        inputs = (skipped ++ line :: rest)%list /\
        Forall (fun l => fst (validator (PyStr.strip l)) = None) skipped /\
        is_back (PyStr.strip line) = true
  | EndOfInput =>
      rest = [] /\
      Forall (fun l => fst (validator (PyStr.strip l)) = None) inputs
  | Uncaught _ => False
  end.
Proof.
  revert a rest out. induction inputs as [|line inputs IH]; intros a rest out.
  - cbn. intros [= <- <- <-]. auto.
  - cbn [prompt_loop_back].
    destruct (is_back (PyStr.strip line)) eqn:Hb.
    { intros [= <- <- <-]. exists [], line. auto. }
    destruct (validator (PyStr.strip line)) as [[n|] said] eqn:Hv.
    + intros [= <- <- <-]. exists [], line. rewrite Hv. auto.
    + intros H. apply again_answer in H. destruct H as (w0 & H & _).
      apply IH in H.
      assert (Hno : fst (validator (PyStr.strip line)) = None)
        by now rewrite Hv.
      destruct a as [n| | |r].
      * destruct H as (sk & l & -> & Hsk & H).
        exists (line :: sk), l. split; [reflexivity|]. split; auto.
      * destruct H as (sk & l & -> & Hsk & H).
        exists (line :: sk), l. split; [reflexivity|]. split; auto.
      * destruct H as [-> H]. auto.
      * exact H.
Qed.

Lemma prompt_loop_back_answer_witness :
  exists skipped line,
    ["phones"; " books "] = (skipped ++ line :: [])%list /\
    Forall (fun l => fst (validate_category_input (PyStr.strip l)) = None)
           skipped.
Proof.
  destruct (prompt_loop_back_answer "Category" validate_category_input
              ["phones"; " books "] (Value "Books") []
              [Asked "Category (type 'cd ..' to go back): ";
               Printed "Unknown category. Available categories are:";
               Printed "Electronics, Books, Furniture, Fashion, Sports, Home, Toys, Others";
               Asked "Category (type 'cd ..' to go back): "])
    as (skipped & line & H1 & H2 & _).
  - reflexivity.
  - exists skipped, line. auto.
Defined.

(* ------------------------------------------------------------------ *)
(** ** The validators and [post_listing] agree *)

Lemma category_fixed c : In c CATEGORIES -> title_case c = c.
Proof.
  cbn. intros H.
  repeat (destruct H as [<-|H]; [reflexivity|]). contradiction.
Qed.

Lemma condition_fixed c :
  In c CONDITIONS -> PyStr.upper (PyStr.strip c) = c.
Proof.
  cbn. intros H.
  repeat (destruct H as [<-|H]; [reflexivity|]). contradiction.
Qed.

(** X22. The validators of the client and [post_listing] draw
    the same line. A text that [validate_category_input] refuses makes
    [post_listing] raise "Unknown category." and change nothing; a text
    that it accepts is returned in normal form, is one of [CATEGORIES],
    is accepted again as it is, and never makes [post_listing] raise that
    error. The same holds of [validate_condition_input], [CONDITIONS] and
    "Unknown condition.", for a category that is accepted. *)
Theorem validators_agree draws w seller name brand description price quantity :
  (forall category condition,
      match fst (validate_category_input category) with
      | Some c =>
          c = title_case category /\ In c CATEGORIES /\
          validate_category_input c = (Some c, []) /\
          fst (fst (post_listing draws w seller name category brand condition
                                 description price quantity))
          <> Raise (ValueError "Unknown category.")
      | None =>
          post_listing draws w seller name category brand condition
                       description price quantity
          = (Raise (ValueError "Unknown category."), w, draws)
      end) /\
  (forall category condition,
      fst (validate_category_input category) <> None ->
      match fst (validate_condition_input condition) with
      | Some c =>
          c = PyStr.upper (PyStr.strip condition) /\ In c CONDITIONS /\
          validate_condition_input c = (Some c, []) /\
          fst (fst (post_listing draws w seller name category brand condition
                                 description price quantity))
          <> Raise (ValueError "Unknown condition.")
      | None =>
          post_listing draws w seller name category brand condition
                       description price quantity
          = (Raise (ValueError "Unknown condition."), w, draws)
      end).
Proof.
  split.
  - intros category condition.
    unfold validate_category_input, post_listing.
    destruct (PyStr.mem (title_case category) CATEGORIES) eqn:Hc;
      cbn [fst negb]; [|reflexivity].
    pose proof (mem_In _ _ Hc) as Hin.
    split; [reflexivity|]. split; [exact Hin|].
    split.
    { rewrite title_case_normal, Hc. reflexivity. }
    destruct (negb (PyStr.mem _ CONDITIONS)); [discriminate|].
    destruct (_ || _); [discriminate|].
    destruct (generate_id draws (items (market w))) as [[iid d1]|];
      [|discriminate].
    cbn [market set_items listings].
    destruct (generate_id d1 (listings (market w))) as [[lid d2]|];
      discriminate.
  - intros category condition.
    unfold validate_category_input, validate_condition_input, post_listing.
    destruct (PyStr.mem (title_case category) CATEGORIES) eqn:Hc;
      cbn [fst negb]; [intros _|intros H; now destruct H].
    destruct (PyStr.mem (PyStr.upper (PyStr.strip condition)) CONDITIONS)
      eqn:Hd; cbn [fst negb]; [|reflexivity].
    pose proof (mem_In _ _ Hd) as Hin.
    split; [reflexivity|]. split; [exact Hin|].
    split.
    { rewrite (condition_fixed _ Hin), Hd. reflexivity. }
    destruct (_ || _); [discriminate|].
    destruct (generate_id draws (items (market w))) as [[iid d1]|];
      [|discriminate].
    cbn [market set_items listings].
    destruct (generate_id d1 (listings (market w))) as [[lid d2]|];
      discriminate.
Qed.

Lemma validators_agree_witness :
  post_listing [6; 7] new_world demo_seller "iPhone 8" "Electronics" "Apple"
               "fine" "desc" (PyFloat.lit "250") 2
  = (Raise (ValueError "Unknown condition."), new_world, [6; 7]).
Proof.
  refine (proj2 (validators_agree [6; 7] new_world demo_seller "iPhone 8"
                   "Apple" "desc" (PyFloat.lit "250") 2)
                "Electronics" "fine" _).
  discriminate.
Defined.

(* ------------------------------------------------------------------ *)
(** ** What the client asks for, [post_listing] accepts *)

Lemma price_suggestion_cases (P : PyFloat.float * PyFloat.float * PyFloat.float
                                  -> bool) :
  forallb
    (fun b =>
       forallb
         (fun m =>
            P (let s := PyFloat.round2 (PyFloat.mul b m) in
               (s, PyFloat.round2 (PyFloat.mul s (PyFloat.lit "0.9")),
                PyFloat.round2 (PyFloat.mul s (PyFloat.lit "1.1")))))
         (PyFloat.lit "0.65" :: map snd CONDITION_MULTIPLIER))
    (table_get "Others" PyFloat.zero CATEGORY_BASELINE
     :: map snd CATEGORY_BASELINE) = true ->
  forall category condition, P (price_suggestion category condition) = true.
Proof.
  intros Hall category condition. unfold price_suggestion.
  pose proof (table_get_In (title_case category)
                (table_get "Others" PyFloat.zero CATEGORY_BASELINE)
                CATEGORY_BASELINE) as Hb.
  pose proof (table_get_In (PyStr.upper (PyStr.strip condition))
                (PyFloat.lit "0.65") CONDITION_MULTIPLIER) as Hm.
  set (b := table_get (title_case category) _ _) in *.
  set (m := table_get (PyStr.upper (PyStr.strip condition)) _ _) in *.
  clearbody b m.
  rewrite forallb_forall in Hall. specialize (Hall b Hb).
  rewrite forallb_forall in Hall. exact (Hall m Hm).
Qed.

Lemma suggested_positive category condition :
  PyFloat.leb (fst (fst (price_suggestion category condition))) PyFloat.zero
  = false.
Proof.
  apply negb_true_iff.
  apply (price_suggestion_cases
           (fun t => negb (PyFloat.leb (fst (fst t)) PyFloat.zero))).
  vm_compute. reflexivity.
Qed.

Lemma not_below_cent x :
  float_ltb x (PyFloat.lit "0.01") = false -> PyFloat.leb x PyFloat.zero = false.
Proof.
  set (c := PyFloat.lit "0.01"). vm_compute in c. subst c.
  unfold float_ltb, PyFloat.leb, PyFloat.zero, SFltb, SFleb.
  destruct x as [s|s| |s m e]; try destruct s; intros H;
    try reflexivity; lazy in H; discriminate H.
Qed.

(** What [prompted_listing_accepted] needs of the three prompts. *)
Lemma prompt_loop_back_value prompt_hint validator inputs n rest out :
  prompt_loop_back prompt_hint validator inputs = (Value n, rest, out) ->
  exists line, fst (validator (PyStr.strip line)) = Some n.
Proof.
  revert rest out. induction inputs as [|line inputs IH]; intros rest out.
  - discriminate.
  - cbn [prompt_loop_back].
    destruct (is_back (PyStr.strip line)); [discriminate|].
    destruct (validator (PyStr.strip line)) as [[m|] said] eqn:Hv.
    + intros [= <- <- <-]. exists line. now rewrite Hv.
    + intros H. apply again_answer in H. destruct H as (w0 & H & _). eauto.
Qed.

Lemma prompt_float_value float_str label default_val min_val inputs x rest out :
  prompt_float float_str label default_val min_val inputs
  = (Value x, rest, out) ->
  default_val = Some x \/
  forall m, min_val = Some m -> float_ltb x m = false.
Proof.
  revert rest out. induction inputs as [|line inputs IH]; intros rest out.
  - discriminate.
  - cbn [prompt_float].
    assert (Hagain : forall said,
               again said
                     (prompt_float float_str label default_val min_val inputs)
               = (Value x, rest, out) ->
               default_val = Some x \/
               forall m, min_val = Some m -> float_ltb x m = false).
    { intros said H. apply again_answer in H. destruct H as (w0 & H & _).
      eauto. }
    destruct (is_back (PyStr.strip line)); [discriminate|].
    destruct (if String.eqb (PyStr.strip line) "" then default_val else None)
      as [d|] eqn:Hd.
    + intros [= <- <- <-]. left.
      destruct (String.eqb (PyStr.strip line) ""); [exact Hd|discriminate].
    + destruct (PyFloat.of_str (PyStr.strip line)) as [y|e|];
        [|destruct e; (apply Hagain || discriminate)|discriminate].
      destruct min_val as [m|].
      * destruct (float_ltb y m) eqn:Hlt; [apply Hagain|].
        intros [= <- <- <-]. right. now intros ? [= <-].
      * intros [= <- <- <-]. right. discriminate.
Qed.

Lemma prompt_int_value label min_val max_val inputs x rest out :
  prompt_int label min_val max_val inputs = (Value x, rest, out) ->
  forall m, min_val = Some m -> m <= x.
Proof.
  revert rest out. induction inputs as [|line inputs IH]; intros rest out.
  - discriminate.
  - cbn [prompt_int].
    assert (Hagain : forall said,
               again said (prompt_int label min_val max_val inputs)
               = (Value x, rest, out) ->
               forall m, min_val = Some m -> m <= x).
    { intros said H. apply again_answer in H. destruct H as (w0 & H & _).
      eauto. }
    destruct (is_back (PyStr.strip line)); [discriminate|].
    destruct (PyInt.of_str (PyStr.strip line)) as [y|e|];
      [|destruct e; (apply Hagain || discriminate)|discriminate].
    destruct min_val as [m|].
    + destruct (Z.ltb_spec y m) as [Hlt|Hge]; [apply Hagain|].
      destruct max_val as [M|].
      * destruct (M <? y); [apply Hagain|].
        intros [= <- <- <-] ? [= <-]. exact Hge.
      * intros [= <- <- <-] ? [= <-]. exact Hge.
    + discriminate.
Qed.

(** X23. The values that the client collects for a new listing
    are always accepted: with a category returned by the category prompt,
    a condition returned by the condition prompt, a price returned by the
    price prompt, whose default is the suggested price and whose minimum
    is 0.01, and a quantity returned by the quantity prompt, whose
    minimum is 1, [post_listing] raises no exception. *)
Theorem prompted_listing_accepted
        float_str hint1 hint2 in1 in2 in3 in4 rest1 rest2 rest3 rest4
        out1 out2 out3 out4 category condition price quantity :
  prompt_loop_back hint1 validate_category_input in1
  = (Value category, rest1, out1) ->
  prompt_loop_back hint2 validate_condition_input in2
  = (Value condition, rest2, out2) ->
  prompt_float float_str "Price"
               (Some (fst (fst (price_suggestion category condition))))
               (Some (PyFloat.lit "0.01")) in3
  = (Value price, rest3, out3) ->
  prompt_int "Quantity" (Some 1) None in4 = (Value quantity, rest4, out4) ->
  forall draws w seller name brand description e,
    fst (fst (post_listing draws w seller name category brand condition
                           description price quantity)) <> Raise e.
Proof.
  intros H1 H2 H3 H4 draws w seller name brand description e.
  apply prompt_loop_back_value in H1. destruct H1 as (l1 & H1).
  apply prompt_loop_back_value in H2. destruct H2 as (l2 & H2).
  apply prompt_float_value in H3.
  apply prompt_int_value with (m := 1) in H4; [|reflexivity].
  assert (Hc : PyStr.mem (title_case category) CATEGORIES = true).
  { revert H1. unfold validate_category_input.
    destruct (PyStr.mem (title_case (PyStr.strip l1)) CATEGORIES) eqn:Hm;
      [|discriminate].
    cbn. intros [= <-]. now rewrite title_case_normal. }
  assert (Hd : PyStr.mem (PyStr.upper (PyStr.strip condition)) CONDITIONS
               = true).
  { revert H2. unfold validate_condition_input.
    destruct (PyStr.mem (PyStr.upper (PyStr.strip (PyStr.strip l2)))
                        CONDITIONS) eqn:Hm; [|discriminate].
    cbn. intros [= <-]. now rewrite (condition_fixed _ (mem_In _ _ Hm)). }
  assert (Hp : PyFloat.leb price PyFloat.zero = false).
  { destruct H3 as [[= <-]|H3].
    - apply suggested_positive.
    - apply not_below_cent. now apply H3. }
  assert (Hq : (quantity <=? 0) = false) by (apply Z.leb_gt; lia).
  unfold post_listing. rewrite Hc, Hd, Hp, Hq. cbn [negb orb].
  destruct (generate_id draws (items (market w))) as [[iid d1]|];
    [|discriminate].
  cbn [market set_items listings].
  destruct (generate_id d1 (listings (market w))) as [[lid d2]|];
    discriminate.
Qed.

Lemma prompted_listing_accepted_witness :
  fst (fst (post_listing [6; 7] new_world demo_seller "iPhone 8" "Electronics"
                         "Apple" "GOOD" "desc" S754_nan 2))
  <> Raise (ValueError "Price and quantity must be positive.").
Proof.
  refine (prompted_listing_accepted (fun _ => "0.01") "Category" "Condition"
            [" electronics "] ["good"] ["nan"] ["2"] [] [] [] []
            _ _ _ _ "Electronics" "GOOD" S754_nan 2 _ _ _ _
            [6; 7] new_world demo_seller "iPhone 8" "Apple" "desc" _).
  - reflexivity.
  - reflexivity.
  - vm_compute. reflexivity.
  - reflexivity.
Defined.

(* ------------------------------------------------------------------ *)
(** ** The listings shown are the listings on sale *)

Lemma show_each_items w ls :
  (forall l, In l ls ->
             exists it, Dict.get (Listing.item_id l) (items (market w)) = Some it) ->
  fst (show_each w ls) = Ret tt /\
  List.length (snd (show_each w ls)) = List.length ls.
Proof.
  induction ls as [|l ls IH]; intros H; [now split|].
  cbn [show_each]. unfold show_listing.
  destruct (H l (or_introl eq_refl)) as (it & ->).
  destruct IH as [IH1 IH2]; [intros l' Hl'; apply H; now right|].
  destruct (show_each w ls) as [r out]. cbn in *. now rewrite IH2.
Qed.

Lemma filter_both {A : Type} (f g : A -> bool) (l : list A) :
  filter (fun x => f x && g x) l = filter g (filter f l).
Proof.
  induction l as [|a l IH]; [reflexivity|]. cbn.
  destruct (f a); cbn; [|exact IH]. destruct (g a); now rewrite IH.
Qed.

(** X24. In every world the controller can reach,
    [list_active_listings] raises nothing and returns the listings that
    are not deleted, active and in stock, in table order, after printing
    one line for each of them under a line with their number, or a single
    line when there is none. The results of the two searches are the
    listings of this list whose item has the category, or the name,
    searched; and a listing of the table is in this list exactly when
    [buy_listing] does not refuse it as not available. *)
Theorem list_active_listings_shown w :
  reachable w ->
  let active := filter visible (Dict.values (listings (market w))) in
  fst (list_active_listings w) = Ret active /\
  List.length (snd (list_active_listings w))
  = match active with [] => 1%nat | _ :: _ => S (List.length active) end /\
  (forall category,
      search_by_category w category
      = Ret (filter (item_has (fun item => String.eqb (Item.category item)
                                                      (title_case category))
                              (items (market w))) active)) /\
  (forall full_name,
      search_by_full_name w full_name
      = Ret (filter (item_has (fun item => String.eqb (Item.name item)
                                                      (title_case full_name))
                              (items (market w))) active)) /\
  (forall k l draws buyer q,
      Dict.get k (listings (market w)) = Some l ->
      (In l active <->
       fst (fst (buy_listing draws w buyer k q))
       <> Raise (ValueError "Listing not available."))).
Proof.
  intros Hr active.
  pose proof (reachable_invariant w Hr) as Hinv.
  assert (Hitems : forall l, In l active ->
             exists it, Dict.get (Listing.item_id l) (items (market w)) = Some it).
  { intros l Hl. apply filter_In in Hl. destruct Hl as [Hl Hv].
    now apply invariant_search_items. }
  destruct (show_each_items w active Hitems) as [Hs1 Hs2].
  split; [|split; [|split; [|split]]].
  - unfold list_active_listings. fold active.
    destruct active as [|a rest] eqn:Ha; [reflexivity|].
    destruct (show_each w (a :: rest)) as [r out]. cbn in Hs1. subst r.
    reflexivity.
  - unfold list_active_listings. fold active.
    destruct active as [|a rest] eqn:Ha; [reflexivity|].
    destruct (show_each w (a :: rest)) as [r out]. cbn in Hs2. cbn.
    now rewrite Hs2.
  - intros category. unfold search_by_category.
    rewrite search_listings_filter by now apply invariant_search_items.
    now rewrite filter_both.
  - intros full_name. unfold search_by_full_name.
    rewrite search_listings_filter by now apply invariant_search_items.
    now rewrite filter_both.
  - intros k l draws buyer q Hg.
    pose proof (buy_listing_result draws w buyer k q) as Hres.
    cbn zeta in Hres. rewrite Hg in Hres.
    assert (Hin : In l (Dict.values (listings (market w)))).
    { eapply In_pair_values. apply get_In. exact Hg. }
    assert (Hvis : Listing.deleted l || negb (Listing.active l)
                   || (Listing.quantity l <=? 0) = negb (visible l)).
    { unfold visible. destruct (Listing.deleted l), (Listing.active l);
        cbn [negb orb andb]; try reflexivity.
      destruct (Z.leb_spec (Listing.quantity l) 0),
        (Z.ltb_spec 0 (Listing.quantity l)); try reflexivity; lia. }
    rewrite Hvis in Hres. unfold active. rewrite filter_In.
    destruct (visible l); cbn [negb] in Hres.
    + split; [intros _|intros _; now split].
      destruct (_ || _).
      * rewrite Hres. discriminate.
      * intros Heq. apply (Hres UnavailableError).
        eexists. split; [exact Heq|reflexivity].
    + split; [intros [_ H]; discriminate H|].
      intros H. now destruct H.
Qed.

Lemma list_active_listings_shown_witness :
  fst (list_active_listings demo_world)
  = Ret (filter visible (Dict.values (listings (market demo_world)))).
Proof.
  exact (proj1 (list_active_listings_shown demo_world demo_world_reachable)).
Defined.

(* ------------------------------------------------------------------ *)
(** ** The item of an order is never missing *)

(** X25. In every world the controller can reach, the line that
    [show_order] prints for a stored order names the item of the listing
    bought, with its brand: the tables have the listing and the item, and
    the words kept for a missing listing are never printed. *)
Theorem show_order_names_item w :
  reachable w ->
  forall k order, In (k, order) (orders (market w)) ->
  exists lis it,
    Dict.get (Order.listing_id order) (listings (market w)) = Some lis /\
    Dict.get (Listing.item_id lis) (items (market w)) = Some it /\
    show_order w order
    = Printed ("- Order ID: " ++ Order.id order ++ " | Item: " ++ Item.name it
               ++ " | " ++ "Brand: " ++ Item.brand it ++ " | Qty: "
               ++ PyInt.to_str (Order.quantity order) ++ " | " ++ "Unit: $"
               ++ PyFloat.format2 (Order.unit_price order) ++ " | Total: $"
               ++ PyFloat.format2 (Order.total_price order) ++ " | "
               ++ "Buyer: " ++ username_or_unknown w (Order.buyer_id order)
               ++ " | Seller: " ++ username_or_unknown w (Order.seller_id order)
               ++ " | Status: COMPLETED").
Proof.
  intros Hr k order Hin.
  destruct (wf_order w (reachable_well_formed w Hr) k order Hin)
    as (lis & amount & Hl & _ & _ & _ & _ & _ & Hst).
  pose proof (reachable_invariant w Hr) as Hinv.
  destruct (inv_listing_ok w Hinv _ _ (get_In _ _ _ Hl))
    as (_ & (it & Hit) & _).
  exists lis, it. split; [exact Hl|]. split; [exact Hit|].
  unfold show_order. now rewrite Hl, Hit, Hst.
Qed.

Lemma show_order_names_item_witness :
  exists lis it,
    Dict.get (Order.listing_id demo_order) (listings (market sold_world))
    = Some lis /\
    Dict.get (Listing.item_id lis) (items (market sold_world)) = Some it.
Proof.
  destruct (show_order_names_item sold_world sold_world_reachable
              "100008" demo_order) as (lis & it & H1 & H2 & _).
  - vm_compute. left. reflexivity.
  - exists lis, it. split; assumption.
Defined.

(* ------------------------------------------------------------------ *)
(** ** A call that fails changes nothing *)



(* ------------------------------------------------------------------ *)
(** ** The contract of [post_listing] *)



(* ------------------------------------------------------------------ *)
(** ** Loading stops at the first row that cannot be read *)

Lemma load_rows_app {V : Type} (from_row_func : row -> res V) id_key
      (rows more : list row) (dst table : Dict.t V) :
  load_rows from_row_func id_key rows dst = (Ret tt, table) ->
  load_rows from_row_func id_key (rows ++ more) dst
  = load_rows from_row_func id_key more table.
Proof.
  revert dst. induction rows as [|r rows IH]; intros dst;
    cbn [load_rows List.app].
  - now intros [= ->].
  - destruct (row_get id_key r) as [k|]; [|apply IH].
    destruct (PyStr.is_empty k); [apply IH|].
    destruct (from_row_func r); [apply IH|discriminate|discriminate].
Qed.

(** X28. [load_all_csv] is not atomic. When the users and the
    items files load, and the listings file has a row with a key that
    [listing_from_row] cannot read, [load_all_csv] raises the exception
    of that row: the users and the items are those of their files, the
    listings are those of the rows before the bad one, the rest of the
    file is not read, and the orders, in memory and on file, are
    untouched. *)
Theorem load_all_csv_stops_at_bad_row w us fu its fi good bad more e table :
  _load_csv (USERS_CSV (disk w)) user_from_row "user_id" = (Ret tt, us, fu) ->
  _load_csv (ITEMS_CSV (disk w)) item_from_row "item_id" = (Ret tt, its, fi) ->
  LISTINGS_CSV (disk w) = Some (good ++ bad :: more)%list ->
  load_rows listing_from_row "listing_id" good Dict.empty = (Ret tt, table) ->
  has_key "listing_id" bad = true ->
  listing_from_row bad = Raise e ->
  load_all_csv w
  = (Raise e,
     Build_World
       (Build_Marketplace us its table (orders (market w)))
       (Build_Disk fu fi (LISTINGS_CSV (disk w)) (ORDERS_CSV (disk w)))).
Proof.
  intros Hu Hi Hfile Hgood Hkey Hbad.
  unfold load_all_csv. rewrite Hu.
  cbn [market disk USERS_CSV ITEMS_CSV LISTINGS_CSV ORDERS_CSV
       users items listings orders].
  rewrite Hi.
  cbn [market disk USERS_CSV ITEMS_CSV LISTINGS_CSV ORDERS_CSV
       users items listings orders].
  rewrite Hfile. unfold _load_csv at 1. cbn [ensure_csv].
  rewrite (load_rows_app _ _ _ _ _ _ Hgood). cbn [load_rows].
  unfold has_key in Hkey.
  destruct (row_get "listing_id" bad) as [k|]; [|discriminate].
  destruct (PyStr.is_empty k); [discriminate|].
  rewrite Hbad. reflexivity.
Qed.

Lemma load_all_csv_stops_at_bad_row_witness :
  fst (load_all_csv
         (Build_World empty_market
            (Build_Disk None None
               (Some [Listing.to_row demo_listing;
                      [("listing_id", "100009"); ("item_id", "100006");
                       ("seller_id", "100005"); ("price", "12,50")]])
               None)))
  = Raise PyFloat.bad_float.
Proof.
  refine (f_equal fst
            (load_all_csv_stops_at_bad_row
               (Build_World empty_market
                  (Build_Disk None None
                     (Some [Listing.to_row demo_listing;
                            [("listing_id", "100009"); ("item_id", "100006");
                             ("seller_id", "100005"); ("price", "12,50")]])
                     None))
               Dict.empty (Some []) Dict.empty (Some [])
               [Listing.to_row demo_listing]
               [("listing_id", "100009"); ("item_id", "100006");
                ("seller_id", "100005"); ("price", "12,50")]
               [] PyFloat.bad_float [("100007", demo_listing)]
               _ _ _ _ _ _)).
  - reflexivity.
  - reflexivity.
  - reflexivity.
  - vm_compute. reflexivity.
  - reflexivity.
  - reflexivity.
Defined.
